(** * Attendance engine: face verification, liveness and case reconciliation

    A shallow embedding of the decision logic of the attendance backend
    (backend/services/siamese_network.py, face_recognition_service.py,
    qr_service.py, attendance_service.py and the capture and review handlers
    of backend/main.py), with the properties of the design document checked
    against it.

    Conventions of the embedding:
    - Python floats are exact rationals ([Q]); rounding is not modelled.
    - The numeric kernels (image decoding, embedding network, FFT, standard
      deviation, cosine similarity) are fields of the service records: the
      control flow around them is the code's, their values are inputs.
    - A handler takes the database and gives back its reply and the database
      as committed when it returns; a rollback gives back what was committed
      before. The store itself never fails.
    - [datetime.now()] is an argument of every handler that reads the clock. *)

From Stdlib Require Import String List Arith ZArith QArith Qminmax Qabs Bool Lia Lqa
  Ascii DecimalString.
Import ListNotations.

Set Implicit Arguments.
Close Scope Q_scope.
Open Scope nat_scope.

(** ** Python values *)

(** A call that either returns or raises; [e] is [str(e)] of the exception. *)
Inductive outcome (A : Type) : Type :=
| Ok (a : A)
| Raise (e : string).
Arguments Ok {A} a.
Arguments Raise {A} e.

Definition bytes := list Byte.byte.

(** Truth value of an [Optional[str]]: [None] and the empty string are falsy. *)
Definition truthy (o : option string) : bool :=
  match o with
  | Some s => negb (String.eqb s "")
  | None => false
  end.

Definition is_some {A : Type} (o : option A) : bool :=
  match o with Some _ => true | None => false end.

(** [x < y] and [x >= y] on floats. *)
Definition Qlt_bool (x y : Q) : bool := negb (Qle_bool y x).
Definition Qge_bool (x y : Q) : bool := Qle_bool y x.

(** ** datetime *)

Module Datetime.

Record time := mk_time
  { hour : nat; minute : nat; second : nat; microsecond : nat }.

Record date := mk_date { year : nat; month : nat; day : nat }.

Record datetime := mk_datetime { date_of : date; time_of : time }.

(** [a > b] on [datetime.time]: the fields compared in order. *)
Definition time_gt (a b : time) : bool :=
  if hour b <? hour a then true
  else if hour a <? hour b then false
  else if minute b <? minute a then true
  else if minute a <? minute b then false
  else if second b <? second a then true
  else if second a <? second b then false
  else microsecond b <? microsecond a.

Definition digit (n : nat) : string :=
  String (ascii_of_nat (48 + n mod 10)) EmptyString.

Definition pad2 (n : nat) : string := (digit (n / 10) ++ digit n)%string.

Definition pad4 (n : nat) : string :=
  (digit (n / (10 * 100)) ++ digit (n / 100) ++ digit (n / 10)
   ++ digit n)%string.

(** [d.strftime("%Y-%m-%d")] *)
Definition strftime_Ymd (d : date) : string :=
  (pad4 (year d) ++ "-" ++ pad2 (month d) ++ "-" ++ pad2 (day d))%string.

(** [t.strftime("%H:%M:%S")] *)
Definition strftime_HMS (t : time) : string :=
  (pad2 (hour t) ++ ":" ++ pad2 (minute t) ++ ":" ++ pad2 (second t))%string.

(** Microseconds since midnight. *)
Definition to_microseconds (t : time) : Z :=
  (((Z.of_nat (hour t) * 60 + Z.of_nat (minute t)) * 60
    + Z.of_nat (second t)) * 1000000 + Z.of_nat (microsecond t))%Z.

Definition valid_time (t : time) : Prop :=
  hour t < 24 /\ minute t < 60 /\ second t < 60
  /\ (Z.of_nat (microsecond t) < 1000000)%Z.

End Datetime.
Import Datetime.

(** ** backend/database.py: the tables the engine reads and writes

    Columns that no modelled handler reads or writes (contact data, ledger
    hashes, [created_at]) are left out. *)

Record Student := mk_Student
  { st_id : nat;
    st_register_number : string;
    st_name : string;
    st_department : string;
    st_year : nat;
    st_section : string;
    st_face_encoding : option string;
    st_is_active : bool }.

Record AttendanceRecord := mk_AttendanceRecord
  { ar_id : nat;
    ar_student_register_number : string;
    ar_date : string;
    ar_time : datetime;
    ar_status : string;
    ar_verification_method : string;
    ar_face_confidence : option Q;
    ar_qr_verified : bool;
    ar_verification_status : string;
    ar_verified_by : option string;
    ar_verification_notes : option string;
    ar_notification_sent : bool;
    ar_updated_at : option datetime }.

Record PendingVerification := mk_PendingVerification
  { pv_id : nat;
    pv_attendance_record_id : nat;
    pv_student_register_number : string;
    pv_student_name : string;
    pv_date : string;
    pv_time : datetime;
    pv_face_confidence : option Q;
    pv_manual_register_number : option string;
    pv_status : string;
    pv_reviewed_by : option string;
    pv_review_notes : option string;
    pv_reviewed_at : option datetime }.

Record Session := mk_Session
  { students : list Student;
    attendance_records : list AttendanceRecord;
    pending_verifications : list PendingVerification }.

(** The autoincrement key of a new row. *)
Definition next_id (ids : list nat) : nat := S (fold_right Nat.max 0 ids).

(** [db.query(Student).filter(register_number == r, is_active == True).first()] *)
Definition query_active_student (db : Session) (r : string) : option Student :=
  find (fun s => String.eqb (st_register_number s) r && st_is_active s)
       (students db).

(** [db.query(Student).filter(register_number == r).first()] *)
Definition query_student (db : Session) (r : string) : option Student :=
  find (fun s => String.eqb (st_register_number s) r) (students db).

(** [db.query(AttendanceRecord).filter(student_register_number == r,
    date == d).first()] *)
Definition query_attendance (db : Session) (r d : string)
  : option AttendanceRecord :=
  find (fun a => String.eqb (ar_student_register_number a) r
                 && String.eqb (ar_date a) d)
       (attendance_records db).

(** [db.add(record)] of an attendance row, its key filled in on flush. *)
Definition add_attendance (db : Session) (mk : nat -> AttendanceRecord)
  : AttendanceRecord * Session :=
  let a := mk (next_id (map ar_id (attendance_records db))) in
  (a, mk_Session (students db) (attendance_records db ++ [a])
                 (pending_verifications db)).

Definition add_pending (db : Session) (mk : nat -> PendingVerification)
  : PendingVerification * Session :=
  let p := mk (next_id (map pv_id (pending_verifications db))) in
  (p, mk_Session (students db) (attendance_records db)
                 (pending_verifications db ++ [p])).

(** Writing back a changed row, found by its primary key. *)
Definition update_student (db : Session) (s' : Student) : Session :=
  mk_Session
    (map (fun s => if st_id s =? st_id s' then s' else s) (students db))
    (attendance_records db) (pending_verifications db).

Definition update_attendance (db : Session) (a' : AttendanceRecord) : Session :=
  mk_Session (students db)
    (map (fun a => if ar_id a =? ar_id a' then a' else a)
         (attendance_records db))
    (pending_verifications db).

Definition update_pending (db : Session) (p' : PendingVerification) : Session :=
  mk_Session (students db) (attendance_records db)
    (map (fun p => if pv_id p =? pv_id p' then p' else p)
         (pending_verifications db)).

(** ** backend/services/siamese_network.py *)

(** A decoded colour image: rows of pixels of channel values. *)
Definition ndarray := list (list (list nat)).

(** One MediaPipe face-mesh landmark. *)
Record landmark := mk_landmark { lm_x : Q; lm_y : Q; lm_z : Q }.

(** The numeric routines the service calls into (cv2, numpy, MediaPipe and
    the embedding network). [k_face_mesh] is [self.face_mesh]: [None] when
    [_initialize_liveness_detection] failed; its result is
    [results.multi_face_landmarks], [None] when no face was found, else the
    landmarks of the first face. [k_encode_face] is [encode_face], which
    catches its own exceptions and returns [None]. *)
Record Kernels := mk_Kernels
  { k_imdecode : bytes -> outcome (option ndarray);
    k_cvtColor_RGB : ndarray -> outcome ndarray;
    k_face_mesh : option (ndarray -> outcome (option (list landmark)));
    k_std : list Q -> outcome Q;
    k_laplacian_var : ndarray -> outcome Q;
    k_fft_std_over_mean : ndarray -> outcome Q;
    k_skin_ratio : ndarray -> outcome Q;
    k_sat_std : ndarray -> outcome Q;
    k_encode_face : bytes -> option string;
    k_json_loads : string -> option (list Q);
    k_calculate_similarity : list Q -> list Q -> Q }.

(** [float(os.getenv(key, default))] with the value already parsed. *)
Definition getenv_float (environ : string -> option Q) (key : string)
  (default : Q) : Q :=
  match environ key with
  | Some v => v
  | None => default
  end.

Module SiameseNetworkService.

Record t := mk
  { threshold : Q;
    liveness_threshold : Q;
    kernels : Kernels }.

(** [__init__] *)
Definition init (environ : string -> option Q) (k : Kernels) : t :=
  mk (getenv_float environ "SIAMESE_THRESHOLD" 0.6%Q)
     (getenv_float environ "LIVENESS_THRESHOLD" 0.35%Q)
     k.

(** [[landmarks.landmark[i] for i in idx]]; [None] is the IndexError. *)
Fixpoint take_landmarks (lms : list landmark) (idx : list nat)
  : option (list landmark) :=
  match idx with
  | [] => Some []
  | i :: idx' =>
      match nth_error lms i with
      | None => None
      | Some x =>
          match take_landmarks lms idx' with
          | None => None
          | Some l => Some (x :: l)
          end
      end
  end.

Definition _calculate_eye_aspect_ratio (left_eye right_eye : list landmark)
  : Q :=
  match nth_error left_eye 1, nth_error left_eye 5,
        nth_error right_eye 1, nth_error right_eye 5 with
  | Some l1, Some l5, Some r1, Some r5 =>
      let left_height := Qabs (lm_y l1 - lm_y l5)%Q in
      let right_height := Qabs (lm_y r1 - lm_y r5)%Q in
      let avg_height := ((left_height + right_height) / 2)%Q in
      if Qlt_bool 0.15%Q avg_height && Qlt_bool avg_height 0.35%Q
      then 1.0%Q else 0.5%Q
  | _, _, _, _ => 1.0%Q
  end.

Definition _check_face_mesh_liveness (self : t) (rgb_image : ndarray) : Q :=
  match k_face_mesh (kernels self) with
  | None => 1.0%Q
  | Some process =>
      match process rgb_image with
      | Raise _ => 1.0%Q
      | Ok None => 0.0%Q
      | Ok (Some landmarks) =>
          match k_std (kernels self) (map lm_z landmarks) with
          | Raise _ => 1.0%Q
          | Ok z_std =>
              let depth_score :=
                if Qlt_bool 0.02%Q z_std
                then Qmin (z_std * 20) 1.0%Q
                else (z_std * 10)%Q in
              match take_landmarks landmarks [33; 133; 157; 158; 159; 160],
                    take_landmarks landmarks [362; 263; 387; 388; 389; 390]
              with
              | Some left_eye, Some right_eye =>
                  let eye_score :=
                    _calculate_eye_aspect_ratio left_eye right_eye in
                  (depth_score * 0.7 + eye_score * 0.3)%Q
              | _, _ => 1.0%Q
              end
          end
      end
  end.

Definition _check_texture_liveness (self : t) (image : ndarray) : Q :=
  match k_laplacian_var (kernels self) image with
  | Raise _ => 1.0%Q
  | Ok variance =>
      let texture_score :=
        if Qlt_bool 100 variance
        then Qmin (variance / 500) 1.0%Q
        else (variance / 200)%Q in
      match k_fft_std_over_mean (kernels self) image with
      | Raise _ => 1.0%Q
      | Ok ratio =>
          let pattern_score := Qmax 0 (Qmin 1 (1.0 - ratio)) in
          (texture_score * 0.7 + pattern_score * 0.3)%Q
      end
  end.

Definition _check_color_distribution (self : t) (image : ndarray) : Q :=
  match k_skin_ratio (kernels self) image with
  | Raise _ => 1.0%Q
  | Ok skin_ratio =>
      match k_sat_std (kernels self) image with
      | Raise _ => 1.0%Q
      | Ok sat_std =>
          let sat_score := Qmin (sat_std / 50) 1.0%Q in
          (skin_ratio * 0.6 + sat_score * 0.4)%Q
      end
  end.

(** The liveness score as the design document words it: depth-structure
    weight 0.5, texture weight 0.3, colour weight 0.2. *)
Definition documented_score (depth texture color : Q) : Q :=
  (0.5 * depth + 0.3 * texture + 0.2 * color)%Q.

Definition check_liveness (self : t) (image_data : bytes) : bool * Q :=
  match k_imdecode (kernels self) image_data with
  | Raise _ => (true, 1.0%Q)
  | Ok None => (false, 0.0%Q)
  | Ok (Some image) =>
      match k_cvtColor_RGB (kernels self) image with
      | Raise _ => (true, 1.0%Q)
      | Ok rgb_image =>
          let mesh_score := _check_face_mesh_liveness self rgb_image in
          let texture_score := _check_texture_liveness self image in
          let color_score := _check_color_distribution self image in
          let liveness_score :=
            (mesh_score * 0.5 + texture_score * 0.3 + color_score * 0.2)%Q in
          let is_live := Qge_bool liveness_score (liveness_threshold self) in
          (is_live, liveness_score)
      end
  end.

Definition verify_face (self : t) (image_data : bytes)
  (stored_encoding : string) : bool * Q :=
  match k_encode_face (kernels self) image_data with
  | None => (false, 0.0%Q)
  | Some new_encoding =>
      if String.eqb new_encoding "" then (false, 0.0%Q)
      else
        match k_json_loads (kernels self) stored_encoding,
              k_json_loads (kernels self) new_encoding with
        | Some stored_array, Some new_array =>
            let similarity :=
              k_calculate_similarity (kernels self) new_array stored_array in
            let is_match := Qge_bool similarity (threshold self) in
            (is_match, similarity)
        | _, _ => (false, 0.0%Q)
        end
  end.

Definition verify_face_with_liveness (self : t) (live_image_data : bytes)
  (stored_encoding : string) (check_liveness_flag : bool)
  : bool * Q * bool :=
  let '(is_live, liveness_score) :=
    if check_liveness_flag then check_liveness self live_image_data
    else (true, 1.0%Q) in
  if check_liveness_flag && negb is_live then (false, 0.0%Q, false)
  else
    let '(is_match, confidence) :=
      verify_face self live_image_data stored_encoding in
    (is_match, confidence, is_live).

(** A Python slice [l[start:stop]] with a start that is not negative: a
    negative stop counts from the end, both ends are clipped to the list. *)
Definition py_slice {A : Type} (start stop : Z) (l : list A) : list A :=
  let n := Z.of_nat (length l) in
  let stop' := if (stop <? 0)%Z then Z.max 0 (stop + n) else Z.min stop n in
  let start' := Z.min start n in
  firstn (Z.to_nat (stop' - start')) (skipn (Z.to_nat start') l).

(** A detected face: [(x, y, w, h)]. *)
Definition box := (Z * Z * Z * Z)%type.

Definition area (f : box) : Z := let '(_, _, w, h) := f in (w * h)%Z.

(** [max(faces, key=lambda f: f[2] * f[3])] after the first element: a later
    face replaces the running one only with a strictly larger area. *)
Fixpoint largest (best : box) (rest : list box) : box :=
  match rest with
  | [] => best
  | f :: rest' =>
      if (area best <? area f)%Z then largest f rest' else largest best rest'
  end.

(** [image.shape[0]] and [image.shape[1]] *)
Definition height (image : ndarray) : Z := Z.of_nat (length image).
Definition width (image : ndarray) : Z := Z.of_nat (length (hd [] image)).

(** The padded crop rectangle of [_extract_face] for the face [f]. *)
Definition padded (image : ndarray) (f : box) : box :=
  let '(x, y, w, h) := f in
  let padding := Z.quot (Z.min w h) 5 in
  let x := Z.max 0 (x - padding) in
  let y := Z.max 0 (y - padding) in
  let w := Z.min (width image - x) (w + 2 * padding) in
  let h := Z.min (height image - y) (h + 2 * padding) in
  (x, y, w, h).

(** [_extract_face]; [detectMultiScale] is the Haar cascade run on the
    grayscale image, [int(min(w, h) * 0.2)] is the quotient by 5. *)
Definition _extract_face (detectMultiScale : ndarray -> outcome (list box))
  (image : ndarray) : option ndarray :=
  match detectMultiScale image with
  | Raise _ => None
  | Ok [] => None
  | Ok (f :: faces) =>
      let '(x, y, w, h) := padded image (largest f faces) in
      Some (map (py_slice x (x + w)) (py_slice y (y + h) image))
  end.

End SiameseNetworkService.

(** ** backend/services/face_recognition_service.py *)

Module FaceRecognitionService.

(** [deepface_encode] is the DeepFace branch of [encode_face] (its own
    [try] turns every failure into [None]); [parse_stored] is the parsing
    of a stored encoding ([json.loads], then [eval]); [cosine_similarity]
    catches its own exceptions. *)
Record t := mk
  { threshold : Q;
    use_siamese : bool;
    enable_liveness : bool;
    siamese_service : SiameseNetworkService.t;
    deepface_encode : bytes -> option string;
    parse_stored : string -> option (list Q);
    cosine_similarity : string -> list Q -> Q }.

Definition encode_face (self : t) (image_data : bytes) : option string :=
  if use_siamese self
  then k_encode_face (SiameseNetworkService.kernels (siamese_service self))
                     image_data
  else deepface_encode self image_data.

(** [verify_face(image_data, stored_encoding, threshold=0.5)] *)
Definition verify_face (self : t) (image_data : bytes)
  (stored_encoding : string) (threshold : Q) : bool * Q :=
  if use_siamese self
  then SiameseNetworkService.verify_face (siamese_service self)
                                         image_data stored_encoding
  else
    match encode_face self image_data with
    | None => (false, 0.0%Q)
    | Some new_encoding =>
        if String.eqb new_encoding "" then (false, 0.0%Q)
        else
          match parse_stored self stored_encoding with
          | None => (false, 0.0%Q)
          | Some stored_array =>
              let similarity :=
                cosine_similarity self new_encoding stored_array in
              (Qge_bool similarity threshold, similarity)
          end
    end.

Definition default_threshold : Q := 0.5%Q.

(** [self.verify_face(image_data, student.face_encoding)] on a row; the
    query of [find_matching_student] returns no row without an encoding. *)
Definition verdict (self : t) (image_data : bytes) (student : Student)
  : bool * Q :=
  match st_face_encoding student with
  | Some enc => verify_face self image_data enc default_threshold
  | None => (false, 0.0%Q)
  end.

(** The loop of [find_matching_student]: the running best candidate and
    its confidence, updated student by student. *)
Fixpoint scan (self : t) (image_data : bytes) (students : list Student)
  (best_match : option Student) (highest_confidence : Q)
  : option Student * Q :=
  match students with
  | [] => (best_match, highest_confidence)
  | student :: rest =>
      let '(is_match, confidence) := verdict self image_data student in
      if is_match && Qlt_bool highest_confidence confidence
      then scan self image_data rest (Some student) confidence
      else scan self image_data rest best_match highest_confidence
  end.

(** The rows of [filter(is_active == True, face_encoding.isnot(None)).all()] *)
Definition enrolled (db : Session) : list Student :=
  filter (fun s => st_is_active s && is_some (st_face_encoding s))
         (students db).

Definition find_matching_student (self : t) (image_data : bytes)
  (db : Session) : option (Student * Q) :=
  match scan self image_data (enrolled db) None 0.0%Q with
  | (Some best_match, highest_confidence) =>
      Some (best_match, highest_confidence)
  | (None, _) => None
  end.

Definition verify_face_with_liveness (self : t) (image_data : bytes)
  (stored_encoding : string) : bool * Q * bool :=
  if use_siamese self && enable_liveness self
  then SiameseNetworkService.verify_face_with_liveness
         (siamese_service self) image_data stored_encoding true
  else
    let '(is_match, confidence) :=
      verify_face self image_data stored_encoding default_threshold in
    (is_match, confidence, true).

Definition check_liveness (self : t) (image_data : bytes) : bool * Q :=
  if use_siamese self && enable_liveness self
  then SiameseNetworkService.check_liveness (siamese_service self) image_data
  else (true, 1.0%Q).

(** [store_face_encoding]: the answer and the database as committed. *)
Definition store_face_encoding (self : t) (register_number : string)
  (image_data : bytes) (db : Session) : bool * Session :=
  match query_student db register_number with
  | None => (false, db)
  | Some student =>
      match encode_face self image_data with
      | None => (false, db)
      | Some encoding =>
          if String.eqb encoding "" then (false, db)
          else (true, mk_Session
                        (map (fun s => if st_id s =? st_id student
                                       then mk_Student (st_id student)
                                              (st_register_number student)
                                              (st_name student)
                                              (st_department student)
                                              (st_year student)
                                              (st_section student)
                                              (Some encoding)
                                              (st_is_active student)
                                       else s)
                             (students db))
                        (attendance_records db) (pending_verifications db))
      end
  end.

End FaceRecognitionService.

(** ** backend/services/qr_service.py *)

Module QRBarcodeService.

(** The decoded token: the keys of the dictionary that the callers read. *)
Record qr_dict := mk_qr
  { qr_register_number : option string;
    qr_data : option string;
    qr_type : option string }.

(** The decoding cascade, which returns [None] on every failure. *)
Record t := mk { decode_qr_from_image : bytes -> option qr_dict }.

Definition verify_student_qr (qr_data_ : qr_dict) (db : Session)
  : option Student :=
  let register_number :=
    if truthy (qr_register_number qr_data_)
    then qr_register_number qr_data_
    else qr_data qr_data_ in
  match register_number with
  | None => None
  | Some r =>
      if String.eqb r "" then None else query_active_student db r
  end.

End QRBarcodeService.

(** ** Text

    Python's [str] methods and the regular expressions that the token
    decoder uses, on text whose characters are code points below 256. *)

Module PyStr.

Definition code (c : ascii) : nat := nat_of_ascii c.

Definition between (lo hi : nat) (c : ascii) : bool :=
  (lo <=? code c) && (code c <=? hi).

(** [\d]: the decimal digits. *)
Definition is_decimal (c : ascii) : bool := between 48 57 c.

(** The characters of [str.isdigit]: the decimal digits and the
    superscripts two, three and one. *)
Definition is_digit (c : ascii) : bool :=
  is_decimal c || between 178 179 c || (code c =? 185).

(** [[A-Z]] *)
Definition is_upper (c : ascii) : bool := between 65 90 c.

(** [\w]: letters, digits, numeric characters and the underscore. *)
Definition is_word (c : ascii) : bool :=
  is_decimal c || is_upper c || between 97 122 c || (code c =? 95)
  || (code c =? 170) || between 178 179 c || (code c =? 181)
  || between 185 186 c || between 188 190 c || between 192 214 c
  || between 216 246 c || between 248 255 c.

(** The characters that [str.strip] removes. *)
Definition is_space (c : ascii) : bool :=
  between 9 13 c || between 28 32 c || (code c =? 133) || (code c =? 160).

Definition chars (s : string) : list ascii := list_ascii_of_string s.
Definition text (l : list ascii) : string := string_of_list_ascii l.

(** [s.isdigit()] *)
Definition isdigit (s : string) : bool :=
  negb (String.eqb s "") && forallb is_digit (chars s).

Fixpoint lstrip (l : list ascii) : list ascii :=
  match l with
  | c :: rest => if is_space c then lstrip rest else l
  | [] => []
  end.

(** [s.strip()] *)
Definition strip (s : string) : string :=
  text (rev (lstrip (rev (lstrip (chars s))))).

(** [c in s] *)
Definition contains (c : ascii) (s : string) : bool :=
  existsb (Ascii.eqb c) (chars s).

(** The next [n] characters are decimal digits. *)
Definition digits_at (n : nat) (l : list ascii) : bool :=
  (length (firstn n l) =? n) && forallb is_decimal (firstn n l).

(** [re.match(r'(\d{7})@', s)]: group 1 *)
Definition match_email (s : string) : option string :=
  let l := chars s in
  if digits_at 7 l
     && match nth_error l 7 with
        | Some c => Ascii.eqb c "@"
        | None => false
        end
  then Some (text (firstn 7 l)) else None.

(** [re.search(r'\b(\d{7})\b', s)]: the leftmost seven digits with no word
    character before or after; [prev_word] tells whether the character
    before [l] is a word character. *)
Fixpoint search_seven_from (prev_word : bool) (l : list ascii)
  : option string :=
  match l with
  | [] => None
  | c :: rest =>
      if negb prev_word && digits_at 7 l
         && match nth_error l 7 with
            | Some d => negb (is_word d)
            | None => true
            end
      then Some (text (firstn 7 l))
      else search_seven_from (is_word c) rest
  end.

Definition search_seven (s : string) : option string :=
  search_seven_from false (chars s).

(** [re.search(r'(\d{7})@[\w\.]+', s)]: group 1 *)
Fixpoint search_email_from (l : list ascii) : option string :=
  match l with
  | [] => None
  | c :: rest =>
      if digits_at 7 l
         && match nth_error l 7, nth_error l 8 with
            | Some a, Some d => Ascii.eqb a "@" && (is_word d || Ascii.eqb d ".")
            | _, _ => false
            end
      then Some (text (firstn 7 l))
      else search_email_from rest
  end.

Definition search_email (s : string) : option string :=
  search_email_from (chars s).

(** The longest run of decimal digits at the head, at most [n] long. *)
Fixpoint digit_run (n : nat) (l : list ascii) : list ascii :=
  match n, l with
  | S n', c :: rest => if is_decimal c then c :: digit_run n' rest else []
  | _, _ => []
  end.

(** [re.search(r'\d{7}', s)]: the match *)
Fixpoint search_digits7_from (l : list ascii) : option string :=
  match l with
  | [] => None
  | c :: rest =>
      if digits_at 7 l then Some (text (firstn 7 l))
      else search_digits7_from rest
  end.

Definition search_digits7 (s : string) : option string :=
  search_digits7_from (chars s).

(** [re.search(r'\d{5,9}', s)]: leftmost, as many digits as there are up
    to nine. *)
Fixpoint search_digits5_9_from (l : list ascii) : option string :=
  match l with
  | [] => None
  | c :: rest =>
      if digits_at 5 l then Some (text (digit_run 9 l))
      else search_digits5_9_from rest
  end.

Definition search_digits5_9 (s : string) : option string :=
  search_digits5_9_from (chars s).

(** The longest run of upper-case letters at the head, at most [n] long. *)
Fixpoint upper_run (n : nat) (l : list ascii) : list ascii :=
  match n, l with
  | S n', c :: rest => if is_upper c then c :: upper_run n' rest else []
  | _, _ => []
  end.

(** [\d{2}[A-Z]{2,4}\d{3}] at the head: a letter is no digit, so the
    letters matched are the whole run of up to four. *)
Definition academic_at (l : list ascii) : option (list ascii) :=
  if digits_at 2 l then
    let letters := upper_run 4 (skipn 2 l) in
    let k := length letters in
    if (2 <=? k) && digits_at 3 (skipn (2 + k) l)
    then Some (firstn (2 + k + 3) l) else None
  else None.

(** [re.search(r'\d{2}[A-Z]{2,4}\d{3}', s)]: the match *)
Fixpoint search_academic_from (l : list ascii) : option string :=
  match l with
  | [] => None
  | c :: rest =>
      match academic_at l with
      | Some m => Some (text m)
      | None => search_academic_from rest
      end
  end.

Definition search_academic (s : string) : option string :=
  search_academic_from (chars s).

End PyStr.

(** ** backend/services/qr_service.py: the decoding cascade *)

Module QRDecoding.
Import PyStr.
Local Open Scope string_scope.

(** A value of a JSON dictionary: a string, an integer, a boolean, [None],
    or another value (a float, a list, a dictionary), given by its [str()]
    and its truth value. *)
Inductive jvalue : Type :=
| VStr (s : string)
| VInt (n : Z)
| VBool (b : bool)
| VNull
| VOther (repr : string) (truth : bool).

(** What [json.loads] returns, and what the cascade returns. *)
Inductive json : Type :=
| JDict (items : list (string * jvalue))
| JValue (v : jvalue).

(** The outcome of [json.loads]. *)
Inductive loads : Type :=
| Loaded (v : json)
| JSONDecodeError
| OtherError.

(** A barcode found by pyzbar: its data decoded to text, and its type. *)
Record barcode := mk_barcode { b_data : string; b_type : string }.

(** The image routines of the cascade. [preprocess] is everything from the
    debug copy to the end of the list [processed_images], which it returns
    with [gray] and [sharpened]. [detectAndDecode] gives the text read by
    the OpenCV detector. [pyzbar_symbols] is [pyzbar.decode] followed, on a
    grayscale image without result, by the decode with the listed symbols;
    [pyzbar] is the plain [pyzbar.decode]. [resize] and [rotate] are the
    image transformations of the third and fourth loop. [image_to_string]
    is [None] when pytesseract cannot be imported. *)
Record t := mk
  { imdecode : bytes -> outcome (option ndarray);
    preprocess : ndarray -> outcome (list ndarray * ndarray * ndarray);
    detectAndDecode : ndarray -> outcome string;
    pyzbar_symbols : ndarray -> outcome (list barcode);
    pyzbar : ndarray -> outcome (list barcode);
    resize : ndarray -> Q -> outcome ndarray;
    rotate : ndarray -> Z -> outcome ndarray;
    image_to_string : option (ndarray -> outcome string);
    json_loads : string -> loads }.

(** One round of a loop: a value is returned, an exception sends the loop
    to its next round, or the round ends without result. *)
Inductive round : Type :=
| Returned (v : json)
| Raised
| Passed.

(** The dictionaries that the cascade builds. *)
Definition result (data type : string) (more : list (string * jvalue))
  : json :=
  JDict (("data", VStr data) :: ("type", VStr type) :: more).

Definition len_5_9 (s : string) : bool :=
  (5 <=? String.length s)%nat && (String.length s <=? 9)%nat.

(** [data and data.strip()] *)
Definition nonblank (data : string) : bool :=
  negb (String.eqb (strip data) "").

(** Text read by the OpenCV detector that is not JSON. *)
Definition classify_text (data : string) : json :=
  let data_clean := strip data in
  if isdigit data_clean && (String.length data_clean =? 7)%nat
  then result data_clean "register_number" []
  else if isdigit data_clean && len_5_9 data_clean
  then result data_clean "register_number" []
  else result data_clean "plain_text" [].

(** Text of a barcode that is not parsed as JSON. *)
Definition classify_barcode (b : barcode) : json :=
  let data_clean := strip (b_data b) in
  let more := [("barcode_type", VStr (b_type b))] in
  match (if contains "@" data_clean then match_email data_clean else None)
  with
  | Some register_num => result register_num "register_number" more
  | None =>
      if isdigit data_clean && (String.length data_clean =? 7)%nat
      then result data_clean "register_number" more
      else if isdigit data_clean && len_5_9 data_clean
      then result data_clean "register_number" more
      else
        match search_seven data_clean with
        | Some register_num => result register_num "register_number" more
        | None => result data_clean "plain_text" more
        end
  end.

(** A round of the first loop: the OpenCV detector on one preprocessed
    image. A JSON value that is not a dictionary has no [get]: the log
    line raises. *)
Definition opencv_round (self : t) (processed_img : ndarray) : round :=
  match detectAndDecode self processed_img with
  | Raise _ => Raised
  | Ok data =>
      if nonblank data then
        match json_loads self data with
        | Loaded (JDict qr_data) => Returned (JDict qr_data)
        | Loaded (JValue _) => Raised
        | JSONDecodeError => Returned (classify_text data)
        | OtherError => Raised
        end
      else Passed
  end.

(** The barcodes of one image in the second loop: the first one with text
    decides. *)
Fixpoint barcodes_json (self : t) (barcodes : list barcode) : round :=
  match barcodes with
  | [] => Passed
  | b :: rest =>
      if nonblank (b_data b) then
        match json_loads self (b_data b) with
        | Loaded (JDict qr_data) => Returned (JDict qr_data)
        | Loaded (JValue _) => Raised
        | JSONDecodeError => Returned (classify_barcode b)
        | OtherError => Raised
        end
      else barcodes_json self rest
  end.

Definition pyzbar_round (self : t) (processed_img : ndarray) : round :=
  match pyzbar_symbols self processed_img with
  | Raise _ => Raised
  | Ok barcodes => barcodes_json self barcodes
  end.

(** The barcodes of a resized image: no JSON is tried. *)
Fixpoint barcodes_plain (barcodes : list barcode) : round :=
  match barcodes with
  | [] => Passed
  | b :: rest =>
      if nonblank (b_data b) then Returned (classify_barcode b)
      else barcodes_plain rest
  end.

(** A round of the third loop: one scale. The JSON value of the text read
    by OpenCV is returned as it is. *)
Definition scale_round (self : t) (gray : ndarray) (scale : Q) : round :=
  match resize self gray scale with
  | Raise _ => Raised
  | Ok resized =>
      match detectAndDecode self resized with
      | Raise _ => Raised
      | Ok data =>
          if nonblank data then
            match json_loads self data with
            | Loaded qr_data => Returned qr_data
            | JSONDecodeError => Returned (result (strip data) "plain_text" [])
            | OtherError => Raised
            end
          else
            match pyzbar self resized with
            | Raise _ => Raised
            | Ok barcodes => barcodes_plain barcodes
            end
      end
  end.

(** The barcodes of a rotated image: only a seven-digit number counts. *)
Fixpoint barcodes_rotated (barcodes : list barcode) : round :=
  match barcodes with
  | [] => Passed
  | b :: rest =>
      if nonblank (b_data b) then
        let data_clean := strip (b_data b) in
        let more := [("barcode_type", VStr (b_type b))] in
        if isdigit data_clean && (String.length data_clean =? 7)%nat
        then Returned (result data_clean "register_number" more)
        else
          match search_seven data_clean with
          | Some register_num =>
              Returned (result register_num "register_number" more)
          | None => barcodes_rotated rest
          end
      else barcodes_rotated rest
  end.

Definition rotation_round (self : t) (gray : ndarray) (angle : Z) : round :=
  match rotate self gray angle with
  | Raise _ => Raised
  | Ok rotated =>
      match pyzbar self rotated with
      | Raise _ => Raised
      | Ok barcodes => barcodes_rotated barcodes
      end
  end.

(** A round of the OCR loop. *)
Definition ocr_round (image_to_string_ : ndarray -> outcome string)
  (img : ndarray) : round :=
  match image_to_string_ img with
  | Raise _ => Raised
  | Ok text_ =>
      match search_email text_ with
      | Some register_num =>
          Returned (result register_num "register_number"
                      [("method", VStr "ocr_email")])
      | None =>
          match search_seven text_ with
          | Some register_num =>
              Returned (result register_num "register_number"
                          [("method", VStr "ocr_digits")])
          | None => Passed
          end
      end
  end.

(** A [for] loop of rounds: the first value returned ends it. *)
Fixpoint first_returned {A : Type} (body : A -> round) (l : list A)
  : option json :=
  match l with
  | [] => None
  | x :: rest =>
      match body x with
      | Returned v => Some v
      | _ => first_returned body rest
      end
  end.

Definition scales : list Q :=
  [0.5%Q; 0.75%Q; 1.0%Q; 1.25%Q; 1.5%Q; 2.0%Q; 2.5%Q].

Definition angles : list Z := [-15; -10; -5; 5; 10; 15; -20; 20]%Z.

Definition or_else (first next : option json) : option json :=
  match first with
  | Some v => Some v
  | None => next
  end.

(** The five stages on a decoded image: the value of the first [return]
    reached, if any. *)
Definition cascade (self : t) (image : ndarray)
  (processed_images : list ndarray) (gray sharpened : ndarray)
  : option json :=
  or_else (first_returned (opencv_round self) processed_images)
 (or_else (first_returned (pyzbar_round self) processed_images)
 (or_else (first_returned (scale_round self gray) scales)
 (or_else (first_returned (rotation_round self gray) angles)
          (match image_to_string self with
           | None => None
           | Some ocr => first_returned (ocr_round ocr) [image; gray; sharpened]
           end)))).

(** Python's [None]. *)
Definition none : json := JValue VNull.

(** [decode_qr_from_image] *)
Definition decode_qr_from_image (self : t) (image_data : bytes) : json :=
  match imdecode self image_data with
  | Raise _ => none
  | Ok None => none
  | Ok (Some image) =>
      match preprocess self image with
      | Raise _ => none
      | Ok (processed_images, gray, sharpened) =>
          match cascade self image processed_images gray sharpened with
          | Some v => v
          | None => none
          end
      end
  end.

(** [d.get(key)] and [key in d] *)
Definition get (items : list (string * jvalue)) (key : string)
  : option jvalue :=
  match find (fun kv => String.eqb (fst kv) key) items with
  | Some kv => Some (snd kv)
  | None => None
  end.

(** [str(v)] *)
Definition str (v : jvalue) : string :=
  match v with
  | VStr s => s
  | VInt n => NilZero.string_of_int (Z.to_int n)
  | VBool true => "True"
  | VBool false => "False"
  | VNull => "None"
  | VOther repr _ => repr
  end.

(** The truth value of a result. *)
Definition truth (v : json) : bool :=
  match v with
  | JDict items => negb (Nat.eqb (length items) 0)
  | JValue (VStr s) => negb (String.eqb s "")
  | JValue (VInt n) => negb (Z.eqb n 0)
  | JValue (VBool b) => b
  | JValue VNull => false
  | JValue (VOther _ t) => t
  end.

End QRDecoding.

(** ** Replies *)

(** The dictionary a handler returns, with the keys the cases set. *)
Record Reply := mk_Reply
  { r_case : option string;
    r_status : string;
    r_attendance_status : option string;
    r_student : option Student;
    r_verification_method : option string;
    r_face_confidence : option Q;
    r_message : string }.

Definition error_reply (message : string) : Reply :=
  mk_Reply None "error" None None None None message.

(** A FastAPI handler returns its reply or raises [HTTPException]. *)
Inductive http (A : Type) : Type :=
| Return (a : A)
| HTTPException (status_code : nat) (detail : string).
Arguments Return {A} a.
Arguments HTTPException {A} status_code detail.

(** [s.lower()] on ASCII text. *)
Definition lower_ascii (c : ascii) : ascii :=
  let n := nat_of_ascii c in
  if (65 <=? n) && (n <=? 90) then ascii_of_nat (n + 32) else c.

Fixpoint lower (s : string) : string :=
  match s with
  | EmptyString => EmptyString
  | String c s' => String (lower_ascii c) (lower s')
  end.

(** Field updates of a loaded row. *)
Definition set_notification_sent (a : AttendanceRecord) (b : bool)
  : AttendanceRecord :=
  mk_AttendanceRecord (ar_id a) (ar_student_register_number a) (ar_date a)
    (ar_time a) (ar_status a) (ar_verification_method a)
    (ar_face_confidence a) (ar_qr_verified a) (ar_verification_status a)
    (ar_verified_by a) (ar_verification_notes a) b (ar_updated_at a).

Definition set_review (a : AttendanceRecord) (status verification_status : string)
  (verified_by verification_notes : option string)
  (updated_at : option datetime) : AttendanceRecord :=
  mk_AttendanceRecord (ar_id a) (ar_student_register_number a) (ar_date a)
    (ar_time a) status (ar_verification_method a)
    (ar_face_confidence a) (ar_qr_verified a) verification_status
    verified_by verification_notes (ar_notification_sent a) updated_at.

Definition set_face_encoding (s : Student) (e : option string) : Student :=
  mk_Student (st_id s) (st_register_number s) (st_name s) (st_department s)
    (st_year s) (st_section s) e (st_is_active s).

Definition set_pending_review (p : PendingVerification) (status : string)
  (reviewed_by review_notes : option string) (reviewed_at : option datetime)
  : PendingVerification :=
  mk_PendingVerification (pv_id p) (pv_attendance_record_id p)
    (pv_student_register_number p) (pv_student_name p) (pv_date p)
    (pv_time p) (pv_face_confidence p) (pv_manual_register_number p)
    status reviewed_by review_notes reviewed_at.

(** A non-empty string out of an [Optional[str]] that is tested for truth. *)
Definition nonempty (o : option string) : option string :=
  match o with
  | Some s => if String.eqb s "" then None else Some s
  | None => None
  end.

(** ** backend/services/attendance_service.py *)

Module AttendanceService.
Import FaceRecognitionService QRBarcodeService.
Local Open Scope string_scope.

(** [send_attendance_notification] is the notification collaborator: the
    ["status"] of its result, or the exception it raised. *)
Record t := mk
  { face_service : option FaceRecognitionService.t;
    qr_service : option QRBarcodeService.t;
    cutoff_time : time;
    send_attendance_notification : nat -> outcome string }.

(** [__init__]: the cutoff is [ATTENDANCE_CUTOFF_TIME], ["08:45"] when
    unset, split at the colon. *)
Definition init (cutoff_env : option (nat * nat))
  (fs : option FaceRecognitionService.t) (qs : option QRBarcodeService.t)
  (notif : nat -> outcome string) : t :=
  let '(h, m) := match cutoff_env with Some hm => hm | None => (8, 45) end in
  mk fs qs (mk_time h m 0 0) notif.

(** The notification block after a commit: the flag is set and committed
    when the collaborator reports success; a failure is only logged. *)
Definition notify (self : t) (a : AttendanceRecord) (db : Session) : Session :=
  match send_attendance_notification self (ar_id a) with
  | Ok status =>
      if String.eqb status "success"
      then update_attendance db (set_notification_sent a true)
      else db
  | Raise _ => db
  end.

(** The face check shared by the token and the forgot-token handlers:
    [(False, 0.0)] without a stored encoding; the call on a missing face
    service raises. *)
Definition face_check (self : t) (image_data : bytes) (student : Student)
  : outcome (bool * Q) :=
  match nonempty (st_face_encoding student) with
  | None => Ok (false, 0.0%Q)
  | Some enc =>
      match face_service self with
      | None => Raise "'NoneType' object has no attribute 'verify_face'"
      | Some fs => Ok (verify_face fs image_data enc default_threshold)
      end
  end.

Definition student_reply (attendance_status : string) (student : Student)
  (method : string) (face_confidence : Q) (message : string) : Reply :=
  mk_Reply None "success" (Some attendance_status) (Some student)
           (Some method) (Some face_confidence) message.

Definition _handle_face_qr_attendance (self : t) (image_data : bytes)
  (qr_data_ : string) (current_time : datetime) (current_date : string)
  (db : Session) : Reply * Session :=
  match qr_service self with
  | None =>
      (error_reply ("Failed to process face+QR attendance: " ++
         "'NoneType' object has no attribute 'decode_qr_from_image'"), db)
  | Some qr =>
  match decode_qr_from_image qr (list_byte_of_string qr_data_) with
  | None => (error_reply "Invalid or unreadable QR code", db)
  | Some qr_decoded =>
  match verify_student_qr qr_decoded db with
  | None => (error_reply "Student not found or inactive", db)
  | Some student =>
  match query_attendance db (st_register_number student) current_date with
  | Some existing_attendance =>
      (error_reply ("Attendance already marked for today: " ++
                    ar_status existing_attendance), db)
  | None =>
  match face_check self image_data student with
  | Raise e =>
      (error_reply ("Failed to process face+QR attendance: " ++ e), db)
  | Ok (face_match, face_confidence) =>
      if negb face_match
      then (error_reply
              "Face verification failed. Please ensure proper lighting and positioning.",
            db)
      else
        let is_late := time_gt (time_of current_time) (cutoff_time self) in
        let attendance_status := if is_late then "Late" else "Present" in
        let '(attendance_record, db1) :=
          add_attendance db (fun id =>
            mk_AttendanceRecord id (st_register_number student) current_date
              current_time attendance_status "face_qr" (Some face_confidence)
              true "verified" None None false None) in
        let db2 :=
          if String.eqb attendance_status "Late"
          then notify self attendance_record db1 else db1 in
        (student_reply attendance_status student "face_qr" face_confidence
           ("Attendance marked as " ++ attendance_status), db2)
  end end end end end.

Definition _handle_forgot_id_attendance (self : t) (image_data : bytes)
  (register_number : string) (current_time : datetime)
  (current_date : string) (db : Session) : Reply * Session :=
  match query_active_student db register_number with
  | None =>
      (error_reply "Student not found with provided register number", db)
  | Some student =>
  match query_attendance db (st_register_number student) current_date with
  | Some existing_attendance =>
      (error_reply ("Attendance already marked for today: " ++
                    ar_status existing_attendance), db)
  | None =>
  match face_check self image_data student with
  | Raise e =>
      (error_reply ("Failed to process forgot ID attendance: " ++ e), db)
  | Ok (face_match, face_confidence) =>
      if negb face_match
      then (error_reply
              "Face verification failed. Identity could not be confirmed.",
            db)
      else
        let '(attendance_record, db1) :=
          add_attendance db (fun id =>
            mk_AttendanceRecord id (st_register_number student) current_date
              current_time "Pending" "face_only" (Some face_confidence)
              false "pending" None None false None) in
        let db2 := notify self attendance_record db1 in
        (student_reply "Pending" student "face_only" face_confidence
           "Attendance marked as Pending. Requires department verification.",
         db2)
  end end end.

Definition _handle_face_only_attendance (self : t) (image_data : bytes)
  (current_time : datetime) (current_date : string) (db : Session)
  : Reply * Session :=
  match face_service self with
  | None =>
      (error_reply ("Failed to process face-only attendance: " ++
         "'NoneType' object has no attribute 'find_matching_student'"), db)
  | Some fs =>
  match find_matching_student fs image_data db with
  | None =>
      (error_reply
         "No matching student found. Please provide register number or valid ID card.",
       db)
  | Some (student, face_confidence) =>
  match query_attendance db (st_register_number student) current_date with
  | Some existing_attendance =>
      (error_reply ("Attendance already marked for today: " ++
                    ar_status existing_attendance), db)
  | None =>
      let '(attendance_record, db1) :=
        add_attendance db (fun id =>
          mk_AttendanceRecord id (st_register_number student) current_date
            current_time "Pending" "face_only" (Some face_confidence)
            false "pending" None None false None) in
      let db2 := notify self attendance_record db1 in
      (student_reply "Pending" student "face_only" face_confidence
         "Student identified by face. Attendance pending verification.",
       db2)
  end end end.

Definition mark_attendance (self : t) (image_data : bytes)
  (qr_data_ manual_register_number : option string) (now : datetime)
  (db : Session) : Reply * Session :=
  let current_time := now in
  let current_date := strftime_Ymd (date_of current_time) in
  match nonempty qr_data_ with
  | Some q =>
      _handle_face_qr_attendance self image_data q current_time
                                 current_date db
  | None =>
      match nonempty manual_register_number with
      | Some r =>
          _handle_forgot_id_attendance self image_data r current_time
                                       current_date db
      | None =>
          _handle_face_only_attendance self image_data current_time
                                       current_date db
      end
  end.

(** [verify_pending_attendance]; [utcnow] is [datetime.utcnow()] at the
    time of the review. *)
Definition verify_pending_attendance (self : t) (attendance_id : nat)
  (action verifier_username : string) (notes : option string)
  (utcnow : datetime) (db : Session) : Reply * Session :=
  match find (fun a => Nat.eqb (ar_id a) attendance_id
                       && String.eqb (ar_verification_status a) "pending")
             (attendance_records db) with
  | None => (error_reply "Pending attendance record not found", db)
  | Some attendance =>
      if String.eqb (lower action) "approve" then
        let is_late :=
          time_gt (time_of (ar_time attendance)) (cutoff_time self) in
        let status := if is_late then "Late" else "Present" in
        let attendance' :=
          set_review attendance status "verified" (Some verifier_username)
                     notes (Some utcnow) in
        (mk_Reply None "success" (Some status) None None None
           ("Attendance approved and marked as " ++ status),
         update_attendance db attendance')
      else if String.eqb (lower action) "reject" then
        let attendance' :=
          set_review attendance (ar_status attendance) "rejected"
                     (Some verifier_username) notes (Some utcnow) in
        (mk_Reply None "success" (Some (ar_status attendance)) None None None
           "Attendance rejected",
         update_attendance db attendance')
      else (error_reply "Invalid action. Use 'approve' or 'reject'", db)
  end.

(** The dictionary of [get_attendance_stats]. *)
Record Stats := mk_Stats
  { s_date : string;
    s_total_students : nat;
    s_present : nat;
    s_late : nat;
    s_pending : nat;
    s_absent : Z;
    s_attendance_percentage : Q }.

(** [attendance_query.filter(AttendanceRecord.status == status).count()] *)
Definition count_status (db : Session) (date status : string) : nat :=
  length (filter (fun a => String.eqb (ar_date a) date
                           && String.eqb (ar_status a) status)
                 (attendance_records db)).

(** [get_attendance_stats]. [today] is the date of [datetime.now()] as
    [%Y-%m-%d]; [percentage n d] is the float arithmetic
    [round(n / d * 100, 2)]. *)
Definition get_attendance_stats (percentage : nat -> nat -> Q)
  (date : option string) (today : string) (db : Session) : Stats :=
  let date :=
    match nonempty date with
    | Some d => d
    | None => today
    end in
  let total_students := length (filter st_is_active (students db)) in
  let present_count := count_status db date "Present" in
  let late_count := count_status db date "Late" in
  let pending_count := count_status db date "Pending" in
  let absent_count :=
    (Z.of_nat total_students
     - Z.of_nat (present_count + late_count + pending_count))%Z in
  mk_Stats date total_students present_count late_count pending_count
    absent_count
    (if (0 <? total_students)%nat
     then percentage (present_count + late_count) total_students
     else 0%Q).

End AttendanceService.

(** ** backend/main.py: the capture and review handlers *)

Module Main.
Import FaceRecognitionService.
Local Open Scope string_scope.

Record User := mk_User { username : string; role : string }.

(** The module-level services of the application.
    [send_attendance_notification] is the call on [notification_service]
    (it raises when the service is [None]). [save_face_image] is the
    creation of the [pending_faces] directory and the write of the image
    file. [timestamp] is the read of [pending_verification.timestamp]:
    backend/database.py declares no such column, so the read is an input
    of the model, and [None] is the AttributeError. *)
Record App := mk_App
  { face_service : option FaceRecognitionService.t;
    send_attendance_notification : nat -> outcome string;
    save_face_image : bytes -> outcome unit;
    timestamp : PendingVerification -> option datetime }.

(** [str(e)] of an [HTTPException]. *)
Definition str_HTTPException (status_code detail : string) : string :=
  status_code ++ ": " ++ detail.

Definition authorized (current_user : User) : bool :=
  String.eqb (role current_user) "admin"
  || String.eqb (role current_user) "department".

(** [send_late_notification] *)
Definition send_late_notification (app : App) (a : AttendanceRecord)
  (db : Session) : Session :=
  match send_attendance_notification app (ar_id a) with
  | Ok status =>
      if String.eqb status "success"
      then update_attendance db (set_notification_sent a true)
      else db
  | Raise _ => db
  end.

Definition case_B : Reply :=
  mk_Reply (Some "B") "error" None None None None
           "Face and ID not match. Please retry.".

(** The verification block of [mark_attendance_verified]: the values of
    [face_match], [face_confidence] and [is_live] after it, the student
    object and the database as committed by then. *)
Definition verification_block (app : App) (face_image_data : bytes)
  (student : Student) (db : Session)
  : bool * Q * bool * Student * Session :=
  match nonempty (st_face_encoding student), face_service app with
  | Some enc, Some fs =>
      let '(face_match, face_confidence, is_live) :=
        verify_face_with_liveness fs face_image_data enc in
      (face_match, face_confidence, is_live, student, db)
  | None, Some fs =>
      match nonempty (encode_face fs face_image_data) with
      | Some face_encoding =>
          let student' := set_face_encoding student (Some face_encoding) in
          (true, 1.0%Q, true, student', update_student db student')
      | None => (false, 0.0%Q, true, student, db)
      end
  | _, None => (false, 0.0%Q, true, student, db)
  end.

Definition mark_attendance_verified (app : App) (face_image_data : bytes)
  (id_register_number : string) (now : datetime) (db : Session)
  : Reply * Session :=
  let current_time := now in
  let current_date := strftime_Ymd (date_of current_time) in
  let cutoff_time := mk_time 8 45 0 0 in
  match query_active_student db id_register_number with
  | None => (case_B, db)
  | Some student0 =>
      let '(face_match, face_confidence, is_live, student, db1) :=
        verification_block app face_image_data student0 db in
      match query_attendance db1 (st_register_number student)
                             current_date with
      | Some existing_attendance =>
          (error_reply ("Attendance already marked for today: " ++
                        ar_status existing_attendance), db1)
      | None =>
          if face_match then
            let is_late := time_gt (time_of current_time) cutoff_time in
            if is_late then
              let '(attendance_record, db2) :=
                add_attendance db1 (fun id =>
                  mk_AttendanceRecord id (st_register_number student)
                    current_date current_time "Late" "face_id"
                    (Some face_confidence) true "verified" None None
                    false None) in
              let db3 := send_late_notification app attendance_record db2 in
              (mk_Reply (Some "D") "success" (Some "Late") (Some student)
                 (Some "face_id") (Some face_confidence)
                 "Late entry recorded. Notification sent to HOD and Parents.",
               db3)
            else
              let '(attendance_record, db2) :=
                add_attendance db1 (fun id =>
                  mk_AttendanceRecord id (st_register_number student)
                    current_date current_time "Present" "face_id"
                    (Some face_confidence) true "verified" None None
                    false None) in
              (mk_Reply (Some "A") "success" (Some "Present") (Some student)
                 (Some "face_id") (Some face_confidence)
                 "Attendance recorded successfully.",
               db2)
          else (case_B, db1)
      end
  end.

(** The loop of [identify_student_from_face]. *)
Fixpoint identify_scan (fs : FaceRecognitionService.t)
  (face_image_data : bytes) (students : list Student)
  (best_match : option Student) (best_confidence : Q)
  : option Student * Q :=
  match students with
  | [] => (best_match, best_confidence)
  | student :: rest =>
      let '(is_match, confidence, is_live) :=
        match st_face_encoding student with
        | Some enc => verify_face_with_liveness fs face_image_data enc
        | None => (false, 0.0%Q, false)
        end in
      if negb is_live
      then identify_scan fs face_image_data rest best_match best_confidence
      else if is_match && Qlt_bool best_confidence confidence
      then identify_scan fs face_image_data rest (Some student) confidence
      else identify_scan fs face_image_data rest best_match best_confidence
  end.

(** [identify_student_from_face]: the identified student and the
    confidence, or [None] for [{"identified": False}]. *)
Definition identify_student_from_face (app : App) (face_image_data : bytes)
  (db : Session) : option (Student * Q) :=
  match face_service app with
  | None => None
  | Some fs =>
      match identify_scan fs face_image_data (enrolled db) None 0.0%Q with
      | (Some best_match, best_confidence) =>
          if Qlt_bool 0.5%Q best_confidence
          then Some (best_match, best_confidence) else None
      | (None, _) => None
      end
  end.

(** The review note of [create_manual_pending_verification]. *)
Definition manual_notes (current_user : User)
  (manual_register_number identified_register_number : string) : string :=
  "Manual Case C: Forgot ID card. Entered by " ++ username current_user ++ "."
  ++ (if String.eqb identified_register_number "" then
        " Face could not be automatically identified."
      else if String.eqb identified_register_number manual_register_number
      then " Face identification confirmed (matched: "
           ++ identified_register_number ++ ")."
      else " WARNING: Face identified as " ++ identified_register_number
           ++ " but manually entered " ++ manual_register_number ++ ".").

Definition create_manual_pending_verification (app : App)
  (current_user : User) (face_image_data : bytes)
  (manual_register_number identified_register_number : string)
  (now : datetime) (db : Session) : http Reply * Session :=
  let current_time := now in
  match query_student db manual_register_number with
  | None =>
      (HTTPException 404 ("Student with register number "
                          ++ manual_register_number ++ " not found"), db)
  | Some student =>
      let verification_notes :=
        manual_notes current_user manual_register_number
                     identified_register_number in
      let current_date := strftime_Ymd (date_of current_time) in
      let '(temp_attendance, db1) :=
        add_attendance db (fun id =>
          mk_AttendanceRecord id manual_register_number current_date
            current_time "Pending" "forgot_id_manual" (Some 0.0%Q) false
            "pending" None None false None) in
      let '(pending_verification, db2) :=
        add_pending db1 (fun id =>
          mk_PendingVerification id (ar_id temp_attendance)
            manual_register_number (st_name student) current_date
            current_time (Some 0.0%Q)
            (if String.eqb identified_register_number manual_register_number
             then None else Some manual_register_number)
            "pending" None (Some verification_notes) None) in
      match save_face_image app face_image_data with
      | Raise e =>
          (HTTPException 500 ("Failed to create pending verification: " ++ e),
           db2)
      | Ok _ =>
          (Return (mk_Reply (Some "C") "pending_verification" None
                     (Some student) None None
                     "Forgot ID case submitted for manual verification"),
           db2)
      end
  end.

(** [verify_pending_attendance] of the route
    [/verify_pending_attendance/{verification_id}]. Every exception of the
    body, the [HTTPException]s it raises included, reaches the handler's
    [except Exception], which rolls back and answers 500. The assignments
    to [verified_by], [verification_notes] and [resolved_at] are on
    attributes that are not columns of the table: only [status] is
    written back. *)
Definition verify_pending_attendance (app : App) (current_user : User)
  (verification_id : nat) (action : string) (register_number : option string)
  (notes : string) (db : Session) : http Reply * Session :=
  let failed (e : string) : http Reply * Session :=
    (HTTPException 500 ("Failed to verify attendance: " ++ e), db) in
  if negb (authorized current_user) then
    failed (str_HTTPException "403" "Not authorized to verify attendance")
  else
  match find (fun p => Nat.eqb (pv_id p) verification_id)
             (pending_verifications db) with
  | None => failed (str_HTTPException "404" "Pending verification not found")
  | Some pending_verification =>
      if String.eqb action "approve" then
        match nonempty register_number with
        | None =>
            failed (str_HTTPException "400"
                      "Register number required for approval")
        | Some r =>
        match query_student db r with
        | None => failed (str_HTTPException "404" "Student not found")
        | Some student =>
        match timestamp app pending_verification with
        | None =>
            failed "'PendingVerification' object has no attribute 'timestamp'"
        | Some current_time =>
            let current_date := strftime_Ymd (date_of current_time) in
            let cutoff_time := mk_time 8 45 0 0 in
            let is_late := time_gt (time_of current_time) cutoff_time in
            let attendance_status := if is_late then "Late" else "Present" in
            let '(attendance_record, db1) :=
              add_attendance db (fun id =>
                mk_AttendanceRecord id (st_register_number student)
                  current_date current_time attendance_status
                  "manual_face_verification"
                  (pv_face_confidence pending_verification) false
                  "manually_verified" (Some (username current_user))
                  (Some ("Case C manual verification: " ++ notes))
                  true None) in
            let db2 :=
              update_pending db1
                (set_pending_review pending_verification "approved"
                   (pv_reviewed_by pending_verification)
                   (pv_review_notes pending_verification)
                   (pv_reviewed_at pending_verification)) in
            (Return (mk_Reply None "approved" (Some attendance_status)
                       (Some student) None None
                       ("Attendance approved for " ++ st_name student ++ " ("
                        ++ st_register_number student ++ ")")),
             db2)
        end end end
      else if String.eqb action "reject" then
        (Return (mk_Reply None "rejected" None None None None
                   "Pending verification rejected"),
         update_pending db
           (set_pending_review pending_verification "rejected"
              (pv_reviewed_by pending_verification)
              (pv_review_notes pending_verification)
              (pv_reviewed_at pending_verification)))
      else
        failed (str_HTTPException "400"
                  "Invalid action. Use 'approve' or 'reject'")
  end.

(** [verify_pending_attendance] of the route [/attendance/verify]. *)
Definition attendance_verify (current_user : User) (verification_id : nat)
  (action : string) (notes : option string) (utcnow : datetime)
  (db : Session) : http Reply * Session :=
  if negb (authorized current_user) then
    (HTTPException 403 "Not authorized to verify attendance", db)
  else
  match find (fun p => Nat.eqb (pv_id p) verification_id)
             (pending_verifications db) with
  | None => (HTTPException 404 "Pending verification not found", db)
  | Some pending_record =>
      let pending_record' :=
        set_pending_review pending_record action
          (Some (username current_user)) notes (Some utcnow) in
      let db1 := update_pending db pending_record' in
      let db2 :=
        match find (fun a => Nat.eqb (ar_id a)
                               (pv_attendance_record_id pending_record))
                   (attendance_records db) with
        | None => db1
        | Some attendance_record =>
            let cutoff_time := mk_time 8 45 0 0 in
            let attendance_time := time_of (ar_time attendance_record) in
            let '(status, verification_status) :=
              if String.eqb action "approve"
              then (if time_gt attendance_time cutoff_time
                    then "Late" else "Present", "verified")
              else ("Absent", "rejected") in
            update_attendance db1
              (set_review attendance_record status verification_status
                 (Some (username current_user))
                 (ar_verification_notes attendance_record)
                 (ar_updated_at attendance_record))
        end in
      (Return (mk_Reply None "" None None None None
                 ("Attendance " ++ action ++ "d successfully")), db2)
  end.

(** The loop of [create_pending_verification] over the active students:
    rows without an encoding are passed over, the others are verified with
    [threshold=0.4]. *)
Fixpoint pending_scan (fs : FaceRecognitionService.t)
  (face_image_data : bytes) (students : list Student)
  (best_match : option Student) (best_confidence : Q)
  : option Student * Q :=
  match students with
  | [] => (best_match, best_confidence)
  | student :: rest =>
      match nonempty (st_face_encoding student) with
      | None =>
          pending_scan fs face_image_data rest best_match best_confidence
      | Some enc =>
          let '(is_match, confidence) :=
            verify_face fs face_image_data enc 0.4%Q in
          if is_match && Qlt_bool best_confidence confidence
          then pending_scan fs face_image_data rest (Some student) confidence
          else pending_scan fs face_image_data rest best_match best_confidence
      end
  end.

(** The identification step of [create_pending_verification]. *)
Definition identify_for_pending (app : App) (face_image_data : bytes)
  (db : Session) : option Student * Q :=
  match face_service app with
  | None => (None, 0.0%Q)
  | Some fs =>
      match pending_scan fs face_image_data
              (filter st_is_active (students db)) None 0.0%Q with
      | (Some best_match, best_confidence) =>
          if Qlt_bool 0.4%Q best_confidence
          then (Some best_match, best_confidence) else (None, 0.0%Q)
      | (None, _) => (None, 0.0%Q)
      end
  end.

(** [create_pending_verification]: the face image is saved before anything
    is added to the session, so a failed save answers 500 with nothing
    written. *)
Definition create_pending_verification (app : App) (face_image_data : bytes)
  (now : datetime) (db : Session) : http Reply * Session :=
  let current_time := now in
  let current_date := strftime_Ymd (date_of current_time) in
  let '(identified_student, face_confidence) :=
    identify_for_pending app face_image_data db in
  match save_face_image app face_image_data with
  | Raise e =>
      (HTTPException 500 ("Failed to create pending verification: " ++ e), db)
  | Ok _ =>
      let register_number :=
        match identified_student with
        | Some s => st_register_number s
        | None => "UNKNOWN"
        end in
      let confidence :=
        match identified_student with
        | Some _ => face_confidence
        | None => 0.0%Q
        end in
      let '(temp_attendance, db1) :=
        add_attendance db (fun id =>
          mk_AttendanceRecord id register_number current_date current_time
            "Pending" "face_only_no_id" (Some confidence) false "pending"
            None None false None) in
      let '(pending_verification, db2) :=
        add_pending db1 (fun id =>
          mk_PendingVerification id (ar_id temp_attendance) register_number
            (match identified_student with
             | Some s => st_name s
             | None => "Unknown Student"
             end)
            current_date current_time (Some confidence) None "pending" None
            (Some ("Face-only attendance (Case C). "
                   ++ (match identified_student with
                       | Some _ => "Student identified"
                       | None => "Student not identified"
                       end) ++ "."))
            None) in
      (Return (mk_Reply (Some "C") "pending_verification" None
                 identified_student None
                 (match identified_student with
                  | Some _ => Some face_confidence
                  | None => None
                  end)
                 "Face detected but ID card not readable. Pending manual verification."),
       db2)
  end.

(** The reply of [/detect_face_and_id]. *)
Record Detection := mk_Detection
  { d_face_detected : bool;
    d_id_detected : bool;
    d_register_number : option string;
    d_liveness : option bool;
    d_liveness_score : option Q }.

(** The loop over [patterns]: the first pattern found in the text gives the
    register number. *)
Definition search_patterns (data : string) : option string :=
  match PyStr.search_digits7 data with
  | Some m => Some m
  | None =>
      match PyStr.search_digits5_9 data with
      | Some m => Some m
      | None => PyStr.search_academic data
      end
  end.

(** The block of [detect_face_and_id] that reads the register number out
    of the decoded token: [(id_detected, register_number)]. *)
Definition read_register_number (qr_result : QRDecoding.json)
  : bool * option string :=
  if negb (QRDecoding.truth qr_result) then (false, None) else
  match qr_result with
  | QRDecoding.JDict items =>
      match QRDecoding.get items "register_number" with
      | Some r => (true, Some (QRDecoding.str r))
      | None =>
          match QRDecoding.get items "data" with
          | None => (false, None)
          | Some d =>
              let data := QRDecoding.str d in
              if PyStr.isdigit data && (String.length data =? 7)%nat
              then (true, Some data)
              else if PyStr.isdigit data && QRDecoding.len_5_9 data
              then (true, Some data)
              else
                match search_patterns data with
                | Some m => (true, Some m)
                | None => (false, None)
                end
          end
      end
  | QRDecoding.JValue (QRDecoding.VStr s) =>
      if PyStr.isdigit s && (String.length s =? 7)%nat
      then (true, Some s)
      else
        match search_patterns s with
        | Some m => (true, Some m)
        | None => (false, None)
        end
  | QRDecoding.JValue _ => (false, None)
  end.

(** [detect_face_and_id]. [save_scan] writes the debug copy of the image;
    [detect_face] is [face_service.detect_face(image_data) is not None];
    a missing [qr_service] raises inside the block that reads the token. *)
Definition detect_face_and_id (app : App) (save_scan : bytes -> outcome unit)
  (detect_face : bytes -> bool) (qr_service : option QRDecoding.t)
  (image_data : bytes) : http Detection :=
  match save_scan image_data with
  | Raise e => HTTPException 500 ("Detection failed: " ++ e)
  | Ok _ =>
      let '(face_detected, liveness, liveness_score) :=
        match face_service app with
        | Some fs =>
            if detect_face image_data then
              let '(is_live, live_score) := check_liveness fs image_data in
              (true, is_live, live_score)
            else (false, false, 0.0%Q)
        | None => (false, false, 0.0%Q)
        end in
      let '(id_detected, register_number) :=
        match qr_service with
        | None => (false, None)
        | Some qr =>
            read_register_number (QRDecoding.decode_qr_from_image qr image_data)
        end in
      Return (mk_Detection face_detected id_detected register_number
                (if face_detected then Some liveness else None)
                (if face_detected then Some liveness_score else None))
  end.

(** [verify_pending_attendance] of the route [/verify_pending]. The call on
    [notification_service] after an approval raises (the service has no
    [send_attendance_notification]) and the exception is caught and
    printed, so nothing follows the service's answer. Without an
    attendance service the call on [None] is an unhandled error. *)
Definition verify_pending (attendance_service : option AttendanceService.t)
  (current_user : User) (attendance_id : nat) (action : string)
  (notes : option string) (utcnow : datetime) (db : Session)
  : http Reply * Session :=
  if negb (authorized current_user) then
    (HTTPException 403 "Not authorized to verify attendance", db)
  else
    match attendance_service with
    | None => (HTTPException 500 "Internal Server Error", db)
    | Some service =>
        let '(result, db1) :=
          AttendanceService.verify_pending_attendance service attendance_id
            action (username current_user) notes utcnow db in
        if String.eqb (r_status result) "error"
        then (HTTPException 400 (r_message result), db1)
        else (Return result, db1)
    end.

(** [send_missing_id_notification]: the body of [send_late_notification]. *)
Definition send_missing_id_notification (app : App) (a : AttendanceRecord)
  (db : Session) : Session :=
  match send_attendance_notification app (ar_id a) with
  | Ok status =>
      if String.eqb status "success"
      then update_attendance db (set_notification_sent a true)
      else db
  | Raise _ => db
  end.

(** [result['message'] = message] *)
Definition set_message (r : Reply) (message : string) : Reply :=
  mk_Reply (r_case r) (r_status r) (r_attendance_status r) (r_student r)
    (r_verification_method r) (r_face_confidence r) message.

(** [qr_decoded] of [mark_attendance_with_liveness]: [None] without an
    image of the token or without the token service. *)
Definition read_token (qr_service : option QRDecoding.t)
  (qr_image : option bytes) : QRDecoding.json :=
  match qr_image, qr_service with
  | Some qr_image_data, Some qr =>
      QRDecoding.decode_qr_from_image qr qr_image_data
  | _, _ => QRDecoding.none
  end.

(** [attendance_service.mark_attendance] on the [qr_data] that
    [mark_attendance_with_liveness] hands over: the decoded value, not the
    image. A string is encoded and decoded as an image by the service. Any
    other value that is true goes to [decode_qr_from_image] as it is, where
    [np.frombuffer] raises on what is no buffer; the exception is caught
    there and the answer is [None]. *)
Definition mark_attendance_on (service : AttendanceService.t)
  (image_data : bytes) (qr_data : QRDecoding.json)
  (manual_register_number : option string) (now : datetime) (db : Session)
  : Reply * Session :=
  if QRDecoding.truth qr_data then
    match qr_data with
    | QRDecoding.JValue (QRDecoding.VStr s) =>
        AttendanceService.mark_attendance service image_data (Some s)
          manual_register_number now db
    | _ =>
        match AttendanceService.qr_service service with
        | None =>
            (error_reply ("Failed to process face+QR attendance: " ++
               "'NoneType' object has no attribute 'decode_qr_from_image'"),
             db)
        | Some _ => (error_reply "Invalid or unreadable QR code", db)
        end
    end
  else
    AttendanceService.mark_attendance service image_data None
      manual_register_number now db.

(** [mark_attendance_with_liveness], the route [/mark_attendance]. [now] is
    the clock of the service, [later] the clock read again by the route
    when it looks the new row up. *)
Definition mark_attendance_with_liveness (app : App)
  (attendance_service : option AttendanceService.t)
  (qr_service : option QRDecoding.t) (face_image_data : bytes)
  (qr_image : option bytes) (register_number : option string)
  (now later : datetime) (db : Session) : http Reply * Session :=
  let qr_decoded := read_token qr_service qr_image in
  let qr_data :=
    if QRDecoding.truth qr_decoded then qr_decoded else QRDecoding.none in
  match attendance_service with
  | None =>
      (HTTPException 500 ("Failed to mark attendance: " ++
         "'NoneType' object has no attribute 'mark_attendance'"), db)
  | Some service =>
      let '(result, db1) :=
        mark_attendance_on service face_image_data qr_data register_number
          now db in
      let today := strftime_Ymd (date_of later) in
      let lookup (register : string) :=
        match query_attendance db1 register today,
              query_student db1 register with
        | Some attendance_record, Some student => Some attendance_record
        | _, _ => None
        end in
      let equals (o : option string) (s : string) :=
        match o with
        | Some x => String.eqb x s
        | None => false
        end in
      if equals (r_attendance_status result) "Pending"
         && equals (r_verification_method result) "face_only"
      then
        match r_student result with
        | None =>
            (HTTPException 500 "Failed to mark attendance: 'student'", db1)
        | Some s =>
            match lookup (st_register_number s) with
            | Some attendance_record =>
                (Return (set_message result
                   "ID card not detected. Attendance marked as Pending. Email notification sent to parent about forgot ID card."),
                 send_missing_id_notification app attendance_record db1)
            | None => (Return result, db1)
            end
        end
      else if equals (r_attendance_status result) "Late"
      then
        match r_student result with
        | None =>
            (HTTPException 500 "Failed to mark attendance: 'student'", db1)
        | Some s =>
            match lookup (st_register_number s) with
            | Some attendance_record =>
                (Return (set_message result
                   (r_message result ++
                    " Email notification sent to parent about late arrival.")),
                 send_late_notification app attendance_record db1)
            | None => (Return result, db1)
            end
        end
      else (Return result, db1)
  end.

(** A row of the [users] table, by the columns that [delete_student]
    reads and writes. *)
Record Account := mk_Account
  { acc_username : string; acc_role : string; acc_is_active : bool }.

(** The answer of [delete_student]. *)
Record Deactivation := mk_Deactivation
  { dr_message : string;
    dr_student_register_number : string;
    dr_user_account_deactivated : bool }.

Definition set_is_active (s : Student) (b : bool) : Student :=
  mk_Student (st_id s) (st_register_number s) (st_name s) (st_department s)
    (st_year s) (st_section s) (st_face_encoding s) b.

(** [student_user.is_active = False] on the first row that the query
    finds. *)
Fixpoint deactivate_first (p : Account -> bool) (users : list Account)
  : list Account :=
  match users with
  | [] => []
  | u :: rest =>
      if p u
      then mk_Account (acc_username u) (acc_role u) false :: rest
      else u :: deactivate_first p rest
  end.

(** [delete_student]: the soft deletion. The 404 is raised inside the
    [try] and reaches the [except Exception], which rolls back and answers
    500. *)
Definition delete_student (current_user : User) (student_id : nat)
  (db : Session) (users : list Account)
  : http Deactivation * Session * list Account :=
  if negb (authorized current_user) then
    (HTTPException 403 "Not authorized to delete students", db, users)
  else
    match find (fun s => Nat.eqb (st_id s) student_id) (students db) with
    | None =>
        (HTTPException 500
           ("Error deleting student: "
            ++ str_HTTPException "404" "Student not found"), db, users)
    | Some student =>
        let register_number := st_register_number student in
        let db1 := update_student db (set_is_active student false) in
        let is_student_user (u : Account) :=
          String.eqb (acc_username u) register_number
          && String.eqb (acc_role u) "student" in
        let student_user := find is_student_user users in
        (Return (mk_Deactivation
                   "Student and associated credentials deactivated successfully"
                   register_number (is_some student_user)),
         db1, deactivate_first is_student_user users)
    end.

End Main.

(** ** A capture scenario

    One enrolled student, services with constant numeric routines. The
    similarity of every comparison and the face-mesh behaviour are the
    parameters; texture and colour signals are zero. *)

Module Scenario.
Local Open Scope string_scope.

Definition image_data : bytes := [].

Definition kernels
  (mesh : option (ndarray -> outcome (option (list landmark))))
  (similarity : Q) : Kernels :=
  mk_Kernels
    (fun _ => Ok (Some []))
    (fun img => Ok img)
    mesh
    (fun _ => Ok 0.0%Q)
    (fun _ => Ok 0.0%Q)
    (fun _ => Ok 1.0%Q)
    (fun _ => Ok 0.0%Q)
    (fun _ => Ok 0.0%Q)
    (fun _ => Some "[1.0]")
    (fun _ => Some [1.0%Q])
    (fun _ _ => similarity).

(** Services whose image decoding raises. *)
Definition broken_kernels : Kernels :=
  mk_Kernels
    (fun _ => Raise "cv2.error")
    (fun img => Ok img)
    None
    (fun _ => Ok 0.0%Q)
    (fun _ => Ok 0.0%Q)
    (fun _ => Ok 1.0%Q)
    (fun _ => Ok 0.0%Q)
    (fun _ => Ok 0.0%Q)
    (fun _ => Some "[1.0]")
    (fun _ => Some [1.0%Q])
    (fun _ _ => 0.8%Q).

Definition broken_siamese : SiameseNetworkService.t :=
  SiameseNetworkService.init (fun _ => None) broken_kernels.

(** The face mesh finds no landmarks. *)
Definition no_landmarks : option (ndarray -> outcome (option (list landmark))) :=
  Some (fun _ => Ok None).

Definition siamese
  (mesh : option (ndarray -> outcome (option (list landmark))))
  (similarity : Q) : SiameseNetworkService.t :=
  SiameseNetworkService.init (fun _ => None) (kernels mesh similarity).

Definition face
  (mesh : option (ndarray -> outcome (option (list landmark))))
  (similarity : Q) : FaceRecognitionService.t :=
  FaceRecognitionService.mk 0.4%Q true true (siamese mesh similarity)
    (fun _ => None) (fun _ => None) (fun _ _ => 0.0%Q).

Definition qr : QRBarcodeService.t :=
  QRBarcodeService.mk
    (fun _ => Some (QRBarcodeService.mk_qr (Some "2022026") None None)).

Definition service
  (mesh : option (ndarray -> outcome (option (list landmark))))
  (similarity : Q) : AttendanceService.t :=
  AttendanceService.init None (Some (face mesh similarity)) (Some qr)
                         (fun _ => Raise "no notification service").

Definition app
  (mesh : option (ndarray -> outcome (option (list landmark))))
  (similarity : Q) : Main.App :=
  Main.mk_App (Some (face mesh similarity))
              (fun _ => Raise "no notification service")
              (fun _ => Ok tt)
              (fun _ => None).

(** The application over a store whose pending verifications answer
    [timestamp] with their capture time. *)
Definition app_with_timestamp : Main.App :=
  Main.mk_App (Some (face None 0.8%Q))
              (fun _ => Raise "no notification service")
              (fun _ => Ok tt)
              (fun p => Some (pv_time p)).

Definition asha : Student :=
  mk_Student 1 "2022026" "Asha" "AIML" 3 "A" (Some "[1.0]") true.

(** The same student before any face was enrolled. *)
Definition asha_unenrolled : Student :=
  mk_Student 1 "2022026" "Asha" "AIML" 3 "A" None true.

Definition ravi : Student :=
  mk_Student 2 "2022041" "Ravi" "AIML" 3 "A" (Some "[1.0]") true.

Definition day : date := mk_date 2025 1 15.
Definition at_cutoff : datetime := mk_datetime day (mk_time 8 45 0 0).
Definition after_cutoff : datetime := mk_datetime day (mk_time 8 45 0 1).
Definition afternoon : datetime := mk_datetime day (mk_time 15 30 0 0).

Definition empty_db (s : Student) : Session := mk_Session [s] [] [].

(** A present mark of the day, already on record. *)
Definition marked : AttendanceRecord :=
  mk_AttendanceRecord 1 "2022026" "2025-01-15" at_cutoff "Present" "face_id"
    (Some 0.8%Q) true "verified" None None false None.

Definition marked_db (s : Student) : Session := mk_Session [s] [marked] [].

(** A capture one microsecond after the cutoff, waiting for review. *)
Definition pending_mark : AttendanceRecord :=
  mk_AttendanceRecord 1 "2022026" "2025-01-15" after_cutoff "Pending"
    "face_only" (Some 0.8%Q) false "pending" None None false None.

Definition pending_review : PendingVerification :=
  mk_PendingVerification 1 1 "2022026" "Asha" "2025-01-15" after_cutoff
    (Some 0.0%Q) None "pending" None (Some "Manual Case C") None.

Definition pending_db : Session :=
  mk_Session [asha] [pending_mark] [pending_review].

Definition hod : Main.User := Main.mk_User "hod_aiml" "department".
Definition admin : Main.User := Main.mk_User "admin" "admin".

(** A review that was rejected by [hod]. *)
Definition rejected_review : PendingVerification :=
  mk_PendingVerification 1 1 "2022026" "Asha" "2025-01-15" at_cutoff
    (Some 0.0%Q) None "rejected" None (Some "Manual Case C") None.

(** A review that was approved by [hod] through [/attendance/verify]. *)
Definition approved_review : PendingVerification :=
  mk_PendingVerification 1 1 "2022026" "Asha" "2025-01-15" at_cutoff
    (Some 0.0%Q) None "approve" (Some "hod_aiml") (Some "seen in class")
    (Some afternoon).

End Scenario.

(** ** Vocabulary of the properties *)

(** The database after [db.add(a)] and the flush that gave [a] its key. *)
Definition added (db : Session) (a : AttendanceRecord) : Session :=
  mk_Session (students db) (attendance_records db ++ [a])
             (pending_verifications db).

Definition fresh (db : Session) (a : AttendanceRecord) : Prop :=
  ar_id a = next_id (map ar_id (attendance_records db)).

(** The row [a] as the notification block may leave it. *)
Definition flagged (a a' : AttendanceRecord) : Prop :=
  a' = a \/ a' = set_notification_sent a true.

(** What an accepted capture at [now] against [cutoff] must look like:
    the reply carries the status, and the row added to the table carries
    the same status and the capture time. *)
Definition classified (now : datetime) (db : Session) (cutoff : time)
  (reply : Reply) (db' : Session) : Prop :=
  r_attendance_status reply
  = Some (if time_gt (time_of now) cutoff then "Late" else "Present")%string
  /\ (time_of now = cutoff -> r_attendance_status reply = Some "Present"%string)
  /\ (r_attendance_status reply = Some "Late"%string
      <-> time_gt (time_of now) cutoff = true)
  /\ exists a,
       attendance_records db' = attendance_records db ++ [a]
       /\ Some (ar_status a) = r_attendance_status reply
       /\ ar_time a = now.

(** The state of the loop of [find_matching_student] after the students of
    [seen]: no match so far, or the best match with the earlier matches
    strictly below it and the later ones not above it. *)
Definition best_so_far (self : FaceRecognitionService.t) (image_data : bytes)
  (seen : list Student) (best_match : option Student)
  (highest_confidence : Q) : Prop :=
  let verdict := FaceRecognitionService.verdict self image_data in
  match best_match with
  | None =>
      highest_confidence = 0.0%Q
      /\ forall s, In s seen -> fst (verdict s) = false
  | Some b =>
      exists before after,
        seen = before ++ b :: after
        /\ verdict b = (true, highest_confidence)
        /\ (forall s, In s before -> fst (verdict s) = true ->
                      (snd (verdict s) < highest_confidence)%Q)
        /\ (forall s, In s after -> fst (verdict s) = true ->
                      (snd (verdict s) <= highest_confidence)%Q)
  end.

(** A row for the student and the day is on record. *)
Definition already_marked (db : Session) (r d : string) : Prop :=
  exists a, In a (attendance_records db)
            /\ ar_student_register_number a = r /\ ar_date a = d.

(** The outcome of a rejected duplicate: an error reply that names the
    status on record, and attendance and review tables as they were. *)
Definition duplicate_rejected (db : Session) (r d : string)
  (out : Reply * Session) : Prop :=
  r_status (fst out) = "error"%string
  /\ r_attendance_status (fst out) = None
  /\ (exists existing,
        In existing (attendance_records db)
        /\ ar_student_register_number existing = r
        /\ ar_date existing = d
        /\ r_message (fst out)
           = ("Attendance already marked for today: "
              ++ ar_status existing)%string)
  /\ attendance_records (snd out) = attendance_records db
  /\ pending_verifications (snd out) = pending_verifications db.


(** A pending attendance row for [r] captured at [now], added to [db]. *)
Definition pending_row_added (db db' : Session) (r : string) (now : datetime)
  (a : AttendanceRecord) : Prop :=
  attendance_records db' = attendance_records db ++ [a]
  /\ ar_student_register_number a = r
  /\ ar_time a = now
  /\ ar_status a = "Pending"%string
  /\ ar_verification_status a = "pending"%string.

(** ** Vocabulary of the further properties *)

(** The measurements of the numeric routines are in their ranges: a
    standard deviation and a variance are not negative, the skin ratio is a
    share of the pixels. *)
Definition kernels_in_range (k : Kernels) : Prop :=
  (forall l v, k_std k l = Ok v -> (0 <= v)%Q)
  /\ (forall img v, k_laplacian_var k img = Ok v -> (0 <= v)%Q)
  /\ (forall img v, k_skin_ratio k img = Ok v -> (0 <= v <= 1)%Q)
  /\ (forall img v, k_sat_std k img = Ok v -> (0 <= v)%Q).

(** [face_service.verify_face_with_liveness(image, student.face_encoding)] on
    a row of the identification query. *)
Definition live_verdict (fs : FaceRecognitionService.t) (image_data : bytes)
  (student : Student) : bool * Q * bool :=
  match st_face_encoding student with
  | Some enc => FaceRecognitionService.verify_face_with_liveness fs image_data enc
  | None => (false, 0.0%Q, false)
  end.

(** A student that the identification may accept: live and matching. *)
Definition candidate (fs : FaceRecognitionService.t) (image_data : bytes)
  (s : Student) : Prop :=
  fst (fst (live_verdict fs image_data s)) = true
  /\ snd (live_verdict fs image_data s) = true.

Definition candidate_confidence (fs : FaceRecognitionService.t)
  (image_data : bytes) (s : Student) : Q :=
  snd (fst (live_verdict fs image_data s)).

(** The state of the loop of [identify_student_from_face] after [seen]. *)
Definition identified_so_far (fs : FaceRecognitionService.t)
  (image_data : bytes) (seen : list Student) (best_match : option Student)
  (best_confidence : Q) : Prop :=
  match best_match with
  | None =>
      best_confidence = 0.0%Q
      /\ forall s, In s seen -> candidate fs image_data s ->
                   (candidate_confidence fs image_data s <= 0)%Q
  | Some b =>
      exists before after,
        seen = before ++ b :: after
        /\ live_verdict fs image_data b = (true, best_confidence, true)
        /\ (forall s, In s before -> candidate fs image_data s ->
              (candidate_confidence fs image_data s < best_confidence)%Q)
        /\ (forall s, In s after -> candidate fs image_data s ->
              (candidate_confidence fs image_data s <= best_confidence)%Q)
  end.

(** The key of the duplicate guard. *)
Definition day_key (a : AttendanceRecord) : string * string :=
  (ar_student_register_number a, ar_date a).

(** At most one attendance row per student and day. *)
Definition one_per_day (db : Session) : Prop :=
  NoDup (map day_key (attendance_records db)).

(** What a marking handler may do to the attendance table at [now]: refuse
    and leave it, or accept and append one row for an active student of the
    roster who had no row for the day. *)
Definition marked_or_refused (now : datetime) (db db' : Session)
  (reply : Reply) : Prop :=
  (r_status reply = "error"%string
   /\ attendance_records db' = attendance_records db)
  \/ (r_status reply = "success"%string
      /\ exists a student,
           attendance_records db' = attendance_records db ++ [a]
           /\ query_attendance db (ar_student_register_number a) (ar_date a)
              = None
           /\ In student (students db')
           /\ st_is_active student = true
           /\ ar_student_register_number a = st_register_number student
           /\ ar_time a = now
           /\ ar_date a = strftime_Ymd (date_of now)
           /\ r_student reply = Some student
           /\ Some (ar_status a) = r_attendance_status reply).

(** What a capture recorded and no review may change. *)
Definition capture_data (a : AttendanceRecord)
  : nat * string * string * datetime * string * option Q * bool :=
  (ar_id a, ar_student_register_number a, ar_date a, ar_time a,
   ar_verification_method a, ar_face_confidence a, ar_qr_verified a).

(** Every pending verification points to a row of the attendance table. *)
Definition linked (db : Session) : Prop :=
  incl (map pv_attendance_record_id (pending_verifications db))
       (map ar_id (attendance_records db)).

(** Every row of the image has the width of the first. *)
Definition rectangular (image : ndarray) : Prop :=
  forall row, In row image ->
    Z.of_nat (length row) = SiameseNetworkService.width image.

(** The face lies inside the image. *)
Definition inside (image : ndarray) (f : SiameseNetworkService.box) : Prop :=
  let '(x, y, w, h) := f in
  (0 <= x /\ 0 <= y /\ 0 <= w /\ 0 <= h
   /\ x + w <= SiameseNetworkService.width image
   /\ y + h <= SiameseNetworkService.height image)%Z.

(** A register number made of five to nine digits. *)
Definition numeric (r : string) : Prop :=
  PyStr.isdigit r = true /\ 5 <= String.length r <= 9.

(** A register number in the academic format: two digits, two to four
    upper-case letters, three digits. *)
Definition academic (r : string) : Prop :=
  exists year letters serial,
    PyStr.chars r = year ++ letters ++ serial
    /\ length year = 2 /\ 2 <= length letters <= 4 /\ length serial = 3
    /\ forallb PyStr.is_decimal year = true
    /\ forallb PyStr.is_upper letters = true
    /\ forallb PyStr.is_decimal serial = true.


(** How a reported register number relates to the decoded token. *)
Definition reported (v : QRDecoding.json) (r : string) : Prop :=
  (exists items w,
     v = QRDecoding.JDict items
     /\ QRDecoding.get items "register_number" = Some w
     /\ r = QRDecoding.str w)
  \/ numeric r \/ academic r.

(** A decoder whose OpenCV detector reads the text [2227021] on every
    image, which [json.loads] parses as a number; pyzbar finds nothing. *)
Definition bare_number_reader : QRDecoding.t :=
  QRDecoding.mk
    (fun _ => Ok (Some []))
    (fun img => Ok ([img; img], img, img))
    (fun _ => Ok "2227021"%string)
    (fun _ => Ok [])
    (fun _ => Ok [])
    (fun img _ => Ok img)
    (fun img _ => Ok img)
    None
    (fun s => if String.eqb s "2227021"
              then QRDecoding.Loaded (QRDecoding.JValue
                                        (QRDecoding.VInt 2227021))
              else QRDecoding.JSONDecodeError).

(** A status that [get_attendance_stats] counts. *)
Definition counted (status : string) : bool :=
  String.eqb status "Present" || String.eqb status "Late"
  || String.eqb status "Pending".

(** The student has a counted row for the date. *)
Definition marked_on (db : Session) (date : string) (s : Student) : bool :=
  existsb (fun a => String.eqb (ar_student_register_number a)
                               (st_register_number s)
                    && String.eqb (ar_date a) date
                    && counted (ar_status a))
          (attendance_records db).

(** The rows of the date that are counted. *)
Definition counted_rows (db : Session) (date : string)
  : list AttendanceRecord :=
  filter (fun a => String.eqb (ar_date a) date && counted (ar_status a))
         (attendance_records db).

(** What an attendance row records, apart from the notification flag and
    the fields of a review. *)
Definition row_data (a : AttendanceRecord)
  : nat * string * string * datetime * string * string :=
  (ar_id a, ar_student_register_number a, ar_date a, ar_time a, ar_status a,
   ar_verification_status a).

(** The outcome of a capture without a token at [now]: refused with
    nothing written, or one Pending row added. *)
Definition pending_outcome (now : datetime) (db : Session)
  (out : Reply * Session) : Prop :=
  (exists message, out = (error_reply message, db))
  \/ (exists student confidence message a a',
        fst out = AttendanceService.student_reply "Pending" student
                    "face_only" confidence message
        /\ fresh db a /\ flagged a a'
        /\ attendance_records (snd out) = attendance_records db ++ [a']
        /\ students (snd out) = students db
        /\ pending_verifications (snd out) = pending_verifications db
        /\ ar_status a = "Pending"%string
        /\ ar_verification_status a = "pending"%string
        /\ ar_time a = now).

(** A reader of ID cards: pyzbar finds the barcode [2022026] on every
    image, the OpenCV detector reads nothing. The text is a JSON number. *)
Definition card_reader : QRDecoding.t :=
  QRDecoding.mk
    (fun _ => Ok (Some []))
    (fun img => Ok ([img; img], img, img))
    (fun _ => Ok ""%string)
    (fun _ => Ok [QRDecoding.mk_barcode "2022026" "CODE128"])
    (fun _ => Ok [QRDecoding.mk_barcode "2022026" "CODE128"])
    (fun img _ => Ok img)
    (fun img _ => Ok img)
    None
    (fun s => if String.eqb s "2022026"
              then QRDecoding.Loaded (QRDecoding.JValue
                                        (QRDecoding.VInt 2022026))
              else QRDecoding.JSONDecodeError).

(** No active student has the register number. *)
Definition deactivated (db : Session) (r : string) : Prop :=
  forall s, In s (students db) -> st_register_number s = r ->
            st_is_active s = false.

(** * Properties *)

Ltac break_match :=
  match goal with
  | |- context [match ?x with _ => _ end] => destruct x eqn:?
  | H : context [match ?x with _ => _ end] |- _ => destruct x eqn:?
  end.

Lemma Qlt_bool_iff (x y : Q) : Qlt_bool x y = true <-> (x < y)%Q.
Proof.
  unfold Qlt_bool. rewrite negb_true_iff. split.
  - intros H. apply Qnot_le_lt. intros Hle.
    apply Qle_bool_iff in Hle. congruence.
  - intros H. destruct (Qle_bool y x) eqn:E; [|reflexivity].
    apply Qle_bool_iff in E. exfalso. exact (Qlt_not_le _ _ H E).
Qed.

Lemma Qlt_bool_false_iff (x y : Q) : Qlt_bool x y = false <-> (y <= x)%Q.
Proof.
  unfold Qlt_bool. rewrite negb_false_iff. apply Qle_bool_iff.
Qed.

(** ** The clock *)

Lemma time_gt_irrefl (t : time) : time_gt t t = false.
Proof.
  unfold time_gt. rewrite !Nat.ltb_irrefl. reflexivity.
Qed.

(** [time_gt] is "strictly later in the day". *)
Lemma time_gt_spec (a b : time) :
  valid_time a -> valid_time b ->
  (time_gt a b = true <-> (to_microseconds b < to_microseconds a)%Z).
Proof.
  unfold valid_time, to_microseconds, time_gt.
  intros (Ha1 & Ha2 & Ha3 & Ha4) (Hb1 & Hb2 & Hb3 & Hb4).
  repeat match goal with
         | |- context [?x <? ?y] => destruct (Nat.ltb_spec x y)
         end; split; intros; try reflexivity; try discriminate; try lia.
Qed.

(** ** The store *)

Lemma next_id_fresh (ids : list nat) (i : nat) : In i ids -> i < next_id ids.
Proof.
  unfold next_id. induction ids as [|j ids IH]; simpl; [tauto|].
  intros [->|H]; [|specialize (IH H)]; lia.
Qed.

Lemma map_update_fresh {A : Type} (key : A -> nat) (x' : A) (l : list A) :
  (forall x, In x l -> key x <> key x') ->
  map (fun x => if key x =? key x' then x' else x) l = l.
Proof.
  induction l as [|x l IH]; simpl; intros H; [reflexivity|].
  rewrite IH by (intros; apply H; auto).
  destruct (Nat.eqb_spec (key x) (key x')) as [E|_]; [|reflexivity].
  exfalso. apply (H x); auto.
Qed.

(** A row that was just added is the only one with its key: writing it back
    changes the last row and nothing else. *)
Lemma update_added (db : Session) (a a' : AttendanceRecord) :
  fresh db a -> ar_id a' = ar_id a ->
  attendance_records (update_attendance (added db a) a')
  = attendance_records db ++ [a'].
Proof.
  unfold fresh. intros Hfresh Hid. unfold update_attendance, added. simpl.
  rewrite map_app. simpl.
  rewrite (map_update_fresh ar_id).
  - rewrite Hid, Nat.eqb_refl. reflexivity.
  - intros x Hx. rewrite Hid, Hfresh.
    pose proof (next_id_fresh (map ar_id (attendance_records db)) (ar_id x)
                  (in_map ar_id _ _ Hx)). lia.
Qed.

Lemma service_notify_added (self : AttendanceService.t) (db : Session)
  (a : AttendanceRecord) :
  fresh db a ->
  exists a',
    flagged a a'
    /\ attendance_records (AttendanceService.notify self a (added db a))
       = attendance_records db ++ [a']
    /\ students (AttendanceService.notify self a (added db a)) = students db
    /\ pending_verifications (AttendanceService.notify self a (added db a))
       = pending_verifications db.
Proof.
  intros Hfresh.
  pose proof (@update_added db a (set_notification_sent a true) Hfresh
                eq_refl) as Hupd.
  unfold AttendanceService.notify.
  destruct (AttendanceService.send_attendance_notification self (ar_id a))
    as [status|e].
  - destruct (String.eqb status "success").
    + exists (set_notification_sent a true). split; [right; reflexivity|].
      split; [exact Hupd|]. simpl. auto.
    + exists a. split; [left; reflexivity|]. simpl. auto.
  - exists a. split; [left; reflexivity|]. simpl. auto.
Qed.

Lemma main_notify_added (app : Main.App) (db : Session)
  (a : AttendanceRecord) :
  fresh db a ->
  exists a',
    flagged a a'
    /\ attendance_records (Main.send_late_notification app a (added db a))
       = attendance_records db ++ [a']
    /\ students (Main.send_late_notification app a (added db a)) = students db
    /\ pending_verifications (Main.send_late_notification app a (added db a))
       = pending_verifications db.
Proof.
  intros Hfresh.
  pose proof (@update_added db a (set_notification_sent a true) Hfresh
                eq_refl) as Hupd.
  unfold Main.send_late_notification.
  destruct (Main.send_attendance_notification app (ar_id a)) as [status|e].
  - destruct (String.eqb status "success").
    + exists (set_notification_sent a true). split; [right; reflexivity|].
      split; [exact Hupd|]. simpl. auto.
    + exists a. split; [left; reflexivity|]. simpl. auto.
  - exists a. split; [left; reflexivity|]. simpl. auto.
Qed.

(** The verification block of [mark_attendance_verified] writes to the
    student table only. *)
Lemma verification_block_frame (app : Main.App) (face_image_data : bytes)
  (student : Student) (db : Session) r :
  Main.verification_block app face_image_data student db = r ->
  attendance_records (snd r) = attendance_records db
  /\ pending_verifications (snd r) = pending_verifications db
  /\ st_register_number (snd (fst r)) = st_register_number student.
Proof.
  intros <-. unfold Main.verification_block.
  repeat (break_match; simpl); auto.
Qed.

(** ** Present or late on the token+face path *)

Section Cutoff.
Local Open Scope string_scope.

Variable self : AttendanceService.t.
Variable app : Main.App.
Variable image_data : bytes.
Variable now : datetime.
Variable db : Session.

Lemma classified_intro (cutoff : time) (reply : Reply) (db' : Session)
  (a : AttendanceRecord) :
  r_attendance_status reply
  = Some (if time_gt (time_of now) cutoff then "Late" else "Present") ->
  attendance_records db' = (attendance_records db ++ [a])%list ->
  Some (ar_status a) = r_attendance_status reply ->
  ar_time a = now ->
  classified now db cutoff reply db'.
Proof.
  intros Hr Hdb Hst Ht. unfold classified. split; [exact Hr|].
  split; [|split].
  - intros E. rewrite Hr, E, time_gt_irrefl. reflexivity.
  - rewrite Hr. destruct (time_gt (time_of now) cutoff); split;
      intros; try reflexivity; discriminate.
  - exists a. auto.
Qed.

Lemma face_qr_classified (qr_data : string) (current_date : string) :
  let out := AttendanceService._handle_face_qr_attendance
               self image_data qr_data now current_date db in
  r_status (fst out) = "success" ->
  classified now db (AttendanceService.cutoff_time self) (fst out) (snd out).
Proof.
  unfold AttendanceService._handle_face_qr_attendance.
  repeat (break_match; simpl; try discriminate); intros _.
  - (* late: the notification block runs on the added row *)
    match goal with
    | |- context [AttendanceService.notify self ?a _] =>
        destruct (@service_notify_added self db a eq_refl)
          as (a' & Hfl & Hrec & _)
    end.
    apply classified_intro with (a := a'); simpl; auto.
    + match goal with E : time_gt _ _ = _ |- _ => rewrite E end. reflexivity.
    + destruct Hfl as [->| ->]; reflexivity.
    + destruct Hfl as [->| ->]; reflexivity.
  - (* present *)
    eapply classified_intro; simpl; try reflexivity.
    match goal with E : time_gt _ _ = _ |- _ => rewrite E end. reflexivity.
Qed.

Lemma verified_classified (id_register_number : string) :
  let out := Main.mark_attendance_verified app image_data
               id_register_number now db in
  r_status (fst out) = "success" ->
  classified now db (mk_time 8 45 0 0) (fst out) (snd out).
Proof.
  unfold Main.mark_attendance_verified.
  repeat (break_match; simpl; try discriminate); intros _;
    match goal with
    | E : Main.verification_block _ _ _ _ = _ |- _ =>
        pose proof (verification_block_frame _ _ _ _ E) as (Hrec & _);
        simpl in Hrec
    end.
  - (* case D *)
    match goal with
    | H : attendance_records ?db1 = _
      |- context [Main.send_late_notification app ?a _] =>
        destruct (@main_notify_added app db1 a eq_refl)
          as (a' & Hfl & Hrec' & _)
    end.
    apply classified_intro with (a := a'); simpl.
    + match goal with E : time_gt _ _ = _ |- _ => rewrite E end. reflexivity.
    + rewrite <- Hrec. exact Hrec'.
    + destruct Hfl as [->| ->]; reflexivity.
    + destruct Hfl as [->| ->]; reflexivity.
  - (* case A *)
    match goal with
    | |- classified _ _ _ _ (mk_Session _ (_ ++ [?x]) _) =>
        apply classified_intro with (a := x)
    end; simpl.
    + match goal with E : time_gt _ _ = _ |- _ => rewrite E end. reflexivity.
    + rewrite Hrec. reflexivity.
    + reflexivity.
    + reflexivity.
Qed.

End Cutoff.

(** C5. On the token+face path ([_handle_face_qr_attendance] with the
    configured cutoff, [mark_attendance_verified] with 08:45), an accepted
    capture is Late exactly when its time of day is strictly after the
    cutoff, and Present otherwise; a capture at exactly the cutoff is
    Present. The row written to the attendance table carries that status. *)
Theorem cutoff_is_strict (self : AttendanceService.t) (app : Main.App)
  (image_data : bytes) (qr_data current_date id_register_number : string)
  (now : datetime) (db : Session) :
  (let out := AttendanceService._handle_face_qr_attendance
                self image_data qr_data now current_date db in
   r_status (fst out) = "success"%string ->
   classified now db (AttendanceService.cutoff_time self) (fst out) (snd out))
  /\ (let out := Main.mark_attendance_verified app image_data
                   id_register_number now db in
      r_status (fst out) = "success"%string ->
      classified now db (mk_time 8 45 0 0) (fst out) (snd out)).
Proof.
  split.
  - apply face_qr_classified.
  - apply verified_classified.
Qed.

Lemma cutoff_is_strict_witness :
  r_attendance_status
    (fst (AttendanceService._handle_face_qr_attendance
            (Scenario.service None 0.8%Q) Scenario.image_data "2022026"
            Scenario.at_cutoff "2025-01-15" (Scenario.empty_db Scenario.asha)))
  = Some "Present"%string
  /\ r_attendance_status
       (fst (Main.mark_attendance_verified
               (Scenario.app None 0.8%Q) Scenario.image_data "2022026"
               Scenario.at_cutoff (Scenario.empty_db Scenario.asha)))
     = Some "Present"%string.
Proof.
  destruct (cutoff_is_strict (Scenario.service None 0.8%Q)
              (Scenario.app None 0.8%Q) Scenario.image_data "2022026"
              "2025-01-15" "2022026" Scenario.at_cutoff
              (Scenario.empty_db Scenario.asha)) as [H1 H2].
  split.
  - apply H1; reflexivity.
  - apply H2; reflexivity.
Defined.

Example late_one_microsecond_after :
  r_attendance_status
    (fst (Main.mark_attendance_verified
            (Scenario.app None 0.8%Q) Scenario.image_data "2022026"
            Scenario.after_cutoff (Scenario.empty_db Scenario.asha)))
  = Some "Late"%string.
Proof. reflexivity. Qed.

(** ** The liveness evaluator *)

Section Liveness.
Import SiameseNetworkService.

Variable self : SiameseNetworkService.t.
Variable image_data : bytes.

Lemma check_liveness_computed (image rgb_image : ndarray) :
  k_imdecode (kernels self) image_data = Ok (Some image) ->
  k_cvtColor_RGB (kernels self) image = Ok rgb_image ->
  check_liveness self image_data
  = (Qge_bool (_check_face_mesh_liveness self rgb_image * 0.5
               + _check_texture_liveness self image * 0.3
               + _check_color_distribution self image * 0.2)
              (liveness_threshold self),
     (_check_face_mesh_liveness self rgb_image * 0.5
      + _check_texture_liveness self image * 0.3
      + _check_color_distribution self image * 0.2)%Q).
Proof.
  intros Hdec Hrgb. unfold check_liveness. rewrite Hdec, Hrgb. reflexivity.
Qed.

Lemma mesh_no_landmarks (rgb_image : ndarray) process :
  k_face_mesh (kernels self) = Some process ->
  process rgb_image = Ok None ->
  _check_face_mesh_liveness self rgb_image = 0.0%Q.
Proof.
  intros Hm Hp. unfold _check_face_mesh_liveness. rewrite Hm, Hp. reflexivity.
Qed.

Lemma mesh_unavailable (rgb_image : ndarray) :
  k_face_mesh (kernels self) = None
  \/ (exists process e, k_face_mesh (kernels self) = Some process
                        /\ process rgb_image = Raise e) ->
  _check_face_mesh_liveness self rgb_image = 1.0%Q.
Proof.
  unfold _check_face_mesh_liveness.
  intros [Hm|(process & e & Hm & Hp)]; rewrite Hm; [|rewrite Hp]; reflexivity.
Qed.

End Liveness.

(** C8. When the image decodes and the three signals are computed, the
    liveness score is 0.5 * mesh + 0.3 * texture + 0.2 * colour and the
    decision is [score >= liveness_threshold]; the threshold is 0.35 when
    LIVENESS_THRESHOLD is not set. *)
Theorem liveness_score_is_weighted (self : SiameseNetworkService.t)
  (image_data : bytes) (image rgb_image : ndarray) :
  k_imdecode (SiameseNetworkService.kernels self) image_data = Ok (Some image) ->
  k_cvtColor_RGB (SiameseNetworkService.kernels self) image = Ok rgb_image ->
  let depth := SiameseNetworkService._check_face_mesh_liveness self rgb_image in
  let texture := SiameseNetworkService._check_texture_liveness self image in
  let color := SiameseNetworkService._check_color_distribution self image in
  let is_live := fst (SiameseNetworkService.check_liveness self image_data) in
  let score := snd (SiameseNetworkService.check_liveness self image_data) in
  (score == SiameseNetworkService.documented_score depth texture color)%Q
  /\ (is_live = true
      <-> (SiameseNetworkService.liveness_threshold self <= score)%Q)
  /\ (forall k, SiameseNetworkService.liveness_threshold
                  (SiameseNetworkService.init (fun _ => None) k) = 0.35%Q).
Proof.
  intros Hdec Hrgb. simpl.
  rewrite (check_liveness_computed self image_data Hdec Hrgb). simpl.
  split; [|split].
  - unfold SiameseNetworkService.documented_score. ring.
  - unfold Qge_bool. apply Qle_bool_iff.
  - intros k. reflexivity.
Qed.

Lemma liveness_score_is_weighted_witness :
  (snd (SiameseNetworkService.check_liveness (Scenario.siamese None 0.8%Q)
          Scenario.image_data) == 0.5)%Q
  /\ fst (SiameseNetworkService.check_liveness (Scenario.siamese None 0.8%Q)
            Scenario.image_data) = true.
Proof.
  destruct (@liveness_score_is_weighted (Scenario.siamese None 0.8%Q)
              Scenario.image_data [] [] eq_refl eq_refl) as (Hs & Hl & _).
  split.
  - rewrite Hs. reflexivity.
  - apply Hl. rewrite Hs. vm_compute. discriminate.
Defined.

(** C6, as stated, fails: when the face mesh resolves no landmarks the mesh
    signal is 0.0, not a default; with flat texture and colour the evaluator
    answers not live with score 0. *)
Lemma no_landmarks_is_not_live :
  (exists process,
      k_face_mesh (SiameseNetworkService.kernels
                     (Scenario.siamese Scenario.no_landmarks 0.8%Q))
      = Some process
      /\ process [] = Ok None)
  /\ ~ (fst (SiameseNetworkService.check_liveness
               (Scenario.siamese Scenario.no_landmarks 0.8%Q)
               Scenario.image_data) = true
        /\ (snd (SiameseNetworkService.check_liveness
                   (Scenario.siamese Scenario.no_landmarks 0.8%Q)
                   Scenario.image_data) == 1.0)%Q).
Proof.
  split.
  - eexists. split; reflexivity.
  - intros [H _]. vm_compute in H. discriminate.
Qed.

(** C6, amended. [check_liveness] answers live with score 1.0 when an error
    escapes its own body (decoding or colour conversion raises), and the
    wrapper of the face service does so when liveness detection is off. An
    unavailable or failing face mesh only sets the mesh signal to 1.0; a
    mesh that finds no landmarks sets it to 0.0, and the answer is then the
    weighted score against the threshold; an image that does not decode is
    answered not live with score 0.0. *)
Theorem liveness_failure_defaults (self : SiameseNetworkService.t)
  (fr : FaceRecognitionService.t) (image_data : bytes) :
  ((exists e, k_imdecode (SiameseNetworkService.kernels self) image_data
              = Raise e)
   \/ (exists image e,
         k_imdecode (SiameseNetworkService.kernels self) image_data
         = Ok (Some image)
         /\ k_cvtColor_RGB (SiameseNetworkService.kernels self) image
            = Raise e) ->
   SiameseNetworkService.check_liveness self image_data = (true, 1.0%Q))
  /\ (FaceRecognitionService.use_siamese fr
      && FaceRecognitionService.enable_liveness fr = false ->
      FaceRecognitionService.check_liveness fr image_data = (true, 1.0%Q))
  /\ (k_imdecode (SiameseNetworkService.kernels self) image_data = Ok None ->
      SiameseNetworkService.check_liveness self image_data = (false, 0.0%Q))
  /\ (forall image rgb_image,
        k_imdecode (SiameseNetworkService.kernels self) image_data
        = Ok (Some image) ->
        k_cvtColor_RGB (SiameseNetworkService.kernels self) image
        = Ok rgb_image ->
        let texture := SiameseNetworkService._check_texture_liveness self image in
        let color :=
          SiameseNetworkService._check_color_distribution self image in
        let score :=
          snd (SiameseNetworkService.check_liveness self image_data) in
        (k_face_mesh (SiameseNetworkService.kernels self) = None
         \/ (exists process e,
               k_face_mesh (SiameseNetworkService.kernels self) = Some process
               /\ process rgb_image = Raise e) ->
         (score == 0.5 + 0.3 * texture + 0.2 * color)%Q)
        /\ ((exists process,
               k_face_mesh (SiameseNetworkService.kernels self) = Some process
               /\ process rgb_image = Ok None) ->
            (score == 0.3 * texture + 0.2 * color)%Q
            /\ fst (SiameseNetworkService.check_liveness self image_data)
               = Qge_bool score
                   (SiameseNetworkService.liveness_threshold self))).
Proof.
  split; [|split; [|split]].
  - unfold SiameseNetworkService.check_liveness.
    intros [(e & He)|(image & e & Hd & Hc)].
    + rewrite He. reflexivity.
    + rewrite Hd, Hc. reflexivity.
  - unfold FaceRecognitionService.check_liveness. intros ->. reflexivity.
  - unfold SiameseNetworkService.check_liveness. intros ->. reflexivity.
  - intros image rgb_image Hd Hc. simpl.
    rewrite (check_liveness_computed self image_data Hd Hc). simpl. split.
    + intros Hm. rewrite (@mesh_unavailable self rgb_image Hm). ring.
    + intros (process & Hm & Hp).
      rewrite (@mesh_no_landmarks self rgb_image process Hm Hp). split; [ring|].
      reflexivity.
Qed.

Lemma liveness_failure_defaults_witness :
  SiameseNetworkService.check_liveness Scenario.broken_siamese
    Scenario.image_data = (true, 1.0%Q)
  /\ FaceRecognitionService.check_liveness
       (FaceRecognitionService.mk 0.4%Q true false Scenario.broken_siamese
          (fun _ => None) (fun _ => None) (fun _ _ => 0.0%Q))
       Scenario.image_data = (true, 1.0%Q)
  /\ (snd (SiameseNetworkService.check_liveness
             (Scenario.siamese Scenario.no_landmarks 0.8%Q)
             Scenario.image_data) == 0)%Q.
Proof.
  split; [|split].
  - apply (liveness_failure_defaults Scenario.broken_siamese
             (Scenario.face None 0.8%Q) Scenario.image_data).
    left. exists "cv2.error"%string. reflexivity.
  - apply (liveness_failure_defaults Scenario.broken_siamese
             (FaceRecognitionService.mk 0.4%Q true false
                Scenario.broken_siamese
                (fun _ => None) (fun _ => None) (fun _ _ => 0.0%Q))
             Scenario.image_data).
    reflexivity.
  - destruct (liveness_failure_defaults
                (Scenario.siamese Scenario.no_landmarks 0.8%Q)
                (Scenario.face None 0.8%Q) Scenario.image_data)
      as (_ & _ & _ & H).
    destruct (H [] [] eq_refl eq_refl) as (_ & H2).
    destruct H2 as (Hs & _).
    + eexists. split; reflexivity.
    + rewrite Hs. reflexivity.
Defined.

(** ** Identification: the best match among the enrolled *)

Section BestMatch.
Import FaceRecognitionService.

Variable self : FaceRecognitionService.t.
Variable image_data : bytes.

Abbreviation matches s := (fst (verdict self image_data s) = true).
Abbreviation confidence s := (snd (verdict self image_data s)).

(** A verdict that says "match" carries a positive confidence. *)
Hypothesis positive :
  forall s, matches s -> (0 < confidence s)%Q.

Lemma scan_invariant (todo : list Student) :
  forall seen best_match highest_confidence,
    best_so_far self image_data seen best_match highest_confidence ->
    best_so_far self image_data (seen ++ todo)
      (fst (scan self image_data todo best_match highest_confidence))
      (snd (scan self image_data todo best_match highest_confidence)).
Proof.
  induction todo as [|student rest IH]; intros seen best hi Hinv.
  - simpl. rewrite app_nil_r. exact Hinv.
  - simpl.
    destruct (verdict self image_data student) as [is_match c] eqn:Hv.
    replace (seen ++ student :: rest) with ((seen ++ [student]) ++ rest)
      by (rewrite <- app_assoc; reflexivity).
    destruct (is_match && Qlt_bool hi c) eqn:Hupd; apply IH.
    + (* the student becomes the best match *)
      apply andb_true_iff in Hupd. destruct Hupd as [-> Hlt].
      apply Qlt_bool_iff in Hlt.
      exists seen, []. split; [reflexivity|]. split; [exact Hv|].
      split; [|intros s []].
      intros s Hs Hm. destruct best as [b|].
      * destruct Hinv as (before & after & -> & Hb & Hbefore & Hafter).
        apply in_app_or in Hs. destruct Hs as [Hs|[<-|Hs]].
        -- apply Qlt_trans with hi; auto.
        -- rewrite Hb. exact Hlt.
        -- apply Qle_lt_trans with hi; auto.
      * destruct Hinv as [_ Hnone]. rewrite (Hnone s Hs) in Hm. discriminate.
    + (* the best match stays *)
      destruct best as [b|].
      * destruct Hinv as (before & after & -> & Hb & Hbefore & Hafter).
        exists before, (after ++ [student]).
        split; [rewrite <- app_assoc; reflexivity|].
        split; [exact Hb|]. split; [exact Hbefore|].
        intros s Hs Hm. apply in_app_or in Hs. destruct Hs as [Hs|[<-|[]]].
        -- auto.
        -- rewrite Hv in Hm |- *. simpl in Hm |- *. subst is_match.
           simpl in Hupd. apply Qlt_bool_false_iff in Hupd. exact Hupd.
      * destruct Hinv as [-> Hnone]. split; [reflexivity|].
        intros s Hs. apply in_app_or in Hs. destruct Hs as [Hs|[<-|[]]].
        -- auto.
        -- destruct (fst (verdict self image_data student)) eqn:Hm;
             [|reflexivity].
           pose proof (positive student Hm) as Hpos.
           rewrite Hv in Hm, Hpos. simpl in Hm, Hpos. subst is_match.
           simpl in Hupd. apply Qlt_bool_false_iff in Hupd.
           exfalso. apply (Qlt_not_le _ _ Hpos).
           apply Qle_trans with 0.0%Q; [exact Hupd|].
           unfold Qle. simpl. lia.
Qed.

Lemma find_matching_student_spec (db : Session) :
  best_so_far self image_data (enrolled db)
    (option_map fst (find_matching_student self image_data db))
    (match find_matching_student self image_data db with
     | Some (_, c) => c
     | None => 0.0%Q
     end).
Proof.
  pose proof (@scan_invariant (enrolled db) [] None 0.0%Q) as H.
  simpl in H. unfold find_matching_student.
  destruct (scan self image_data (enrolled db) None 0.0%Q) as [[b|] hi];
    simpl in *.
  - apply H. split; [reflexivity|]. intros s [].
  - destruct H as [_ H]; [split; [reflexivity|intros s []]|].
    split; [reflexivity|exact H].
Qed.

End BestMatch.

Lemma verdict_positive (self : FaceRecognitionService.t) (image_data : bytes) :
  (FaceRecognitionService.use_siamese self = true ->
   (0 < SiameseNetworkService.threshold
          (FaceRecognitionService.siamese_service self))%Q) ->
  forall s,
    fst (FaceRecognitionService.verdict self image_data s) = true ->
    (0 < snd (FaceRecognitionService.verdict self image_data s))%Q.
Proof.
  intros Hthr s.
  unfold FaceRecognitionService.verdict, FaceRecognitionService.verify_face,
    SiameseNetworkService.verify_face.
  destruct (st_face_encoding s) as [enc|]; [|discriminate].
  destruct (FaceRecognitionService.use_siamese self).
  - specialize (Hthr eq_refl).
    repeat (break_match; simpl; try discriminate).
    unfold Qge_bool. intros H. apply Qle_bool_iff in H.
    apply Qlt_le_trans with (2 := H). exact Hthr.
  - repeat (break_match; simpl; try discriminate).
    unfold Qge_bool, FaceRecognitionService.default_threshold.
    intros H. apply Qle_bool_iff in H.
    apply Qlt_le_trans with (2 := H). reflexivity.
Qed.

Lemma enrolled_spec (db : Session) (s : Student) :
  In s (FaceRecognitionService.enrolled db)
  <-> In s (students db) /\ st_is_active s = true /\ st_face_encoding s <> None.
Proof.
  unfold FaceRecognitionService.enrolled. rewrite filter_In, andb_true_iff.
  destruct (st_face_encoding s); simpl; intuition congruence.
Qed.

(** C7. [find_matching_student] scans every active student with a stored
    encoding, in table order. It returns [None] exactly when no scanned
    student verifies. Otherwise it returns one scanned student that
    verifies, with the confidence of that verification: no scanned student
    that verifies has a higher confidence, and every one scanned earlier has
    a strictly lower one, so among equal confidences the first one met is
    kept. The match threshold is taken to be positive, as its defaults are. *)
Theorem find_matching_student_best (self : FaceRecognitionService.t)
  (image_data : bytes) (db : Session) :
  (FaceRecognitionService.use_siamese self = true ->
   (0 < SiameseNetworkService.threshold
          (FaceRecognitionService.siamese_service self))%Q) ->
  let verdict := FaceRecognitionService.verdict self image_data in
  let scanned := FaceRecognitionService.enrolled db in
  let found := FaceRecognitionService.find_matching_student self image_data db in
  (forall s, In s scanned
             <-> In s (students db) /\ st_is_active s = true
                 /\ st_face_encoding s <> None)
  /\ (found = None <-> forall s, In s scanned -> fst (verdict s) = false)
  /\ (forall best c,
        found = Some (best, c) ->
        exists before after,
          scanned = before ++ best :: after
          /\ verdict best = (true, c)
          /\ (forall s, In s before -> fst (verdict s) = true ->
                        (snd (verdict s) < c)%Q)
          /\ (forall s, In s after -> fst (verdict s) = true ->
                        (snd (verdict s) <= c)%Q)).
Proof.
  intros Hthr verdict scanned found.
  pose proof (@find_matching_student_spec self image_data
                (verdict_positive self image_data Hthr) db) as Hspec.
  fold found in Hspec.
  split; [intros s; apply enrolled_spec|]. split.
  - split.
    + intros E. rewrite E in Hspec. simpl in Hspec. apply Hspec.
    + intros Hnone. destruct found as [[b c]|]; [|reflexivity].
      simpl in Hspec. destruct Hspec as (before & after & Hl & Hb & _).
      assert (Hin : In b scanned).
      { unfold scanned. rewrite Hl. apply in_or_app. right. left. reflexivity. }
      specialize (Hnone b Hin). unfold verdict in Hnone. rewrite Hb in Hnone.
      discriminate.
  - intros best c E. rewrite E in Hspec. simpl in Hspec. exact Hspec.
Qed.

Lemma find_matching_student_best_witness :
  FaceRecognitionService.find_matching_student
    (Scenario.face None 0.8%Q) Scenario.image_data
    (mk_Session [Scenario.asha; Scenario.ravi] [] [])
  = Some (Scenario.asha, 0.8%Q)
  /\ exists before after,
       [Scenario.asha; Scenario.ravi] = before ++ Scenario.asha :: after
       /\ forall s, In s after ->
            fst (FaceRecognitionService.verdict (Scenario.face None 0.8%Q)
                   Scenario.image_data s) = true ->
            (snd (FaceRecognitionService.verdict (Scenario.face None 0.8%Q)
                    Scenario.image_data s) <= 0.8)%Q.
Proof.
  split; [reflexivity|].
  assert (Hthr : FaceRecognitionService.use_siamese (Scenario.face None 0.8%Q)
                 = true ->
                 (0 < SiameseNetworkService.threshold
                        (FaceRecognitionService.siamese_service
                           (Scenario.face None 0.8%Q)))%Q)
    by (intros _; reflexivity).
  destruct (find_matching_student_best (Scenario.face None 0.8%Q)
              Scenario.image_data
              (mk_Session [Scenario.asha; Scenario.ravi] [] []) Hthr)
    as (_ & _ & H).
  destruct (H Scenario.asha 0.8%Q eq_refl)
    as (before & after & Hl & _ & _ & Hafter).
  exists before, after. split; [exact Hl|exact Hafter].
Defined.

(** ** The duplicate guard *)

Lemma query_attendance_found (db : Session) (r d : string) :
  already_marked db r d ->
  exists existing,
    query_attendance db r d = Some existing
    /\ In existing (attendance_records db)
    /\ ar_student_register_number existing = r
    /\ ar_date existing = d.
Proof.
  intros (a & Hin & Hr & Hd). unfold query_attendance.
  destruct (find _ (attendance_records db)) as [e|] eqn:E.
  - exists e. apply find_some in E. destruct E as [Hine Hb].
    apply andb_true_iff in Hb. destruct Hb as [H1 H2].
    apply String.eqb_eq in H1, H2. auto.
  - exfalso. pose proof (find_none _ _ E a Hin) as Hb. simpl in Hb.
    subst r d. rewrite !String.eqb_refl in Hb. discriminate.
Qed.

Lemma duplicate_rejected_intro (db : Session) (r d : string)
  (existing : AttendanceRecord) (db' : Session) :
  In existing (attendance_records db) ->
  ar_student_register_number existing = r ->
  ar_date existing = d ->
  attendance_records db' = attendance_records db ->
  pending_verifications db' = pending_verifications db ->
  duplicate_rejected db r d
    (error_reply ("Attendance already marked for today: "
                  ++ ar_status existing)%string, db').
Proof.
  intros. unfold duplicate_rejected. simpl.
  repeat split; auto. exists existing. auto.
Qed.

Lemma verified_duplicate_rejected (app : Main.App) (image_data : bytes)
  (id_register_number : string) (now : datetime) (db : Session)
  (student : Student) :
  query_active_student db id_register_number = Some student ->
  already_marked db (st_register_number student)
                 (strftime_Ymd (date_of now)) ->
  duplicate_rejected db (st_register_number student)
    (strftime_Ymd (date_of now))
    (Main.mark_attendance_verified app image_data id_register_number now db).
Proof.
  intros Hst Hdup.
  destruct (query_attendance_found Hdup) as (e & Hq & Hin & Hr & Hd).
  unfold Main.mark_attendance_verified. rewrite Hst.
  destruct (Main.verification_block app image_data student db)
    as [[[[face_match face_confidence] is_live] student'] db1] eqn:Hvb.
  destruct (verification_block_frame _ _ _ _ Hvb) as (Hrec & Hpend & Hreg).
  simpl in Hrec, Hpend, Hreg.
  assert (Hq' : query_attendance db1 (st_register_number student')
                  (strftime_Ymd (date_of now)) = Some e).
  { unfold query_attendance in *. rewrite Hrec, Hreg. exact Hq. }
  rewrite Hq'. apply duplicate_rejected_intro; auto.
Qed.



(** ** First-sight enrollment in [mark_attendance_verified] *)

Lemma find_after_update (p : Student -> bool) (s s' : Student)
  (l : list Student) :
  find p l = Some s -> p s' = true -> st_id s' = st_id s ->
  find p (map (fun x => if st_id x =? st_id s' then s' else x) l) = Some s'.
Proof.
  intros Hfind Hp Hid. induction l as [|x l IH]; simpl in *; [discriminate|].
  destruct (p x) eqn:Hx.
  - inversion Hfind; subst x. rewrite Hid, Nat.eqb_refl, Hp. reflexivity.
  - destruct (st_id x =? st_id s'); [rewrite Hp; reflexivity|].
    rewrite Hx. auto.
Qed.

Lemma mark_attendance_verified_students (app : Main.App)
  (face_image_data : bytes) (id_register_number : string) (now : datetime)
  (db : Session) (student : Student) :
  query_active_student db id_register_number = Some student ->
  students (snd (Main.mark_attendance_verified app face_image_data
                   id_register_number now db))
  = students (snd (Main.verification_block app face_image_data student db)).
Proof.
  intros Hst. unfold Main.mark_attendance_verified. rewrite Hst.
  destruct (Main.verification_block app face_image_data student db)
    as [[[[face_match face_confidence] is_live] student'] db1].
  simpl. repeat (break_match; simpl); try reflexivity.
  match goal with
  | |- context [Main.send_late_notification app ?a _] =>
      destruct (@main_notify_added app db1 a eq_refl) as (_ & _ & _ & H & _)
  end.
  exact H.
Qed.

(** C10. In [mark_attendance_verified], when the looked-up student has no
    stored face encoding and the submitted image encodes, the encoding is
    committed to the student row before the duplicate check: the student
    table that the handler leaves holds the new encoding whatever the reply,
    and a request rejected as a duplicate has still changed the student's
    [face_encoding]. *)
Theorem enrollment_precedes_duplicate_check (app : Main.App)
  (face_image_data : bytes) (id_register_number : string) (now : datetime)
  (db : Session) (student : Student) (fs : FaceRecognitionService.t)
  (face_encoding : string) :
  query_active_student db id_register_number = Some student ->
  nonempty (st_face_encoding student) = None ->
  Main.face_service app = Some fs ->
  nonempty (FaceRecognitionService.encode_face fs face_image_data)
  = Some face_encoding ->
  let out := Main.mark_attendance_verified app face_image_data
               id_register_number now db in
  let enrolled_student := set_face_encoding student (Some face_encoding) in
  students (snd out) = students (update_student db enrolled_student)
  /\ query_active_student (snd out) id_register_number = Some enrolled_student
  /\ st_face_encoding enrolled_student <> st_face_encoding student
  /\ (already_marked db (st_register_number student)
                     (strftime_Ymd (date_of now)) ->
      duplicate_rejected db (st_register_number student)
                         (strftime_Ymd (date_of now)) out).
Proof.
  intros Hst Hnone Hfs Henc out enrolled_student.
  assert (Hstudents :
            students (snd out) = students (update_student db enrolled_student)).
  { unfold out. rewrite (mark_attendance_verified_students _ _ _ _ _ Hst).
    unfold Main.verification_block. rewrite Hnone, Hfs, Henc. reflexivity. }
  split; [exact Hstudents|]. split; [|split].
  - unfold query_active_student in *. rewrite Hstudents. simpl.
    apply (@find_after_update _ student enrolled_student).
    + exact Hst.
    + apply find_some in Hst. exact (proj2 Hst).
    + reflexivity.
  - simpl. intros E. rewrite <- E in Hnone. simpl in Hnone.
    unfold nonempty in Henc.
    destruct (FaceRecognitionService.encode_face fs face_image_data)
      as [enc|]; [|discriminate].
    destruct (String.eqb enc "") eqn:Eenc; [discriminate|].
    inversion Henc; subst enc. rewrite Eenc in Hnone. discriminate.
  - apply verified_duplicate_rejected. exact Hst.
Qed.

Lemma enrollment_precedes_duplicate_check_witness :
  r_message
    (fst (Main.mark_attendance_verified (Scenario.app None 0.8%Q)
            Scenario.image_data "2022026" Scenario.afternoon
            (Scenario.marked_db Scenario.asha_unenrolled)))
  = "Attendance already marked for today: Present"%string
  /\ query_active_student
       (snd (Main.mark_attendance_verified (Scenario.app None 0.8%Q)
               Scenario.image_data "2022026" Scenario.afternoon
               (Scenario.marked_db Scenario.asha_unenrolled)))
       "2022026"
     = Some Scenario.asha.
Proof.
  split; [reflexivity|].
  apply (@enrollment_precedes_duplicate_check (Scenario.app None 0.8%Q)
           Scenario.image_data "2022026" Scenario.afternoon
           (Scenario.marked_db Scenario.asha_unenrolled)
           Scenario.asha_unenrolled (Scenario.face None 0.8%Q) "[1.0]"
           eq_refl eq_refl eq_refl eq_refl).
Defined.

(** ** Review of pending captures *)







Lemma find_pending_after_update (id k : nat) (a' : AttendanceRecord)
  (l : list AttendanceRecord) :
  k = id -> ar_id a' = id ->
  String.eqb (ar_verification_status a') "pending" = false ->
  find (fun a => Nat.eqb (ar_id a) id
                 && String.eqb (ar_verification_status a) "pending")
       (map (fun x => if ar_id x =? k then a' else x) l) = None.
Proof.
  intros -> Hid Hst. induction l as [|x l IH]; simpl; [reflexivity|].
  destruct (ar_id x =? id) eqn:E.
  - rewrite Hid, Nat.eqb_refl, Hst. simpl. exact IH.
  - rewrite E. simpl. exact IH.
Qed.

(** In the service, a resolution is terminal: after an approval or a
    rejection has been applied, every further attempt on the same row finds
    no pending record and leaves the database as it is. *)
Lemma service_resolution_is_terminal (self : AttendanceService.t) (id : nat)
  (action verifier_username : string) (notes : option string)
  (utcnow : datetime) (db : Session) :
  let first := AttendanceService.verify_pending_attendance self id action
                 verifier_username notes utcnow db in
  r_status (fst first) = "success"%string ->
  forall action' verifier' notes' utcnow',
    AttendanceService.verify_pending_attendance self id action' verifier'
      notes' utcnow' (snd first)
    = (error_reply "Pending attendance record not found", snd first).
Proof.
  unfold AttendanceService.verify_pending_attendance at 1.
  destruct (find _ (attendance_records db)) as [attendance|] eqn:Hfind;
    [|simpl; discriminate].
  assert (Hid : ar_id attendance = id).
  { apply find_some in Hfind. destruct Hfind as [_ H].
    apply andb_true_iff in H. destruct H as [H _].
    apply Nat.eqb_eq in H. exact H. }
  destruct (String.eqb (lower action) "approve");
    [|destruct (String.eqb (lower action) "reject"); [|simpl; discriminate]];
    simpl; intros _ action' verifier' notes' utcnow';
    unfold AttendanceService.verify_pending_attendance; simpl;
    rewrite find_pending_after_update; auto.
Qed.

(** C3: the handlers of backend/main.py at a review that is already
    resolved. A review rejected through [/verify_pending_attendance/{id}] is
    rejected a second time with the success reply, and approved afterwards
    with a new attendance row, where the store answers [timestamp]; a review
    approved through [/attendance/verify] is overturned by a later call,
    which rewrites the reviewer, the notes and the parent attendance row. *)
Theorem second_resolution_is_accepted :
  let first :=
    snd (Main.verify_pending_attendance (Scenario.app None 0.8%Q) Scenario.hod
           1 "reject" None "not in class" Scenario.pending_db) in
  let again :=
    Main.verify_pending_attendance (Scenario.app None 0.8%Q) Scenario.admin
      1 "reject" None "again" first in
  let overturned :=
    Main.verify_pending_attendance Scenario.app_with_timestamp Scenario.admin
      1 "approve" (Some "2022026"%string) "override" first in
  let first' :=
    snd (Main.attendance_verify Scenario.hod 1 "approve"
           (Some "seen in class"%string) Scenario.afternoon
           Scenario.pending_db) in
  let again' :=
    Main.attendance_verify Scenario.admin 1 "reject"
      (Some "override"%string) Scenario.afternoon first' in
  map pv_status (pending_verifications first) = ["rejected"%string]
  /\ fst again
     = Return (mk_Reply None "rejected" None None None None
                        "Pending verification rejected")
  /\ (exists reply,
        fst overturned = Return reply
        /\ r_status reply = "approved"%string
        /\ map pv_status (pending_verifications (snd overturned))
           = ["approved"%string]
        /\ map ar_status (attendance_records (snd overturned))
           = ["Pending"%string; "Late"%string])
  /\ map ar_status (attendance_records first') = ["Late"%string]
  /\ map pv_reviewed_by (pending_verifications first')
     = [Some "hod_aiml"%string]
  /\ (exists reply, fst again' = Return reply)
  /\ map ar_status (attendance_records (snd again')) = ["Absent"%string]
  /\ map pv_status (pending_verifications (snd again')) = ["reject"%string]
  /\ map pv_reviewed_by (pending_verifications (snd again'))
     = [Some "admin"%string].
Proof.
  vm_compute. repeat split; try reflexivity.
  - eexists. repeat split; reflexivity.
  - eexists. reflexivity.
Qed.

(** ** Liveness on the token path and on identification *)

(** The face service never reports a match together with a failed liveness
    check: a failed check returns [(False, 0.0, False)] before the faces
    are compared. *)
Lemma match_implies_live (fs : FaceRecognitionService.t) (image_data : bytes)
  (stored_encoding : string) :
  let r := FaceRecognitionService.verify_face_with_liveness fs image_data
             stored_encoding in
  fst (fst r) = true -> snd r = true.
Proof.
  unfold FaceRecognitionService.verify_face_with_liveness,
    SiameseNetworkService.verify_face_with_liveness.
  repeat (break_match; simpl; try discriminate); try reflexivity.
  all: intros _; simpl in *; try congruence.
  all: match goal with
       | H : negb ?b = false |- ?b = true =>
           destruct b; [reflexivity|discriminate]
       end.
Qed.

(** With liveness detection on, a failed liveness check on the token path
    ends in Case B: no row is written, whatever the similarity. *)
Lemma liveness_failure_is_case_B (app : Main.App)
  (fs : FaceRecognitionService.t) (face_image_data : bytes)
  (id_register_number : string) (now : datetime) (db : Session)
  (student : Student) (enc : string) :
  Main.face_service app = Some fs ->
  FaceRecognitionService.use_siamese fs
  && FaceRecognitionService.enable_liveness fs = true ->
  query_active_student db id_register_number = Some student ->
  nonempty (st_face_encoding student) = Some enc ->
  fst (SiameseNetworkService.check_liveness
         (FaceRecognitionService.siamese_service fs) face_image_data) = false ->
  query_attendance db (st_register_number student)
                   (strftime_Ymd (date_of now)) = None ->
  Main.mark_attendance_verified app face_image_data id_register_number now db
  = (Main.case_B, db).
Proof.
  intros Hfs Hon Hst Henc Hlive Hnodup.
  unfold Main.mark_attendance_verified, Main.verification_block.
  rewrite Hst, Henc, Hfs.
  unfold FaceRecognitionService.verify_face_with_liveness.
  rewrite Hon. unfold SiameseNetworkService.verify_face_with_liveness.
  destruct (SiameseNetworkService.check_liveness
              (FaceRecognitionService.siamese_service fs) face_image_data)
    as [is_live score].
  simpl in Hlive. subst is_live. simpl. rewrite Hnodup. reflexivity.
Qed.

(** C2: a capture whose face matches the stored encoding (similarity 0.8
    against the threshold 0.6) and whose liveness check fails (score 0
    against 0.35). On the token path [mark_attendance_verified] answers
    Case B and writes nothing. On the face-only path of the service the
    candidate is accepted and a pending row is written; the identification
    of [identify_student_from_face] rejects the candidate. *)
Theorem liveness_failure_blocks_token_capture :
  let fs := Scenario.face Scenario.no_landmarks 0.8%Q in
  FaceRecognitionService.verify_face fs Scenario.image_data "[1.0]"
    FaceRecognitionService.default_threshold = (true, 0.8%Q)
  /\ fst (FaceRecognitionService.check_liveness fs Scenario.image_data) = false
  /\ Main.mark_attendance_verified (Scenario.app Scenario.no_landmarks 0.8%Q)
       Scenario.image_data "2022026" Scenario.at_cutoff
       (Scenario.empty_db Scenario.asha)
     = (Main.case_B, Scenario.empty_db Scenario.asha)
  /\ r_attendance_status
       (fst (AttendanceService.mark_attendance
               (Scenario.service Scenario.no_landmarks 0.8%Q)
               Scenario.image_data None None Scenario.at_cutoff
               (Scenario.empty_db Scenario.asha)))
     = Some "Pending"%string
  /\ Main.identify_student_from_face (Scenario.app Scenario.no_landmarks 0.8%Q)
       Scenario.image_data (Scenario.empty_db Scenario.asha) = None.
Proof.
  vm_compute. repeat split; reflexivity.
Qed.

(** The same capture with a live subject is recorded as Present. *)
Example live_capture_is_present :
  r_attendance_status
    (fst (Main.mark_attendance_verified (Scenario.app None 0.8%Q)
            Scenario.image_data "2022026" Scenario.at_cutoff
            (Scenario.empty_db Scenario.asha)))
  = Some "Present"%string.
Proof. reflexivity. Qed.

(** ** Forgot-token attempts *)

(** C4, as stated, fails in the service: with a claimed register number
    and a face that does not match the claimed student, the attempt is
    rejected with an error and no pending row is written. *)
Lemma forgot_id_mismatch_is_rejected :
  let out := AttendanceService.mark_attendance (Scenario.service None 0.3%Q)
               Scenario.image_data None (Some "2022026"%string)
               Scenario.at_cutoff (Scenario.empty_db Scenario.asha) in
  r_attendance_status (fst out) <> Some "Pending"%string
  /\ fst out
     = error_reply "Face verification failed. Identity could not be confirmed."
  /\ snd out = Scenario.empty_db Scenario.asha.
Proof.
  vm_compute. repeat split; try reflexivity. discriminate.
Qed.

Lemma manual_pending_always (app : Main.App) (current_user : Main.User)
  (face_image_data : bytes)
  (manual_register_number identified_register_number : string)
  (now : datetime) (db : Session) (student : Student) :
  query_student db manual_register_number = Some student ->
  let out := Main.create_manual_pending_verification app current_user
               face_image_data manual_register_number
               identified_register_number now db in
  exists a p,
    pending_row_added db (snd out) manual_register_number now a
    /\ pending_verifications (snd out) = pending_verifications db ++ [p]
    /\ pv_attendance_record_id p = ar_id a
    /\ pv_status p = "pending"%string
    /\ pv_review_notes p
       = Some (Main.manual_notes current_user manual_register_number
                                 identified_register_number)
    /\ match Main.save_face_image app face_image_data with
       | Ok _ =>
           exists reply,
             fst out = Return reply
             /\ r_case reply = Some "C"%string
             /\ r_status reply = "pending_verification"%string
       | Raise _ => exists detail, fst out = HTTPException 500 detail
       end.
Proof.
  intros Hst. unfold Main.create_manual_pending_verification. rewrite Hst.
  simpl.
  destruct (Main.save_face_image app face_image_data) as [u|e]; simpl;
    eexists; eexists; unfold pending_row_added; simpl.
  - repeat (split; [reflexivity|]). split; [repeat split; reflexivity|].
    repeat (split; [reflexivity|]). eexists. repeat split; reflexivity.
  - repeat (split; [reflexivity|]). split; [repeat split; reflexivity|].
    repeat (split; [reflexivity|]). eexists. reflexivity.
Qed.

Lemma manual_notes_warning (current_user : Main.User)
  (manual_register_number identified_register_number : string) :
  identified_register_number <> ""%string ->
  identified_register_number <> manual_register_number ->
  Main.manual_notes current_user manual_register_number
                    identified_register_number
  = ("Manual Case C: Forgot ID card. Entered by "
     ++ Main.username current_user ++ "."
     ++ " WARNING: Face identified as " ++ identified_register_number
     ++ " but manually entered " ++ manual_register_number ++ ".")%string.
Proof.
  intros H1 H2. unfold Main.manual_notes.
  apply String.eqb_neq in H1, H2. rewrite H1, H2. reflexivity.
Qed.

Lemma forgot_id_by_face (self : AttendanceService.t) (image_data : bytes)
  (register_number : string) (now : datetime) (current_date : string)
  (db : Session) (student : Student) (face_match : bool) (face_confidence : Q) :
  query_active_student db register_number = Some student ->
  query_attendance db (st_register_number student) current_date = None ->
  AttendanceService.face_check self image_data student
  = Ok (face_match, face_confidence) ->
  let out := AttendanceService._handle_forgot_id_attendance self image_data
               register_number now current_date db in
  if face_match
  then r_attendance_status (fst out) = Some "Pending"%string
       /\ exists a, pending_row_added db (snd out)
                      (st_register_number student) now a
  else out = (error_reply
                "Face verification failed. Identity could not be confirmed.",
              db).
Proof.
  intros Hst Hnodup Hface.
  unfold AttendanceService._handle_forgot_id_attendance.
  rewrite Hst, Hnodup, Hface. destruct face_match; simpl; [|reflexivity].
  split; [reflexivity|].
  match goal with
  | |- context [AttendanceService.notify self ?a _] =>
      destruct (@service_notify_added self db a eq_refl)
        as (a' & Hfl & Hrec & _)
  end.
  exists a'. unfold pending_row_added. split; [exact Hrec|].
  destruct Hfl as [->| ->]; simpl; auto.
Qed.

(** C4, amended. In [create_manual_pending_verification], whenever the
    claimed register number names a student, the attempt is routed to
    Pending: one attendance row with status Pending and review state
    pending and one pending verification are written, whether the
    identification handed in agrees, disagrees or is empty; a disagreement
    is written into the review notes as a WARNING. In the service's
    [_handle_forgot_id_attendance] the face is verified against the claimed
    student: a match gives a Pending row, a mismatch is answered with an
    error and writes nothing. *)
Theorem forgot_id_routes_to_pending (app : Main.App) (self : AttendanceService.t)
  (current_user : Main.User) (face_image_data : bytes)
  (manual_register_number identified_register_number : string)
  (now : datetime) (current_date : string) (db : Session) :
  (forall student,
      query_student db manual_register_number = Some student ->
      let out := Main.create_manual_pending_verification app current_user
                   face_image_data manual_register_number
                   identified_register_number now db in
      (exists a p,
          pending_row_added db (snd out) manual_register_number now a
          /\ pending_verifications (snd out) = pending_verifications db ++ [p]
          /\ pv_attendance_record_id p = ar_id a
          /\ pv_status p = "pending"%string
          /\ pv_review_notes p
             = Some (Main.manual_notes current_user manual_register_number
                                       identified_register_number)
          /\ match Main.save_face_image app face_image_data with
             | Ok _ =>
                 exists reply,
                   fst out = Return reply
                   /\ r_case reply = Some "C"%string
                   /\ r_status reply = "pending_verification"%string
             | Raise _ => exists detail, fst out = HTTPException 500 detail
             end)
      /\ (identified_register_number <> ""%string ->
          identified_register_number <> manual_register_number ->
          Main.manual_notes current_user manual_register_number
                            identified_register_number
          = ("Manual Case C: Forgot ID card. Entered by "
             ++ Main.username current_user ++ "."
             ++ " WARNING: Face identified as " ++ identified_register_number
             ++ " but manually entered " ++ manual_register_number
             ++ ".")%string))
  /\ (forall student face_match face_confidence,
        query_active_student db manual_register_number = Some student ->
        query_attendance db (st_register_number student) current_date = None ->
        AttendanceService.face_check self face_image_data student
        = Ok (face_match, face_confidence) ->
        let out := AttendanceService._handle_forgot_id_attendance self
                     face_image_data manual_register_number now current_date
                     db in
        if face_match
        then r_attendance_status (fst out) = Some "Pending"%string
             /\ exists a, pending_row_added db (snd out)
                            (st_register_number student) now a
        else out = (error_reply
                      "Face verification failed. Identity could not be confirmed.",
                    db)).
Proof.
  split.
  - intros student Hst. split.
    + apply manual_pending_always with (student := student). exact Hst.
    + apply manual_notes_warning.
  - intros student face_match face_confidence. apply forgot_id_by_face.
Qed.

Lemma forgot_id_routes_to_pending_witness :
  map ar_status
    (attendance_records
       (snd (Main.create_manual_pending_verification (Scenario.app None 0.3%Q)
               Scenario.hod Scenario.image_data "2022026" "2022041"
               Scenario.at_cutoff
               (mk_Session [Scenario.asha; Scenario.ravi] [] []))))
  = ["Pending"%string]
  /\ fst (AttendanceService._handle_forgot_id_attendance
            (Scenario.service None 0.3%Q) Scenario.image_data "2022026"
            Scenario.at_cutoff "2025-01-15"
            (mk_Session [Scenario.asha; Scenario.ravi] [] []))
     = error_reply "Face verification failed. Identity could not be confirmed.".
Proof.
  destruct (forgot_id_routes_to_pending (Scenario.app None 0.3%Q)
              (Scenario.service None 0.3%Q) Scenario.hod Scenario.image_data
              "2022026" "2022041" Scenario.at_cutoff "2025-01-15"
              (mk_Session [Scenario.asha; Scenario.ravi] [] []))
    as [H1 H2].
  split.
  - destruct (H1 Scenario.asha eq_refl) as [(a & p & Hrow & _) _].
    destruct Hrow as (Hrec & _ & _ & Hst & _).
    rewrite Hrec. simpl. rewrite Hst. reflexivity.
  - pose proof (H2 Scenario.asha false 0.3%Q eq_refl eq_refl eq_refl) as H.
    simpl in H. rewrite H. reflexivity.
Defined.

(** The manual forgot-token endpoint has no duplicate guard of its own: on a
    day that already has a row for the student it adds a second one. *)
Example manual_pending_on_a_marked_day :
  map ar_status
    (attendance_records
       (snd (Main.create_manual_pending_verification (Scenario.app None 0.8%Q)
               Scenario.hod Scenario.image_data "2022026" ""
               Scenario.afternoon (Scenario.marked_db Scenario.asha))))
  = ["Present"%string; "Pending"%string].
Proof. reflexivity. Qed.

(** A forgot-token capture at the cutoff that is approved in the afternoon
    is Present; the same capture one microsecond later is Late. *)
Example approved_in_the_afternoon :
  let review now :=
    AttendanceService.verify_pending_attendance (Scenario.service None 0.8%Q)
      1 "approve" "hod_aiml" None Scenario.afternoon
      (snd (AttendanceService.mark_attendance (Scenario.service None 0.8%Q)
              Scenario.image_data None (Some "2022026"%string) now
              (Scenario.empty_db Scenario.asha))) in
  map ar_status (attendance_records (snd (review Scenario.at_cutoff)))
  = ["Present"%string]
  /\ map ar_status (attendance_records (snd (review Scenario.after_cutoff)))
     = ["Late"%string].
Proof. split; reflexivity. Qed.

(** * Further properties *)

(** ** Liveness score and thresholds *)

Ltac no_div :=
  unfold Qdiv in *;
  repeat match goal with
         | |- context [Qinv ?c] =>
             let c' := eval compute in (Qinv c) in change (Qinv c) with c' in *
         | H : context [Qinv ?c] |- _ =>
             let c' := eval compute in (Qinv c) in change (Qinv c) with c' in *
         end.

Ltac split_min :=
  repeat match goal with
         | |- context [Qmin ?a ?b] =>
             let H1 := fresh in let H2 := fresh in
             destruct (Q.min_spec a b) as [[H1 H2]|[H1 H2]]; rewrite H2 in *
         | |- context [Qmax ?a ?b] =>
             let H1 := fresh in let H2 := fresh in
             destruct (Q.max_spec a b) as [[H1 H2]|[H1 H2]]; rewrite H2 in *
         end.

Lemma eye_aspect_ratio_range (left_eye right_eye : list landmark) :
  (0.5 <= SiameseNetworkService._calculate_eye_aspect_ratio left_eye right_eye <= 1)%Q.
Proof.
  unfold SiameseNetworkService._calculate_eye_aspect_ratio.
  repeat break_match; lra.
Qed.

Lemma mesh_score_range (self : SiameseNetworkService.t) (rgb : ndarray) :
  kernels_in_range (SiameseNetworkService.kernels self) ->
  (0 <= SiameseNetworkService._check_face_mesh_liveness self rgb <= 1)%Q.
Proof.
  intros (Hstd & _). unfold SiameseNetworkService._check_face_mesh_liveness.
  repeat break_match; try lra.
  - match goal with H : k_std _ _ = Ok _ |- _ => apply Hstd in H end.
    pose proof (eye_aspect_ratio_range l0 l1).
    no_div; split_min; lra.
  - match goal with H : k_std _ _ = Ok _ |- _ => apply Hstd in H end.
    match goal with H : Qlt_bool _ _ = false |- _ => apply Qlt_bool_false_iff in H end.
    pose proof (eye_aspect_ratio_range l0 l1). lra.
Qed.

Lemma texture_score_range (self : SiameseNetworkService.t) (image : ndarray) :
  kernels_in_range (SiameseNetworkService.kernels self) ->
  (0 <= SiameseNetworkService._check_texture_liveness self image <= 1)%Q.
Proof.
  intros (_ & Hvar & _). unfold SiameseNetworkService._check_texture_liveness.
  repeat break_match; try lra;
    match goal with H : k_laplacian_var _ _ = Ok _ |- _ => apply Hvar in H end.
  - no_div; split_min; lra.
  - match goal with H : Qlt_bool _ _ = false |- _ => apply Qlt_bool_false_iff in H end.
    no_div; split_min; lra.
Qed.

Lemma color_score_range (self : SiameseNetworkService.t) (image : ndarray) :
  kernels_in_range (SiameseNetworkService.kernels self) ->
  (0 <= SiameseNetworkService._check_color_distribution self image <= 1)%Q.
Proof.
  intros (_ & _ & Hskin & Hsat). unfold SiameseNetworkService._check_color_distribution.
  repeat break_match; try lra.
  match goal with H : k_skin_ratio _ _ = Ok _ |- _ => apply Hskin in H end.
  match goal with H : k_sat_std _ _ = Ok _ |- _ => apply Hsat in H end.
  no_div; split_min; lra.
Qed.

(** X1. When the measurements are in their ranges, the score that
    [check_liveness] returns lies between 0 and 1, whatever the image and
    whichever of its branches is taken. *)
Theorem liveness_score_in_unit_interval (self : SiameseNetworkService.t)
  (image_data : bytes) :
  kernels_in_range (SiameseNetworkService.kernels self) ->
  (0 <= snd (SiameseNetworkService.check_liveness self image_data) <= 1)%Q.
Proof.
  intros Hk. unfold SiameseNetworkService.check_liveness.
  repeat break_match; simpl; try lra.
  match goal with
  | |- context [SiameseNetworkService._check_face_mesh_liveness self ?rgb] =>
      pose proof (mesh_score_range self rgb Hk)
  end.
  match goal with
  | |- context [SiameseNetworkService._check_texture_liveness self ?img] =>
      pose proof (texture_score_range self img Hk);
      pose proof (color_score_range self img Hk)
  end.
  lra.
Qed.

Lemma liveness_score_in_unit_interval_witness :
  (0 <= snd (SiameseNetworkService.check_liveness
               (Scenario.siamese Scenario.no_landmarks 0.8%Q)
               Scenario.image_data) <= 1)%Q.
Proof.
  apply liveness_score_in_unit_interval.
  unfold kernels_in_range. simpl.
  repeat split; intros;
    match goal with H : Ok _ = Ok _ |- _ => inversion H; subst end;
    unfold Qle; simpl; lia.
Defined.

(** X2. Without a face mesh ([self.face_mesh] is [None]) and with a
    liveness threshold of at most 0.5, every image that decodes is live:
    the mesh signal is 1.0 and carries half of the score. *)
Theorem degraded_mesh_is_live (self : SiameseNetworkService.t)
  (image_data : bytes) (image rgb_image : ndarray) :
  kernels_in_range (SiameseNetworkService.kernels self) ->
  k_face_mesh (SiameseNetworkService.kernels self) = None ->
  (SiameseNetworkService.liveness_threshold self <= 0.5)%Q ->
  k_imdecode (SiameseNetworkService.kernels self) image_data = Ok (Some image) ->
  k_cvtColor_RGB (SiameseNetworkService.kernels self) image = Ok rgb_image ->
  fst (SiameseNetworkService.check_liveness self image_data) = true.
Proof.
  intros Hk Hmesh Hthr Hdec Hrgb.
  rewrite (check_liveness_computed self image_data Hdec Hrgb). simpl.
  rewrite (@mesh_unavailable self rgb_image (or_introl Hmesh)).
  unfold Qge_bool. apply Qle_bool_iff.
  pose proof (texture_score_range self image Hk).
  pose proof (color_score_range self image Hk).
  lra.
Qed.

Lemma degraded_mesh_is_live_witness :
  fst (SiameseNetworkService.check_liveness (Scenario.siamese None 0.8%Q)
         Scenario.image_data) = true.
Proof.
  apply (@degraded_mesh_is_live (Scenario.siamese None 0.8%Q)
           Scenario.image_data [] []).
  - unfold kernels_in_range. simpl.
    repeat split; intros;
    match goal with H : Ok _ = Ok _ |- _ => inversion H; subst end;
    unfold Qle; simpl; lia.
  - reflexivity.
  - unfold Qle. simpl. lia.
  - reflexivity.
  - reflexivity.
Defined.

(** X3. [FaceRecognitionService.verify_face_with_liveness] answers "not
    live" in one way only: the Siamese service with liveness detection is in
    use, its liveness check failed, and the answer is no match with
    confidence 0.0. A failed liveness check therefore never comes with a
    match or a confidence. *)
Theorem not_live_answer (fs : FaceRecognitionService.t) (image_data : bytes)
  (stored_encoding : string) :
  let r := FaceRecognitionService.verify_face_with_liveness fs image_data
             stored_encoding in
  snd r = false ->
  r = (false, 0.0%Q, false)
  /\ FaceRecognitionService.use_siamese fs
     && FaceRecognitionService.enable_liveness fs = true
  /\ fst (SiameseNetworkService.check_liveness
            (FaceRecognitionService.siamese_service fs) image_data) = false.
Proof.
  unfold FaceRecognitionService.verify_face_with_liveness,
    SiameseNetworkService.verify_face_with_liveness.
  repeat (break_match; simpl; try discriminate).
  all: intros; subst; simpl in *; try discriminate; auto.
  repeat split. destruct b; [discriminate|reflexivity].
Qed.

Lemma not_live_answer_witness :
  FaceRecognitionService.verify_face_with_liveness
    (Scenario.face Scenario.no_landmarks 0.8%Q) Scenario.image_data "[1.0]"
  = (false, 0.0%Q, false).
Proof.
  apply (@not_live_answer (Scenario.face Scenario.no_landmarks 0.8%Q)
           Scenario.image_data "[1.0]").
  vm_compute. reflexivity.
Defined.

(** X4. Raising a match threshold never turns a mismatch into a match, and
    the confidence does not depend on the threshold: for the Siamese service
    (its [SIAMESE_THRESHOLD]) and for the DeepFace branch of
    [FaceRecognitionService.verify_face] (its [threshold] argument). With
    the Siamese network in use the [threshold] argument is ignored. *)
Theorem threshold_monotone (s1 s2 : SiameseNetworkService.t)
  (fs : FaceRecognitionService.t) (image_data : bytes)
  (stored_encoding : string) (t1 t2 : Q) :
  SiameseNetworkService.kernels s1 = SiameseNetworkService.kernels s2 ->
  (SiameseNetworkService.threshold s1 <= SiameseNetworkService.threshold s2)%Q ->
  (t1 <= t2)%Q ->
  (snd (SiameseNetworkService.verify_face s1 image_data stored_encoding)
   = snd (SiameseNetworkService.verify_face s2 image_data stored_encoding)
   /\ (fst (SiameseNetworkService.verify_face s2 image_data stored_encoding)
       = true ->
       fst (SiameseNetworkService.verify_face s1 image_data stored_encoding)
       = true))
  /\ (snd (FaceRecognitionService.verify_face fs image_data stored_encoding t1)
      = snd (FaceRecognitionService.verify_face fs image_data stored_encoding
               t2)
      /\ (fst (FaceRecognitionService.verify_face fs image_data
                 stored_encoding t2) = true ->
          fst (FaceRecognitionService.verify_face fs image_data
                 stored_encoding t1) = true))
  /\ (FaceRecognitionService.use_siamese fs = true ->
      FaceRecognitionService.verify_face fs image_data stored_encoding t1
      = FaceRecognitionService.verify_face fs image_data stored_encoding t2).
Proof.
  intros Hk Hle Ht. split; [|split].
  - unfold SiameseNetworkService.verify_face. rewrite Hk.
    repeat break_match; simpl; auto. split; [reflexivity|].
    unfold Qge_bool. rewrite !Qle_bool_iff. intros H. lra.
  - unfold FaceRecognitionService.verify_face.
    repeat break_match; simpl; auto. split; [reflexivity|].
    unfold Qge_bool. rewrite !Qle_bool_iff. intros H. lra.
  - intros Hs. unfold FaceRecognitionService.verify_face. rewrite Hs.
    reflexivity.
Qed.

Lemma threshold_monotone_witness :
  fst (SiameseNetworkService.verify_face
         (SiameseNetworkService.mk 0.6%Q 0.35%Q (Scenario.kernels None 0.8%Q))
         Scenario.image_data "[1.0]") = true
  /\ fst (FaceRecognitionService.verify_face
            (FaceRecognitionService.mk 0.4%Q false false
               (Scenario.siamese None 0.8%Q) (fun _ => Some "[1.0]"%string)
               (fun _ => Some [1.0%Q]) (fun _ _ => 0.55%Q))
            Scenario.image_data "[1.0]" 0.4%Q) = true.
Proof.
  destruct (@threshold_monotone
              (SiameseNetworkService.mk 0.6%Q 0.35%Q
                 (Scenario.kernels None 0.8%Q))
              (SiameseNetworkService.mk 0.7%Q 0.35%Q
                 (Scenario.kernels None 0.8%Q))
              (FaceRecognitionService.mk 0.4%Q false false
                 (Scenario.siamese None 0.8%Q) (fun _ => Some "[1.0]"%string)
                 (fun _ => Some [1.0%Q]) (fun _ _ => 0.55%Q))
              Scenario.image_data "[1.0]"%string 0.4%Q 0.5%Q)
    as ((_ & H1) & (_ & H2) & _).
  - reflexivity.
  - unfold Qle. simpl. lia.
  - unfold Qle. simpl. lia.
  - split; [apply H1|apply H2]; vm_compute; reflexivity.
Defined.

(** ** Identification by face *)

Lemma identify_scan_invariant (fs : FaceRecognitionService.t)
  (image_data : bytes) (todo : list Student) :
  forall seen best_match best_confidence,
    identified_so_far fs image_data seen best_match best_confidence ->
    identified_so_far fs image_data (seen ++ todo)
      (fst (Main.identify_scan fs image_data todo best_match best_confidence))
      (snd (Main.identify_scan fs image_data todo best_match best_confidence)).
Proof.
  induction todo as [|student rest IH]; intros seen best hi Hinv.
  - simpl. rewrite app_nil_r. exact Hinv.
  - simpl. fold (live_verdict fs image_data student).
    destruct (live_verdict fs image_data student) as [[is_match c] is_live]
      eqn:Hv.
    replace (seen ++ student :: rest) with ((seen ++ [student]) ++ rest)
      by (rewrite <- app_assoc; reflexivity).
    assert (Hskip : (is_live = false \/ is_match = false \/ (c <= hi)%Q) ->
                    identified_so_far fs image_data (seen ++ [student]) best hi).
    { intros Hno. destruct best as [b|].
      - destruct Hinv as (before & after & -> & Hb & Hbefore & Hafter).
        exists before, (after ++ [student]).
        split; [rewrite <- app_assoc; reflexivity|].
        split; [exact Hb|]. split; [exact Hbefore|].
        intros s Hs Hc. apply in_app_or in Hs. destruct Hs as [Hs|[<-|[]]].
        + auto.
        + unfold candidate, candidate_confidence in *. rewrite Hv in *.
          simpl in *. destruct Hc as [-> ->].
          destruct Hno as [H|[H|H]]; try discriminate. exact H.
      - destruct Hinv as [-> Hnone]. split; [reflexivity|].
        intros s Hs Hc. apply in_app_or in Hs. destruct Hs as [Hs|[<-|[]]].
        + auto.
        + unfold candidate, candidate_confidence in *. rewrite Hv in *.
          simpl in *. destruct Hc as [-> ->].
          destruct Hno as [H|[H|H]]; try discriminate. lra. }
    destruct is_live; simpl; [|apply IH, Hskip; auto].
    destruct is_match; simpl; [|apply IH, Hskip; auto].
    destruct (Qlt_bool hi c) eqn:Hlt; apply IH.
    + apply Qlt_bool_iff in Hlt.
      exists seen, []. split; [reflexivity|]. split; [exact Hv|].
      split; [|intros s []].
      intros s Hs Hc. destruct best as [b|].
      * destruct Hinv as (before & after & -> & Hb & Hbefore & Hafter).
        apply in_app_or in Hs. destruct Hs as [Hs|[<-|Hs]].
        -- specialize (Hbefore s Hs Hc). lra.
        -- unfold candidate_confidence. rewrite Hb. exact Hlt.
        -- specialize (Hafter s Hs Hc). lra.
      * destruct Hinv as [-> Hnone]. specialize (Hnone s Hs Hc). lra.
    + apply Hskip. right. right. apply Qlt_bool_false_iff. exact Hlt.
Qed.

(** X5. [identify_student_from_face] returns nobody exactly when no live,
    matching enrolled student has a confidence above 0.5; when it returns a
    student, the confidence is above 0.5, the student is live and matching
    with that confidence, no live match scores higher, and among equal
    scores the first of the query wins. *)
Theorem identification_picks_best_live_match (app : Main.App)
  (fs : FaceRecognitionService.t) (face_image_data : bytes) (db : Session) :
  Main.face_service app = Some fs ->
  let scanned := FaceRecognitionService.enrolled db in
  let found := Main.identify_student_from_face app face_image_data db in
  (found = None
   <-> forall s, In s scanned -> candidate fs face_image_data s ->
                 (candidate_confidence fs face_image_data s <= 0.5)%Q)
  /\ (forall best c,
        found = Some (best, c) ->
        (0.5 < c)%Q
        /\ exists before after,
             scanned = before ++ best :: after
             /\ live_verdict fs face_image_data best = (true, c, true)
             /\ (forall s, In s before -> candidate fs face_image_data s ->
                   (candidate_confidence fs face_image_data s < c)%Q)
             /\ (forall s, In s after -> candidate fs face_image_data s ->
                   (candidate_confidence fs face_image_data s <= c)%Q)).
Proof.
  intros Hfs scanned found.
  pose proof (@identify_scan_invariant fs face_image_data scanned [] None
                0.0%Q) as Hinv.
  simpl in Hinv.
  assert (Hinit : identified_so_far fs face_image_data [] None 0.0%Q)
    by (split; [reflexivity|intros s []]).
  specialize (Hinv Hinit).
  unfold found, Main.identify_student_from_face. rewrite Hfs.
  fold scanned.
  destruct (Main.identify_scan fs face_image_data scanned None 0.0%Q)
    as [[b|] hi]; simpl in Hinv.
  - destruct Hinv as (before & after & Hl & Hb & Hbefore & Hafter).
    destruct (Qlt_bool 0.5 hi) eqn:Hhi.
    + apply Qlt_bool_iff in Hhi. split.
      * split; [discriminate|]. intros Hall. exfalso.
        assert (Hin : In b scanned)
          by (rewrite Hl; apply in_or_app; right; left; reflexivity).
        assert (Hc : candidate fs face_image_data b)
          by (unfold candidate; rewrite Hb; auto).
        specialize (Hall b Hin Hc). unfold candidate_confidence in Hall.
        rewrite Hb in Hall. simpl in Hall. lra.
      * intros best c E. inversion E; subst. split; [exact Hhi|].
        exists before, after. auto.
    + apply Qlt_bool_false_iff in Hhi. split.
      * split; [|reflexivity]. intros _ s Hs Hc.
        rewrite Hl in Hs. apply in_app_or in Hs. destruct Hs as [Hs|[<-|Hs]].
        -- specialize (Hbefore s Hs Hc). lra.
        -- unfold candidate_confidence. rewrite Hb. exact Hhi.
        -- specialize (Hafter s Hs Hc). lra.
      * intros best c E. discriminate.
  - destruct Hinv as [_ Hnone]. split.
    + split; [|reflexivity]. intros _ s Hs Hc. specialize (Hnone s Hs Hc). lra.
    + intros best c E. discriminate.
Qed.

Lemma identification_picks_best_live_match_witness :
  Main.identify_student_from_face (Scenario.app None 0.8%Q)
    Scenario.image_data (mk_Session [Scenario.asha; Scenario.ravi] [] [])
  = Some (Scenario.asha, 0.8%Q)
  /\ (0.5 < 0.8)%Q
  /\ exists before after,
       [Scenario.asha; Scenario.ravi] = before ++ Scenario.asha :: after
       /\ forall s, In s after ->
            candidate (Scenario.face None 0.8%Q) Scenario.image_data s ->
            (candidate_confidence (Scenario.face None 0.8%Q)
               Scenario.image_data s <= 0.8)%Q.
Proof.
  split; [reflexivity|].
  destruct (@identification_picks_best_live_match (Scenario.app None 0.8%Q)
              (Scenario.face None 0.8%Q) Scenario.image_data
              (mk_Session [Scenario.asha; Scenario.ravi] [] []) eq_refl)
    as (_ & H).
  destruct (H Scenario.asha 0.8%Q eq_refl)
    as (Hc & before & after & Hl & _ & _ & Hafter).
  split; [exact Hc|].
  exists before, after. split; [exact Hl|exact Hafter].
Defined.

(** ** Marking *)

Lemma scan_member (self : FaceRecognitionService.t) (image_data : bytes)
  (l : list Student) :
  forall best hi b,
    fst (FaceRecognitionService.scan self image_data l best hi) = Some b ->
    best = Some b \/ In b l.
Proof.
  induction l as [|s l IH]; simpl; intros best hi b H; [auto|].
  destruct (FaceRecognitionService.verdict self image_data s) as [m c].
  destruct (m && Qlt_bool hi c); apply IH in H; destruct H as [H|H]; auto.
  inversion H; subst. auto.
Qed.

Lemma find_matching_student_active (self : FaceRecognitionService.t)
  (image_data : bytes) (db : Session) (s : Student) (c : Q) :
  FaceRecognitionService.find_matching_student self image_data db = Some (s, c) ->
  In s (students db) /\ st_is_active s = true.
Proof.
  unfold FaceRecognitionService.find_matching_student.
  destruct (FaceRecognitionService.scan self image_data
              (FaceRecognitionService.enrolled db) None 0.0%Q) as [[b|] hi] eqn:E;
    [|discriminate].
  intros H. inversion H; subst.
  pose proof (@scan_member self image_data
                (FaceRecognitionService.enrolled db) None 0.0%Q s) as Hm.
  rewrite E in Hm. destruct (Hm eq_refl) as [Hm'|Hm']; [discriminate|].
  apply enrolled_spec in Hm'. tauto.
Qed.

Lemma query_active_student_sound (db : Session) (r : string) (s : Student) :
  query_active_student db r = Some s ->
  In s (students db) /\ st_is_active s = true /\ st_register_number s = r.
Proof.
  unfold query_active_student. intros H. apply find_some in H.
  destruct H as [Hin Hb]. apply andb_true_iff in Hb. destruct Hb as [H1 H2].
  apply String.eqb_eq in H1. auto.
Qed.

Lemma verify_student_qr_sound (qr : QRBarcodeService.qr_dict) (db : Session)
  (s : Student) :
  QRBarcodeService.verify_student_qr qr db = Some s ->
  In s (students db) /\ st_is_active s = true
  /\ Some (st_register_number s)
     = (if truthy (QRBarcodeService.qr_register_number qr)
        then QRBarcodeService.qr_register_number qr
        else QRBarcodeService.qr_data qr).
Proof.
  unfold QRBarcodeService.verify_student_qr.
  destruct (if truthy (QRBarcodeService.qr_register_number qr)
            then QRBarcodeService.qr_register_number qr
            else QRBarcodeService.qr_data qr) as [r|]; [|discriminate].
  destruct (String.eqb r ""); [discriminate|].
  intros H. apply query_active_student_sound in H.
  destruct H as (H1 & H2 & H3). subst r. auto.
Qed.

Ltac refused := left; split; reflexivity.

Lemma face_qr_marks (self : AttendanceService.t) (image_data : bytes)
  (qr_data : string) (now : datetime) (db : Session) :
  let out := AttendanceService._handle_face_qr_attendance self image_data
               qr_data now (strftime_Ymd (date_of now)) db in
  marked_or_refused now db (snd out) (fst out)
  /\ students (snd out) = students db
  /\ pending_verifications (snd out) = pending_verifications db.
Proof.
  unfold AttendanceService._handle_face_qr_attendance.
  repeat (break_match; simpl; try discriminate);
    try (split; [refused|split; reflexivity]).
  - match goal with
    | |- context [AttendanceService.notify self ?a _] =>
        destruct (@service_notify_added self db a eq_refl)
          as (a' & Hfl & Hrec & Hst & Hpv); unfold added in Hrec, Hst, Hpv
    end.
    match goal with H : QRBarcodeService.verify_student_qr _ _ = Some _ |- _ =>
      apply verify_student_qr_sound in H; destruct H as (Hin & Hact & _) end.
    split; [|split; assumption].
    right. split; [reflexivity|]. exists a'. eexists. rewrite Hst.
    split; [exact Hrec|].
    destruct Hfl as [->| ->]; simpl; repeat split; eauto.
  - match goal with H : QRBarcodeService.verify_student_qr _ _ = Some _ |- _ =>
      apply verify_student_qr_sound in H; destruct H as (Hin & Hact & _) end.
    split; [|split; reflexivity].
    right. split; [reflexivity|]. eexists. eexists.
    split; [reflexivity|]. simpl. repeat split; eauto.
Qed.

Lemma forgot_id_marks (self : AttendanceService.t) (image_data : bytes)
  (register_number : string) (now : datetime) (db : Session) :
  let out := AttendanceService._handle_forgot_id_attendance self image_data
               register_number now (strftime_Ymd (date_of now)) db in
  marked_or_refused now db (snd out) (fst out)
  /\ students (snd out) = students db
  /\ pending_verifications (snd out) = pending_verifications db.
Proof.
  unfold AttendanceService._handle_forgot_id_attendance.
  repeat (break_match; simpl; try discriminate);
    try (split; [refused|split; reflexivity]).
  match goal with
  | |- context [AttendanceService.notify self ?a _] =>
      destruct (@service_notify_added self db a eq_refl)
        as (a' & Hfl & Hrec & Hst & Hpv); unfold added in Hrec, Hst, Hpv
  end.
  match goal with H : query_active_student _ _ = Some _ |- _ =>
    apply query_active_student_sound in H; destruct H as (Hin & Hact & _) end.
  split; [|split; assumption].
  right. split; [reflexivity|]. exists a'. eexists. rewrite Hst.
  split; [exact Hrec|].
  destruct Hfl as [->| ->]; simpl; repeat split; eauto.
Qed.

Lemma face_only_marks (self : AttendanceService.t) (image_data : bytes)
  (now : datetime) (db : Session) :
  let out := AttendanceService._handle_face_only_attendance self image_data
               now (strftime_Ymd (date_of now)) db in
  marked_or_refused now db (snd out) (fst out)
  /\ students (snd out) = students db
  /\ pending_verifications (snd out) = pending_verifications db.
Proof.
  unfold AttendanceService._handle_face_only_attendance.
  repeat (break_match; simpl; try discriminate);
    try (split; [refused|split; reflexivity]).
  match goal with
  | |- context [AttendanceService.notify self ?a _] =>
      destruct (@service_notify_added self db a eq_refl)
        as (a' & Hfl & Hrec & Hst & Hpv); unfold added in Hrec, Hst, Hpv
  end.
  match goal with
  | H : FaceRecognitionService.find_matching_student _ _ _ = Some _ |- _ =>
      apply find_matching_student_active in H; destruct H as (Hin & Hact)
  end.
  split; [|split; assumption].
  right. split; [reflexivity|]. exists a'. eexists. rewrite Hst.
  split; [exact Hrec|].
  destruct Hfl as [->| ->]; simpl; repeat split; eauto.
Qed.

Lemma service_marks (self : AttendanceService.t) (image_data : bytes)
  (qr_data manual_register_number : option string) (now : datetime)
  (db : Session) :
  let out := AttendanceService.mark_attendance self image_data qr_data
               manual_register_number now db in
  marked_or_refused now db (snd out) (fst out)
  /\ students (snd out) = students db
  /\ pending_verifications (snd out) = pending_verifications db.
Proof.
  unfold AttendanceService.mark_attendance.
  destruct (nonempty qr_data); [apply face_qr_marks|].
  destruct (nonempty manual_register_number);
    [apply forgot_id_marks|apply face_only_marks].
Qed.

Lemma verification_block_student (app : Main.App) (face_image_data : bytes)
  (student : Student) (db : Session) :
  In student (students db) -> st_is_active student = true ->
  let r := Main.verification_block app face_image_data student db in
  In (snd (fst r)) (students (snd r)) /\ st_is_active (snd (fst r)) = true.
Proof.
  intros Hin Hact. unfold Main.verification_block.
  repeat (break_match; simpl); auto.
  split; [|exact Hact].
  apply in_map_iff. exists student. simpl. rewrite Nat.eqb_refl. auto.
Qed.

Lemma verified_marks (app : Main.App) (image_data : bytes)
  (id_register_number : string) (now : datetime) (db : Session) :
  let out := Main.mark_attendance_verified app image_data id_register_number
               now db in
  marked_or_refused now db (snd out) (fst out)
  /\ pending_verifications (snd out) = pending_verifications db.
Proof.
  unfold Main.mark_attendance_verified.
  destruct (query_active_student db id_register_number) as [student0|] eqn:Hq;
    [|simpl; split; [refused|reflexivity]].
  apply query_active_student_sound in Hq. destruct Hq as (Hin & Hact & _).
  pose proof (@verification_block_student app image_data student0 db Hin Hact)
    as Hst.
  destruct (Main.verification_block app image_data student0 db)
    as [[[[face_match face_confidence] is_live] student] db1] eqn:Hvb.
  destruct (verification_block_frame _ _ _ _ Hvb) as (Hrec & Hpend & Hreg).
  simpl in Hst, Hrec, Hpend, Hreg. destruct Hst as [Hin1 Hact1].
  destruct (query_attendance db1 (st_register_number student)
              (strftime_Ymd (date_of now))) as [existing|] eqn:Hdup;
    [simpl; split; [left; split; [reflexivity|exact Hrec]|exact Hpend]|].
  assert (Hdup' : query_attendance db (st_register_number student)
                    (strftime_Ymd (date_of now)) = None)
    by (unfold query_attendance in *; rewrite <- Hrec; exact Hdup).
  destruct face_match;
    [|simpl; split; [left; split; [reflexivity|exact Hrec]|exact Hpend]].
  destruct (time_gt (time_of now) (mk_time 8 45 0 0)); simpl.
  - match goal with
    | |- context [Main.send_late_notification app ?a _] =>
        destruct (@main_notify_added app db1 a eq_refl)
          as (a' & Hfl & Hrec' & Hst' & Hpv'); unfold added in Hrec', Hst', Hpv'
    end.
    split; [|rewrite Hpv'; exact Hpend].
    right. split; [reflexivity|]. exists a', student. rewrite Hst'.
    split; [rewrite <- Hrec; exact Hrec'|].
    destruct Hfl as [->| ->]; simpl; repeat split; auto.
  - split; [|exact Hpend].
    right. split; [reflexivity|]. eexists. exists student.
    split; [rewrite Hrec; reflexivity|]. simpl. repeat split; auto.
Qed.

Lemma query_none_key (db : Session) (r d : string) :
  query_attendance db r d = None ->
  ~ In (r, d) (map day_key (attendance_records db)).
Proof.
  unfold query_attendance. intros Hnone Hin.
  apply in_map_iff in Hin. destruct Hin as (a & Hk & Hin).
  pose proof (find_none _ _ Hnone a Hin) as Hb. simpl in Hb.
  unfold day_key in Hk. inversion Hk; subst.
  rewrite !String.eqb_refl in Hb. discriminate.
Qed.

Lemma NoDup_snoc {A : Type} (l : list A) (x : A) :
  NoDup l -> ~ In x l -> NoDup (l ++ [x]).
Proof.
  intros Hl Hx. rewrite <- (rev_involutive (l ++ [x])). apply NoDup_rev.
  rewrite rev_app_distr. simpl. constructor.
  - rewrite <- in_rev. exact Hx.
  - apply NoDup_rev. exact Hl.
Qed.

Lemma marked_keeps_one_per_day (now : datetime) (db db' : Session)
  (reply : Reply) :
  marked_or_refused now db db' reply -> one_per_day db -> one_per_day db'.
Proof.
  unfold one_per_day.
  intros [[_ ->]|(_ & a & student & -> & Hq & _)] Hnd; [exact Hnd|].
  rewrite map_app. simpl. apply NoDup_snoc; [exact Hnd|].
  apply query_none_key. exact Hq.
Qed.

(** X6. Marking keeps the attendance table at one row per student and
    day: if no two rows share register number and date before
    [AttendanceService.mark_attendance] or [mark_attendance_verified] runs,
    none do afterwards. *)
Theorem one_row_per_student_and_day (self : AttendanceService.t)
  (app : Main.App) (image_data : bytes)
  (qr_data manual_register_number : option string)
  (id_register_number : string) (now : datetime) (db : Session) :
  one_per_day db ->
  one_per_day (snd (AttendanceService.mark_attendance self image_data qr_data
                      manual_register_number now db))
  /\ one_per_day (snd (Main.mark_attendance_verified app image_data
                         id_register_number now db)).
Proof.
  intros Hinv. split.
  - eapply marked_keeps_one_per_day; [|exact Hinv].
    apply service_marks.
  - eapply marked_keeps_one_per_day; [|exact Hinv].
    apply verified_marks.
Qed.

Lemma one_row_per_student_and_day_witness :
  one_per_day
    (snd (AttendanceService.mark_attendance (Scenario.service None 0.8%Q)
            Scenario.image_data (Some "qr"%string) None
            Scenario.after_cutoff (Scenario.empty_db Scenario.asha)))
  /\ one_per_day
       (snd (Main.mark_attendance_verified (Scenario.app None 0.8%Q)
               Scenario.image_data "2022026" Scenario.after_cutoff
               (Scenario.marked_db Scenario.asha))).
Proof.
  split.
  - apply (@one_row_per_student_and_day (Scenario.service None 0.8%Q)
             (Scenario.app None 0.8%Q) Scenario.image_data
             (Some "qr"%string) None "2022026" Scenario.after_cutoff
             (Scenario.empty_db Scenario.asha)).
    unfold one_per_day. simpl. constructor.
  - apply (@one_row_per_student_and_day (Scenario.service None 0.8%Q)
             (Scenario.app None 0.8%Q) Scenario.image_data
             (Some "qr"%string) None "2022026" Scenario.after_cutoff
             (Scenario.marked_db Scenario.asha)).
    unfold one_per_day. simpl. constructor; [intros []|constructor].
Defined.

(** X7. A call of [AttendanceService.mark_attendance] or of
    [mark_attendance_verified] either answers an error and leaves the
    attendance table as it was, or answers success and appends exactly one
    row: for an active student of the roster who had no row for the day,
    stamped with the capture time and its date, with the status of the
    reply. Neither touches the pending verifications, and the service
    leaves the students as they were. *)
Theorem marking_appends_one_row (self : AttendanceService.t) (app : Main.App)
  (image_data : bytes) (qr_data manual_register_number : option string)
  (id_register_number : string) (now : datetime) (db : Session) :
  (let out := AttendanceService.mark_attendance self image_data qr_data
                manual_register_number now db in
   marked_or_refused now db (snd out) (fst out)
   /\ students (snd out) = students db
   /\ pending_verifications (snd out) = pending_verifications db)
  /\ (let out := Main.mark_attendance_verified app image_data
                   id_register_number now db in
      marked_or_refused now db (snd out) (fst out)
      /\ pending_verifications (snd out) = pending_verifications db).
Proof.
  split.
  - unfold AttendanceService.mark_attendance.
    destruct (nonempty qr_data); [apply face_qr_marks|].
    destruct (nonempty manual_register_number);
      [apply forgot_id_marks|apply face_only_marks].
  - apply verified_marks.
Qed.

(** ** Reviews *)

Lemma NoDup_map_eq {A B : Type} (f : A -> B) (l : list A) (x y : A) :
  NoDup (map f l) -> In x l -> In y l -> f x = f y -> x = y.
Proof.
  induction l as [|z l IH]; simpl; intros Hnd Hx Hy E; [contradiction|].
  inversion Hnd as [|? ? Hnotin Hnd']; subst.
  destruct Hx as [->|Hx], Hy as [->|Hy]; auto.
  - exfalso. apply Hnotin. rewrite E. apply in_map. exact Hy.
  - exfalso. apply Hnotin. rewrite <- E. apply in_map. exact Hx.
Qed.

Lemma update_only_row (l : list AttendanceRecord) (a x : AttendanceRecord)
  (k : nat) :
  NoDup (map ar_id l) -> In a l -> k = ar_id a -> In x l ->
  (ar_id x =? k) = true -> x = a.
Proof.
  intros Hnd Hin -> Hx E. apply Nat.eqb_eq in E.
  exact (@NoDup_map_eq _ _ ar_id l x a Hnd Hx Hin E).
Qed.

Lemma update_keeps_capture_data (l : list AttendanceRecord)
  (a a' : AttendanceRecord) (k : nat) :
  NoDup (map ar_id l) -> In a l -> k = ar_id a ->
  capture_data a' = capture_data a ->
  map capture_data (map (fun x => if ar_id x =? k then a' else x) l)
  = map capture_data l.
Proof.
  intros Hnd Hin Hk Hc. rewrite map_map. apply map_ext_in. intros x Hx.
  destruct (ar_id x =? k) eqn:E; [|reflexivity].
  rewrite (@update_only_row l a x k Hnd Hin Hk Hx E). exact Hc.
Qed.

Lemma update_keeps_other_rows (l : list AttendanceRecord)
  (a a' x : AttendanceRecord) (k : nat) :
  NoDup (map ar_id l) -> In a l -> k = ar_id a -> In x l -> x <> a ->
  In x (map (fun x => if ar_id x =? k then a' else x) l).
Proof.
  intros Hnd Hin Hk Hx Hne. apply in_map_iff. exists x. split; [|exact Hx].
  destruct (ar_id x =? k) eqn:E; [|reflexivity].
  contradiction (Hne (@update_only_row l a x k Hnd Hin Hk Hx E)).
Qed.

(** X8. A review never rewrites what the capture recorded. With distinct
    row ids, [AttendanceService.verify_pending_attendance] and the handler
    of [/attendance/verify] leave id, register number, date, capture time,
    verification method, confidence and token flag of every attendance row
    as they were, and the students too; the service also leaves the pending
    verifications and every row that is not pending untouched, and an
    error reply changes nothing. *)
Theorem review_keeps_capture_data (self : AttendanceService.t)
  (current_user : Main.User) (id : nat) (action verifier_username : string)
  (notes : option string) (utcnow : datetime) (db : Session) :
  NoDup (map ar_id (attendance_records db)) ->
  (let out := AttendanceService.verify_pending_attendance self id action
                verifier_username notes utcnow db in
   map capture_data (attendance_records (snd out))
   = map capture_data (attendance_records db)
   /\ students (snd out) = students db
   /\ pending_verifications (snd out) = pending_verifications db
   /\ (forall a, In a (attendance_records db) ->
                 ar_verification_status a <> "pending"%string ->
                 In a (attendance_records (snd out)))
   /\ (r_status (fst out) = "error"%string -> snd out = db))
  /\ (let out := Main.attendance_verify current_user id action notes utcnow
                   db in
      map capture_data (attendance_records (snd out))
      = map capture_data (attendance_records db)
      /\ students (snd out) = students db).
Proof.
  intros Hnd. split.
  - unfold AttendanceService.verify_pending_attendance.
    destruct (find _ (attendance_records db)) as [attendance|] eqn:Hfind;
      [|simpl; repeat split; auto].
    pose proof (find_some _ _ Hfind) as [Hin Hb].
    apply andb_true_iff in Hb. destruct Hb as [Hid Hpend].
    apply String.eqb_eq in Hpend.
    assert (Hother : forall a' a,
               In a (attendance_records db) ->
               ar_verification_status a <> "pending"%string ->
               In a (map (fun x => if ar_id x =? ar_id attendance
                                   then a' else x) (attendance_records db))).
    { intros a' a Ha Hst.
      apply update_keeps_other_rows with (a := attendance); auto.
      intros ->. contradiction. }
    destruct (String.eqb (lower action) "approve");
      [|destruct (String.eqb (lower action) "reject")]; simpl.
    + split; [apply update_keeps_capture_data with (a := attendance); auto|].
      repeat split; auto. discriminate.
    + split; [apply update_keeps_capture_data with (a := attendance); auto|].
      repeat split; auto. discriminate.
    + repeat split; auto.
  - unfold Main.attendance_verify.
    destruct (negb (Main.authorized current_user)); [simpl; auto|].
    destruct (find _ (pending_verifications db)) as [p|] eqn:Hp;
      [|simpl; auto].
    destruct (find _ (attendance_records db)) as [a|] eqn:Ha;
      [|simpl; auto].
    pose proof (find_some _ _ Ha) as [Hin _].
    destruct (String.eqb action "approve"); simpl;
      (split; [apply update_keeps_capture_data with (a := a); auto
              |reflexivity]).
Qed.

Lemma review_keeps_capture_data_witness :
  map capture_data
    (attendance_records
       (snd (AttendanceService.verify_pending_attendance
               (Scenario.service None 0.8%Q) 1 "approve" "hod_aiml" None
               Scenario.afternoon Scenario.pending_db)))
  = [capture_data Scenario.pending_mark]
  /\ map capture_data
       (attendance_records
          (snd (Main.attendance_verify Scenario.hod 1 "reject" None
                  Scenario.afternoon Scenario.pending_db)))
     = [capture_data Scenario.pending_mark].
Proof.
  destruct (@review_keeps_capture_data (Scenario.service None 0.8%Q)
              Scenario.hod 1 "approve" "hod_aiml" None Scenario.afternoon
              Scenario.pending_db) as ((H1 & _) & _).
  - simpl. constructor; [intros []|constructor].
  - destruct (@review_keeps_capture_data (Scenario.service None 0.8%Q)
                Scenario.hod 1 "reject" "hod_aiml" None Scenario.afternoon
                Scenario.pending_db) as (_ & (H2 & _)).
    + simpl. constructor; [intros []|constructor].
    + split; [exact H1|exact H2].
Defined.

(** ** Referential integrity *)

Lemma update_keeps_ids (l : list AttendanceRecord) (a' : AttendanceRecord)
  (k : nat) :
  ar_id a' = k ->
  map ar_id (map (fun x => if ar_id x =? k then a' else x) l) = map ar_id l.
Proof.
  intros Hk. rewrite map_map. apply map_ext. intros x.
  destruct (Nat.eqb_spec (ar_id x) k); congruence.
Qed.

Lemma update_pending_refs (l : list PendingVerification)
  (p p' : PendingVerification) (k : nat) :
  In p l -> pv_attendance_record_id p' = pv_attendance_record_id p ->
  incl (map pv_attendance_record_id
          (map (fun x => if pv_id x =? k then p' else x) l))
       (map pv_attendance_record_id l).
Proof.
  intros Hin Href r Hr. apply in_map_iff in Hr. destruct Hr as (y & <- & Hy).
  apply in_map_iff in Hy. destruct Hy as (x & <- & Hx).
  destruct (pv_id x =? k); [rewrite Href|]; apply in_map; assumption.
Qed.

Lemma linked_intro (db db' : Session) :
  incl (map ar_id (attendance_records db)) (map ar_id (attendance_records db')) ->
  incl (map pv_attendance_record_id (pending_verifications db'))
       (map pv_attendance_record_id (pending_verifications db)
        ++ map ar_id (attendance_records db')) ->
  linked db -> linked db'.
Proof.
  unfold linked. intros Hids Hrefs Hl r Hr.
  apply Hrefs in Hr. apply in_app_or in Hr. destruct Hr as [Hr|Hr]; auto.
Qed.

Lemma marked_keeps_linked (now : datetime) (db db' : Session) (reply : Reply) :
  marked_or_refused now db db' reply ->
  pending_verifications db' = pending_verifications db ->
  linked db -> linked db'.
Proof.
  intros Hm Hp. apply linked_intro.
  - destruct Hm as [[_ ->]|(_ & a & s & -> & _)]; [apply incl_refl|].
    rewrite map_app. apply incl_appl, incl_refl.
  - rewrite Hp. apply incl_appl, incl_refl.
Qed.

(** X9. Every handler that writes keeps the pending verifications linked:
    if each of them points to a row of the attendance table before the
    call, each does afterwards. This holds for the two marking handlers,
    the two handlers that create a pending verification and the three
    review handlers. *)
Theorem reviews_stay_linked (self : AttendanceService.t) (app : Main.App)
  (current_user : Main.User) (image_data : bytes)
  (qr_data manual_register_number approved_register_number : option string)
  (register_number identified_register_number action : string)
  (id : nat) (notes : option string) (form_notes : string)
  (now : datetime) (db : Session) :
  linked db ->
  linked (snd (AttendanceService.mark_attendance self image_data qr_data
                 manual_register_number now db))
  /\ linked (snd (Main.mark_attendance_verified app image_data
                    register_number now db))
  /\ linked (snd (Main.create_pending_verification app image_data now db))
  /\ linked (snd (Main.create_manual_pending_verification app current_user
                    image_data register_number identified_register_number
                    now db))
  /\ linked (snd (AttendanceService.verify_pending_attendance self id action
                    (Main.username current_user) notes now db))
  /\ linked (snd (Main.verify_pending_attendance app current_user id action
                    approved_register_number form_notes db))
  /\ linked (snd (Main.attendance_verify current_user id action notes now db)).
Proof.
  intros Hl. repeat split.
  - destruct (service_marks self image_data qr_data manual_register_number
                now db) as (Hm & _ & Hp).
    exact (@marked_keeps_linked _ _ _ _ Hm Hp Hl).
  - destruct (verified_marks app image_data register_number now db)
      as (Hm & Hp).
    exact (@marked_keeps_linked _ _ _ _ Hm Hp Hl).
  - unfold Main.create_pending_verification.
    destruct (Main.identify_for_pending app image_data db) as [who c].
    destruct (Main.save_face_image app image_data); simpl; [|exact Hl].
    revert Hl. apply linked_intro; simpl.
    + rewrite map_app. apply incl_appl, incl_refl.
    + rewrite !map_app. simpl. apply incl_app.
      * apply incl_appl, incl_refl.
      * apply incl_appr, incl_appr, incl_refl.
  - unfold Main.create_manual_pending_verification.
    destruct (query_student db register_number); simpl; [|exact Hl].
    assert (H : linked
                  (snd (add_pending
                          (snd (add_attendance db (fun id0 =>
                             mk_AttendanceRecord id0 register_number
                               (strftime_Ymd (date_of now)) now "Pending"
                               "forgot_id_manual" (Some 0.0%Q) false "pending"
                               None None false None)))
                          (fun id0 =>
                             mk_PendingVerification id0
                               (next_id (map ar_id (attendance_records db)))
                               register_number (st_name s)
                               (strftime_Ymd (date_of now)) now (Some 0.0%Q)
                               (if String.eqb identified_register_number
                                     register_number
                                then None else Some register_number)
                               "pending" None
                               (Some (Main.manual_notes current_user
                                        register_number
                                        identified_register_number))
                               None)))).
    { revert Hl. apply linked_intro; simpl.
      - rewrite map_app. apply incl_appl, incl_refl.
      - rewrite !map_app. simpl. apply incl_app.
        + apply incl_appl, incl_refl.
        + apply incl_appr, incl_appr, incl_refl. }
    destruct (Main.save_face_image app image_data); exact H.
  - unfold AttendanceService.verify_pending_attendance.
    repeat (break_match; simpl); try exact Hl;
      (revert Hl; apply linked_intro; simpl;
       [rewrite update_keeps_ids by reflexivity; apply incl_refl
       |apply incl_appl, incl_refl]).
  - unfold Main.verify_pending_attendance.
    repeat (break_match; simpl); try exact Hl;
      match goal with
      | H : find _ (pending_verifications db) = Some _ |- _ =>
          apply find_some in H; destruct H as [Hin _]
      end;
      (revert Hl; apply linked_intro; simpl;
       [try rewrite map_app; try apply incl_appl; apply incl_refl
       |apply incl_appl; eapply update_pending_refs; [exact Hin|reflexivity]]).
  - unfold Main.attendance_verify.
    repeat (break_match; simpl); try exact Hl;
      match goal with
      | H : find _ (pending_verifications db) = Some _ |- _ =>
          apply find_some in H; destruct H as [Hin _]
      end;
      (revert Hl; apply linked_intro; simpl;
       [try (rewrite update_keeps_ids by reflexivity); apply incl_refl
       |apply incl_appl; eapply update_pending_refs; [exact Hin|reflexivity]]).
Qed.

Lemma reviews_stay_linked_witness :
  linked (snd (Main.create_pending_verification (Scenario.app None 0.8%Q)
                 Scenario.image_data Scenario.afternoon Scenario.pending_db))
  /\ linked (snd (Main.attendance_verify Scenario.hod 1 "approve" None
                    Scenario.afternoon Scenario.pending_db)).
Proof.
  destruct (@reviews_stay_linked (Scenario.service None 0.8%Q)
              (Scenario.app None 0.8%Q) Scenario.hod Scenario.image_data
              None None None "2022026" "2022026" "approve" 1 None ""
              Scenario.afternoon Scenario.pending_db)
    as (_ & _ & H1 & _ & _ & _ & H2).
  - unfold linked. simpl. apply incl_refl.
  - split; [exact H1|exact H2].
Defined.

(** ** The face crop *)

Lemma py_slice_length {A : Type} (start stop : Z) (l : list A) :
  (0 <= start <= stop)%Z -> (stop <= Z.of_nat (length l))%Z ->
  Z.of_nat (length (SiameseNetworkService.py_slice start stop l)) = (stop - start)%Z.
Proof.
  intros H1 H2. unfold SiameseNetworkService.py_slice.
  destruct (Z.ltb_spec stop 0); [lia|].
  rewrite length_firstn, length_skipn.
  rewrite (Z.min_l stop) by lia. rewrite (Z.min_l start) by lia. lia.
Qed.

Lemma In_firstn {A : Type} (n : nat) (l : list A) (x : A) :
  In x (firstn n l) -> In x l.
Proof.
  revert l. induction n as [|n IH]; intros [|y l]; simpl; try tauto.
  intros [->|H]; auto.
Qed.

Lemma In_skipn {A : Type} (n : nat) (l : list A) (x : A) :
  In x (skipn n l) -> In x l.
Proof.
  revert l. induction n as [|n IH]; intros [|y l]; simpl; try tauto.
  intros H. right. apply IH. exact H.
Qed.

Lemma py_slice_incl {A : Type} (start stop : Z) (l : list A) (x : A) :
  In x (SiameseNetworkService.py_slice start stop l) -> In x l.
Proof.
  unfold SiameseNetworkService.py_slice. intros H. apply In_firstn in H.
  exact (In_skipn _ _ _ H).
Qed.

Lemma largest_spec (rest : list SiameseNetworkService.box) :
  forall best,
    In (SiameseNetworkService.largest best rest) (best :: rest)
    /\ forall f, In f (best :: rest) -> (SiameseNetworkService.area f <= SiameseNetworkService.area (SiameseNetworkService.largest best rest))%Z.
Proof.
  induction rest as [|g rest IH]; intros best; simpl.
  - split; [auto|]. intros f [<-|[]]. lia.
  - destruct (Z.ltb_spec (SiameseNetworkService.area best) (SiameseNetworkService.area g)).
    + destruct (IH g) as [Hin Hmax]. split.
      * destruct Hin as [<-|Hin]; auto.
      * intros f [<-|[<-|Hf]].
        -- specialize (Hmax g (or_introl eq_refl)). lia.
        -- apply Hmax. left. reflexivity.
        -- apply Hmax. right. exact Hf.
    + destruct (IH best) as [Hin Hmax]. split.
      * destruct Hin as [<-|Hin]; auto.
      * intros f [<-|[<-|Hf]].
        -- apply Hmax. left. reflexivity.
        -- specialize (Hmax best (or_introl eq_refl)). lia.
        -- apply Hmax. right. exact Hf.
Qed.

(** X10. [_extract_face] crops around the largest detected face. When the
    image is rectangular and that face lies inside it, the crop contains the
    face, stays inside the image, extends the face by at most a fifth of its
    smaller side in each direction, and has exactly the padded height and
    width. *)
Theorem extract_face_stays_inside
  (detectMultiScale : ndarray -> outcome (list SiameseNetworkService.box)) (image : ndarray)
  (f : SiameseNetworkService.box) (faces : list SiameseNetworkService.box) :
  detectMultiScale image = Ok (f :: faces) ->
  rectangular image ->
  inside image (SiameseNetworkService.largest f faces) ->
  let chosen := SiameseNetworkService.largest f faces in
  let '(x, y, w, h) := chosen in
  let '(x', y', w', h') := SiameseNetworkService.padded image chosen in
  In chosen (f :: faces)
  /\ (forall g, In g (f :: faces) -> (SiameseNetworkService.area g <= SiameseNetworkService.area chosen)%Z)
  /\ (0 <= x' <= x /\ 0 <= y' <= y)%Z
  /\ (x + w <= x' + w' <= SiameseNetworkService.width image)%Z
  /\ (y + h <= y' + h' <= SiameseNetworkService.height image)%Z
  /\ (x - x' <= Z.min w h / 5 /\ y - y' <= Z.min w h / 5)%Z
  /\ exists face_image,
       SiameseNetworkService._extract_face detectMultiScale image = Some face_image
       /\ Z.of_nat (length face_image) = h'
       /\ forall row, In row face_image -> Z.of_nat (length row) = w'.
Proof.
  intros Hdet Hrect Hin. simpl.
  destruct (largest_spec faces f) as [Hmem Hmax].
  unfold SiameseNetworkService._extract_face. rewrite Hdet.
  destruct (SiameseNetworkService.largest f faces) as [[[x y] w] h] eqn:Hl. unfold SiameseNetworkService.padded.
  unfold inside in Hin.
  assert (Hq : (0 <= Z.quot (Z.min w h) 5 <= Z.min w h)%Z).
  { assert (Hm : (0 <= Z.min w h)%Z) by lia.
    rewrite Z.quot_div_nonneg by lia. split.
    - apply Z.div_pos; lia.
    - apply Z.div_le_upper_bound; lia. }
  assert (Hq' : Z.quot (Z.min w h) 5 = (Z.min w h / 5)%Z)
    by (apply Z.quot_div_nonneg; lia).
  set (padding := Z.quot (Z.min w h) 5) in *.
  split; [exact Hmem|]. split; [exact Hmax|].
  split; [lia|]. split; [lia|]. split; [lia|].
  split; [rewrite <- Hq'; lia|].
  eexists. split; [reflexivity|]. split.
  - rewrite length_map. unfold SiameseNetworkService.height in *. rewrite py_slice_length; lia.
  - intros row Hrow. apply in_map_iff in Hrow.
    destruct Hrow as (r & <- & Hr). apply py_slice_incl in Hr.
    rewrite py_slice_length; [lia|lia|]. rewrite (Hrect r Hr). lia.
Qed.

Lemma extract_face_stays_inside_witness :
  exists face_image,
    SiameseNetworkService._extract_face
      (fun _ => Ok [(2, 2, 5, 5)%Z; (0, 0, 3, 3)%Z])
      (repeat (repeat [0; 0; 0] 10) 10) = Some face_image
    /\ Z.of_nat (length face_image) = 7%Z
    /\ forall row, In row face_image -> Z.of_nat (length row) = 7%Z.
Proof.
  pose proof (@extract_face_stays_inside
                (fun _ => Ok [(2, 2, 5, 5)%Z; (0, 0, 3, 3)%Z])
                (repeat (repeat [0; 0; 0] 10) 10)
                (2, 2, 5, 5)%Z [(0, 0, 3, 3)%Z] eq_refl) as H.
  simpl in H.
  assert (Hrect : rectangular (repeat (repeat [0; 0; 0] 10) 10)).
  { intros row Hrow. simpl in Hrow.
    repeat (destruct Hrow as [<-|Hrow]; [reflexivity|]). destruct Hrow. }
  assert (Hin : (0 <= 2 /\ 0 <= 2 /\ 0 <= 5 /\ 0 <= 5
                 /\ 2 + 5 <= 10 /\ 2 + 5 <= 10)%Z) by lia.
  destruct (H Hrect Hin) as (_ & _ & _ & _ & _ & _ & face_image & H1 & H2 & H3).
  exists face_image. split; [exact H1|]. split; [exact H2|exact H3].
Defined.

(** ** Enrollment *)

Lemma find_map_other (p : Student -> bool) (s s' : Student) (l : list Student) :
  NoDup (map st_id l) -> In s l -> p s = false -> p s' = false ->
  find p (map (fun x => if st_id x =? st_id s then s' else x) l) = find p l.
Proof.
  intros Hnd Hin Hp Hp'. induction l as [|x l IH]; [reflexivity|].
  simpl. inversion Hnd as [|? ? Hnotin Hnd']; subst.
  destruct (Nat.eqb_spec (st_id x) (st_id s)) as [E|E].
  - assert (x = s).
    { destruct Hin as [H|H]; [exact H|]. exfalso. apply Hnotin.
      rewrite E. apply in_map. exact H. }
    subst x. rewrite Hp, Hp'.
    rewrite (map_ext_in _ (fun y => y)); [rewrite map_id; reflexivity|].
    intros y Hy. destruct (Nat.eqb_spec (st_id y) (st_id s)) as [Heq|_];
      [|reflexivity].
    exfalso. apply Hnotin. rewrite <- Heq. apply in_map. exact Hy.
  - destruct (p x); [reflexivity|].
    destruct Hin as [H|H]; [congruence|]. apply IH; assumption.
Qed.

(** X11. [store_face_encoding] with distinct student ids: it answers
    [False] and changes nothing when the register number is unknown or no
    encoding could be extracted; when it answers [True], a query for the
    register number returns the student with the new encoding, and the
    query for every other register number answers as before. It never
    touches attendance rows or pending verifications. *)
Theorem stored_encoding_is_found (self : FaceRecognitionService.t)
  (register_number : string) (image_data : bytes) (db : Session) :
  NoDup (map st_id (students db)) ->
  let out := FaceRecognitionService.store_face_encoding self register_number
               image_data db in
  attendance_records (snd out) = attendance_records db
  /\ pending_verifications (snd out) = pending_verifications db
  /\ (fst out = false ->
      snd out = db
      /\ (query_student db register_number = None
          \/ nonempty (FaceRecognitionService.encode_face self image_data)
             = None))
  /\ (fst out = true ->
      exists student encoding,
        query_student db register_number = Some student
        /\ nonempty (FaceRecognitionService.encode_face self image_data)
           = Some encoding
        /\ query_student (snd out) register_number
           = Some (set_face_encoding student (Some encoding))
        /\ forall r, r <> register_number ->
             query_student (snd out) r = query_student db r).
Proof.
  intros Hnd. unfold FaceRecognitionService.store_face_encoding.
  destruct (query_student db register_number) as [student|] eqn:Hq;
    [|simpl; repeat split; auto; discriminate].
  unfold nonempty.
  destruct (FaceRecognitionService.encode_face self image_data) as [e|];
    [|simpl; repeat split; auto; discriminate].
  destruct (String.eqb e ""); simpl;
    [repeat split; auto; discriminate|].
  repeat split; try discriminate.
  intros _. exists student, e. repeat split.
  - unfold query_student in *. simpl.
    apply (@find_after_update _ student (set_face_encoding student (Some e)));
      [exact Hq| |reflexivity].
    apply find_some in Hq. exact (proj2 Hq).
  - intros r Hr. unfold query_student in *. simpl.
    pose proof (find_some _ _ Hq) as [Hin Hreg].
    apply String.eqb_eq in Hreg.
    apply (@find_map_other _ student
             (mk_Student (st_id student) (st_register_number student)
                (st_name student) (st_department student) (st_year student)
                (st_section student) (Some e) (st_is_active student)));
      auto; simpl; rewrite Hreg; apply String.eqb_neq; congruence.
Qed.

Lemma stored_encoding_is_found_witness :
  query_student
    (snd (FaceRecognitionService.store_face_encoding
            (Scenario.face None 0.8%Q) "2022026" Scenario.image_data
            (Scenario.empty_db Scenario.asha_unenrolled)))
    "2022026"
  = Some Scenario.asha.
Proof.
  destruct (@stored_encoding_is_found (Scenario.face None 0.8%Q) "2022026"
              Scenario.image_data
              (Scenario.empty_db Scenario.asha_unenrolled))
    as (_ & _ & _ & H).
  - simpl. constructor; [intros []|constructor].
  - destruct (H eq_refl) as (student & encoding & Hq & He & Hfound & _).
    inversion Hq; subst student. inversion He; subst encoding.
    exact Hfound.
Defined.

(** ** Case C without a readable token *)

Lemma pending_scan_sound (fs : FaceRecognitionService.t) (image : bytes)
  (l : list Student) :
  forall best hi b c,
    Main.pending_scan fs image l best hi = (Some b, c) ->
    (best = Some b /\ hi = c)
    \/ (In b l
        /\ exists enc,
             nonempty (st_face_encoding b) = Some enc
             /\ FaceRecognitionService.verify_face fs image enc 0.4%Q
                = (true, c)).
Proof.
  induction l as [|s l IH]; simpl; intros best hi b c H.
  - inversion H; auto.
  - destruct (nonempty (st_face_encoding s)) as [enc|] eqn:Henc.
    + destruct (FaceRecognitionService.verify_face fs image enc 0.4%Q)
        as [m conf] eqn:Hv.
      destruct (m && Qlt_bool hi conf) eqn:Hup.
      * apply IH in H. destruct H as [[H1 H2]|(Hin & H)].
        -- inversion H1; subst. right. split; [auto|].
           apply andb_true_iff in Hup. destruct Hup as [-> _].
           exists enc. auto.
        -- right. split; [auto|exact H].
      * apply IH in H. destruct H as [H|(Hin & H)]; [auto|].
        right. split; [auto|exact H].
    + apply IH in H. destruct H as [H|(Hin & H)]; [auto|].
      right. split; [auto|exact H].
Qed.

Lemma identify_for_pending_sound (app : Main.App) (image : bytes)
  (db : Session) (s : Student) (c : Q) :
  Main.identify_for_pending app image db = (Some s, c) ->
  In s (students db) /\ st_is_active s = true /\ (0.4 < c)%Q
  /\ exists fs enc,
       Main.face_service app = Some fs
       /\ nonempty (st_face_encoding s) = Some enc
       /\ FaceRecognitionService.verify_face fs image enc 0.4%Q = (true, c).
Proof.
  unfold Main.identify_for_pending.
  destruct (Main.face_service app) as [fs|]; [|discriminate].
  destruct (Main.pending_scan fs image (filter st_is_active (students db))
              None 0.0%Q) as [[b|] hi] eqn:E; [|discriminate].
  destruct (Qlt_bool 0.4 hi) eqn:Hhi; [|discriminate].
  intros H. inversion H; subst.
  apply pending_scan_sound in E.
  destruct E as [[E _]|(Hin & enc & Henc & Hv)]; [discriminate|].
  apply filter_In in Hin. destruct Hin as [Hin Hact].
  apply Qlt_bool_iff in Hhi. repeat split; auto.
  exists fs, enc. auto.
Qed.

(** X12. [create_pending_verification] never changes the students. When
    the face image cannot be saved it answers 500 and writes nothing.
    Otherwise it answers [pending_verification] and appends one Pending
    attendance row and one pending verification that points to it, both
    stamped with the capture time: for the register number UNKNOWN with
    confidence 0.0 when nobody was identified, else for an active student
    whose face matched at threshold 0.4 with a confidence above 0.4. *)
Theorem unreadable_token_is_pending (app : Main.App)
  (face_image_data : bytes) (now : datetime) (db : Session) :
  let out := Main.create_pending_verification app face_image_data now db in
  students (snd out) = students db
  /\ match Main.save_face_image app face_image_data with
     | Raise e => snd out = db /\ exists detail, fst out = HTTPException 500 detail
     | Ok _ =>
         exists a p reply,
           fst out = Return reply
           /\ r_status reply = "pending_verification"%string
           /\ attendance_records (snd out) = attendance_records db ++ [a]
           /\ pending_verifications (snd out) = pending_verifications db ++ [p]
           /\ pv_attendance_record_id p = ar_id a
           /\ ar_status a = "Pending"%string
           /\ ar_verification_status a = "pending"%string
           /\ pv_status p = "pending"%string
           /\ ar_time a = now
           /\ pv_student_register_number p = ar_student_register_number a
           /\ pv_face_confidence p = ar_face_confidence a
           /\ match r_student reply with
              | None =>
                  ar_student_register_number a = "UNKNOWN"%string
                  /\ ar_face_confidence a = Some 0.0%Q
              | Some s =>
                  In s (students db) /\ st_is_active s = true
                  /\ ar_student_register_number a = st_register_number s
                  /\ exists fs enc c,
                       Main.face_service app = Some fs
                       /\ nonempty (st_face_encoding s) = Some enc
                       /\ FaceRecognitionService.verify_face fs
                            face_image_data enc 0.4%Q = (true, c)
                       /\ (0.4 < c)%Q
                       /\ ar_face_confidence a = Some c
              end
     end.
Proof.
  unfold Main.create_pending_verification.
  destruct (Main.identify_for_pending app face_image_data db) as [who c]
    eqn:Hid.
  destruct (Main.save_face_image app face_image_data) as [u|e]; simpl;
    [|split; [reflexivity|split; [reflexivity|eexists; reflexivity]]].
  split; [reflexivity|].
  eexists. eexists. eexists. split; [reflexivity|]. simpl.
  repeat (split; [reflexivity|]).
  destruct who as [s|]; simpl; [|split; reflexivity].
  apply identify_for_pending_sound in Hid.
  destruct Hid as (Hin & Hact & Hc & fs & enc & Hfs & Henc & Hv).
  repeat split; auto. exists fs, enc, c. auto.
Qed.

(** ** The decoded token *)

Lemma length_text (l : list ascii) : String.length (PyStr.text l) = length l.
Proof. induction l; simpl; congruence. Qed.

Lemma chars_text (l : list ascii) : PyStr.chars (PyStr.text l) = l.
Proof. apply list_ascii_of_string_of_list_ascii. Qed.

Lemma text_chars (s : string) : PyStr.text (PyStr.chars s) = s.
Proof. apply string_of_list_ascii_of_string. Qed.

Lemma length_chars (s : string) : length (PyStr.chars s) = String.length s.
Proof. rewrite <- (text_chars s) at 2. symmetry. apply length_text. Qed.

Lemma decimal_is_digit (c : ascii) :
  PyStr.is_decimal c = true -> PyStr.is_digit c = true.
Proof. unfold PyStr.is_digit. intros ->. reflexivity. Qed.

Lemma decimal_is_word (c : ascii) :
  PyStr.is_decimal c = true -> PyStr.is_word c = true.
Proof. unfold PyStr.is_word. intros ->. reflexivity. Qed.

Lemma forallb_decimal_digit (l : list ascii) :
  forallb PyStr.is_decimal l = true -> forallb PyStr.is_digit l = true.
Proof.
  rewrite !forallb_forall. intros H c Hc. apply decimal_is_digit. auto.
Qed.

Lemma isdigit_text (l : list ascii) :
  l <> [] -> forallb PyStr.is_decimal l = true ->
  PyStr.isdigit (PyStr.text l) = true.
Proof.
  intros Hne Hd. unfold PyStr.isdigit. rewrite chars_text.
  rewrite (forallb_decimal_digit _ Hd), andb_true_r.
  destruct l; [contradiction|reflexivity].
Qed.

Lemma digits_at_spec (n : nat) (l : list ascii) :
  PyStr.digits_at n l = true ->
  length (firstn n l) = n /\ forallb PyStr.is_decimal (firstn n l) = true.
Proof.
  unfold PyStr.digits_at. intros H. apply andb_true_iff in H.
  destruct H as [H1 H2]. apply Nat.eqb_eq in H1. auto.
Qed.

Lemma numeric_run (l : list ascii) :
  5 <= length l <= 9 -> forallb PyStr.is_decimal l = true ->
  numeric (PyStr.text l).
Proof.
  intros Hlen Hd. split.
  - apply isdigit_text; [|exact Hd]. intros ->. simpl in Hlen. lia.
  - rewrite length_text. exact Hlen.
Qed.

Lemma numeric_seven (l : list ascii) :
  PyStr.digits_at 7 l = true -> numeric (PyStr.text (firstn 7 l)).
Proof.
  intros H. apply digits_at_spec in H. destruct H as [H1 H2].
  apply numeric_run; [lia|exact H2].
Qed.

Lemma Some_inj {A : Type} (a b : A) : Some a = Some b -> a = b.
Proof. congruence. Qed.

Ltac some_inv H := apply Some_inj in H; subst.




Lemma search_digits7_numeric (s r : string) :
  PyStr.search_digits7 s = Some r -> numeric r.
Proof.
  unfold PyStr.search_digits7.
  induction (PyStr.chars s) as [|c l IH]; [discriminate|].
  cbn [PyStr.search_digits7_from].
  destruct (PyStr.digits_at 7 (c :: l)) eqn:E.
  - intros H. some_inv H. apply numeric_seven. exact E.
  - apply IH.
Qed.

Lemma digit_run_decimal (n : nat) :
  forall l, forallb PyStr.is_decimal (PyStr.digit_run n l) = true
            /\ length (PyStr.digit_run n l) <= n.
Proof.
  induction n as [|n IH]; intros [|c l]; simpl; try (split; [reflexivity|lia]).
  destruct (PyStr.is_decimal c) eqn:E; simpl; [|split; [reflexivity|lia]].
  rewrite E. destruct (IH l). split; [assumption|lia].
Qed.

Lemma digit_run_long (k : nat) :
  forall n l,
    k <= n -> length (firstn k l) = k ->
    forallb PyStr.is_decimal (firstn k l) = true ->
    k <= length (PyStr.digit_run n l).
Proof.
  induction k as [|k IH]; intros n l Hn Hlen Hd; [lia|].
  destruct l as [|c l]; [discriminate|].
  destruct n as [|n]; [lia|].
  simpl in *. apply andb_true_iff in Hd. destruct Hd as [Hc Hd].
  rewrite Hc. simpl. apply le_n_S. apply IH; [lia|lia|exact Hd].
Qed.

Lemma search_digits5_9_numeric (s r : string) :
  PyStr.search_digits5_9 s = Some r -> numeric r.
Proof.
  unfold PyStr.search_digits5_9.
  induction (PyStr.chars s) as [|c l IH]; [discriminate|].
  cbn [PyStr.search_digits5_9_from].
  destruct (PyStr.digits_at 5 (c :: l)) eqn:E.
  - intros H. some_inv H. apply digits_at_spec in E. destruct E as [E1 E2].
    destruct (digit_run_decimal 9 (c :: l)) as [Hd Hle].
    apply numeric_run; [|exact Hd]. split; [|exact Hle].
    apply digit_run_long; [lia|exact E1|exact E2].
  - apply IH.
Qed.

Lemma upper_run_spec (n : nat) :
  forall l, forallb PyStr.is_upper (PyStr.upper_run n l) = true
            /\ length (PyStr.upper_run n l) <= n
            /\ firstn (length (PyStr.upper_run n l)) l = PyStr.upper_run n l.
Proof.
  induction n as [|n IH]; intros [|c l]; simpl;
    try (repeat split; (reflexivity || lia)).
  destruct (PyStr.is_upper c) eqn:E; simpl;
    [|repeat split; (reflexivity || lia)].
  rewrite E. destruct (IH l) as (H1 & H2 & H3).
  repeat split; [assumption|lia|congruence].
Qed.

Lemma firstn_add {A : Type} (n m : nat) (l : list A) :
  firstn (n + m) l = firstn n l ++ firstn m (skipn n l).
Proof.
  revert l. induction n as [|n IH]; intros [|x l]; simpl; auto.
  - destruct m; reflexivity.
  - rewrite IH. reflexivity.
Qed.

Lemma academic_at_shape (l m : list ascii) :
  PyStr.academic_at l = Some m -> academic (PyStr.text m).
Proof.
  unfold PyStr.academic_at.
  destruct (PyStr.digits_at 2 l) eqn:H2; [|discriminate].
  destruct (upper_run_spec 4 (skipn 2 l)) as (Hu & Hle & Hfirst).
  set (letters := PyStr.upper_run 4 (skipn 2 l)) in *.
  destruct ((2 <=? length letters)
            && PyStr.digits_at 3 (skipn (2 + length letters) l)) eqn:E;
    [|discriminate].
  apply andb_true_iff in E. destruct E as [Hk H3].
  apply Nat.leb_le in Hk.
  apply digits_at_spec in H2. destruct H2 as [H2l H2d].
  apply digits_at_spec in H3. destruct H3 as [H3l H3d].
  intros H. some_inv H.
  exists (firstn 2 l), letters,
    (firstn 3 (skipn (2 + length letters) l)).
  rewrite chars_text. split.
  - rewrite <- Nat.add_assoc. rewrite firstn_add. f_equal.
    rewrite firstn_add, Hfirst. f_equal.
    rewrite skipn_skipn. f_equal. f_equal. lia.
  - repeat split; auto.
Qed.

Lemma search_academic_shape (s r : string) :
  PyStr.search_academic s = Some r -> academic r.
Proof.
  unfold PyStr.search_academic.
  induction (PyStr.chars s) as [|c l IH]; [discriminate|].
  cbn [PyStr.search_academic_from].
  destruct (PyStr.academic_at (c :: l)) eqn:E.
  - intros H. some_inv H. apply (academic_at_shape _ E).
  - apply IH.
Qed.

Lemma search_patterns_shape (data r : string) :
  Main.search_patterns data = Some r -> numeric r \/ academic r.
Proof.
  unfold Main.search_patterns.
  destruct (PyStr.search_digits7 data) eqn:E7.
  - intros H. inversion H; subst. left. exact (search_digits7_numeric _ E7).
  - destruct (PyStr.search_digits5_9 data) eqn:E5.
    + intros H. inversion H; subst. left.
      exact (search_digits5_9_numeric _ E5).
    + intros H. right. exact (search_academic_shape _ H).
Qed.



Lemma isdigit_len_numeric (s : string) :
  PyStr.isdigit s && (String.length s =? 7) = true
  \/ PyStr.isdigit s && QRDecoding.len_5_9 s = true ->
  numeric s.
Proof.
  unfold numeric, QRDecoding.len_5_9.
  intros [H|H]; apply andb_true_iff in H; destruct H as [H1 H2].
  - apply Nat.eqb_eq in H2. split; [exact H1|lia].
  - apply andb_true_iff in H2. destruct H2 as [H2 H3].
    apply Nat.leb_le in H2. apply Nat.leb_le in H3. split; [exact H1|lia].
Qed.













(** ** A token that is a bare JSON value *)

(** X14. A text that [json.loads] parses to a value that is not a
    dictionary (a code that holds just the number [2227021] is one) is lost
    in the first two loops: the log line raises on every image that reads
    it, one such barcode loses the other barcodes of its image, and the
    loop goes on. The scale loop returns the bare value itself, and
    [detect_face_and_id] detects no ID in a value that is neither a
    dictionary nor a string. *)
Theorem bare_value_token (self : QRDecoding.t) (text : string)
  (v : QRDecoding.jvalue) :
  QRDecoding.nonblank text = true ->
  QRDecoding.json_loads self text = QRDecoding.Loaded (QRDecoding.JValue v) ->
  (forall processed_images,
     (forall img, In img processed_images ->
                  QRDecoding.detectAndDecode self img = Ok text) ->
     QRDecoding.first_returned (QRDecoding.opencv_round self) processed_images
     = None)
  /\ (forall processed_images,
        (forall img, In img processed_images ->
           exists b rest,
             QRDecoding.pyzbar_symbols self img = Ok (b :: rest)
             /\ QRDecoding.b_data b = text) ->
        QRDecoding.first_returned (QRDecoding.pyzbar_round self)
          processed_images = None)
  /\ (forall gray scale resized,
        QRDecoding.resize self gray scale = Ok resized ->
        QRDecoding.detectAndDecode self resized = Ok text ->
        QRDecoding.scale_round self gray scale
        = QRDecoding.Returned (QRDecoding.JValue v))
  /\ ((forall s, v <> QRDecoding.VStr s) ->
      Main.read_register_number (QRDecoding.JValue v) = (false, None)).
Proof.
  intros Hnb Hl. repeat split.
  - induction processed_images as [|img rest IH]; intros Hall;
      [reflexivity|].
    simpl. unfold QRDecoding.opencv_round at 1.
    rewrite (Hall img (or_introl eq_refl)), Hnb, Hl.
    apply IH. intros x Hx. apply Hall. right. exact Hx.
  - induction processed_images as [|img rest IH]; intros Hall;
      [reflexivity|].
    simpl. unfold QRDecoding.pyzbar_round at 1.
    destruct (Hall img (or_introl eq_refl)) as (b & more & -> & Hb).
    simpl. rewrite Hb, Hnb, Hl.
    apply IH. intros x Hx. apply Hall. right. exact Hx.
  - intros gray scale resized Hr Hd. unfold QRDecoding.scale_round.
    rewrite Hr, Hd, Hnb, Hl. reflexivity.
  - intros Hv. unfold Main.read_register_number.
    destruct v as [s|n|b| |repr t]; [contradiction (Hv s eq_refl)|..];
      simpl;
      repeat match goal with
             | |- context [if ?c then _ else _] => destruct c
             end;
      reflexivity.
Qed.

Lemma bare_value_token_witness :
  QRDecoding.decode_qr_from_image bare_number_reader []
  = QRDecoding.JValue (QRDecoding.VInt 2227021)
  /\ QRDecoding.first_returned (QRDecoding.opencv_round bare_number_reader)
       [[]; []] = None
  /\ Main.read_register_number (QRDecoding.JValue (QRDecoding.VInt 2227021))
     = (false, None).
Proof.
  assert (Hnb : QRDecoding.nonblank "2227021" = true)
    by (vm_compute; reflexivity).
  destruct (@bare_value_token bare_number_reader "2227021"
              (QRDecoding.VInt 2227021) Hnb eq_refl) as (H1 & _ & _ & H4).
  split; [vm_compute; reflexivity|]. split.
  - apply H1. intros img _. reflexivity.
  - apply H4. intros s. discriminate.
Defined.

(** ** The reply of [detect_face_and_id] *)

Lemma read_register_number_reported (v : QRDecoding.json) :
  match Main.read_register_number v with
  | (true, Some r) => reported v r
  | (false, None) => True
  | _ => False
  end.
Proof.
  unfold Main.read_register_number.
  destruct (negb (QRDecoding.truth v)); [exact I|].
  destruct v as [items|[s| | | |]]; try exact I.
  - destruct (QRDecoding.get items "register_number") as [w|] eqn:Hr.
    { left. exists items, w. auto. }
    destruct (QRDecoding.get items "data") as [d|]; [|exact I].
    cbv zeta.
    destruct (PyStr.isdigit (QRDecoding.str d)
              && (String.length (QRDecoding.str d) =? 7)) eqn:E7.
    { right. left. apply isdigit_len_numeric. auto. }
    destruct (PyStr.isdigit (QRDecoding.str d)
              && QRDecoding.len_5_9 (QRDecoding.str d)) eqn:E5.
    { right. left. apply isdigit_len_numeric. auto. }
    destruct (Main.search_patterns (QRDecoding.str d)) as [m|] eqn:Hs;
      [|exact I].
    right. exact (search_patterns_shape _ Hs).
  - destruct (PyStr.isdigit s && (String.length s =? 7)) eqn:E7.
    { right. left. apply isdigit_len_numeric. auto. }
    destruct (Main.search_patterns s) as [m|] eqn:Hs; [|exact I].
    right. exact (search_patterns_shape _ Hs).
Qed.

(** X15. [detect_face_and_id] fails only when the debug copy cannot be
    written (500). In its reply an ID is detected exactly when a register
    number is given; liveness and its score are given exactly when a face
    was detected, and are then the answer of [check_liveness]; and a
    register number that is given is the [register_number] entry of the
    decoded dictionary, or has five to nine digits, or is in the academic
    format (two digits, two to four capitals, three digits). *)
Theorem detection_reply (app : Main.App) (save_scan : bytes -> outcome unit)
  (detect_face : bytes -> bool) (qr_service : option QRDecoding.t)
  (image_data : bytes) :
  match Main.detect_face_and_id app save_scan detect_face qr_service
          image_data with
  | HTTPException code _ =>
      code = 500 /\ exists e, save_scan image_data = Raise e
  | Return reply =>
      (Main.d_id_detected reply = true
       <-> Main.d_register_number reply <> None)
      /\ (if Main.d_face_detected reply
          then exists fs,
                 Main.face_service app = Some fs
                 /\ detect_face image_data = true
                 /\ Main.d_liveness reply
                    = Some (fst (FaceRecognitionService.check_liveness fs
                                   image_data))
                 /\ Main.d_liveness_score reply
                    = Some (snd (FaceRecognitionService.check_liveness fs
                                   image_data))
          else Main.d_liveness reply = None
               /\ Main.d_liveness_score reply = None)
      /\ (forall r,
            Main.d_register_number reply = Some r ->
            exists qr,
              qr_service = Some qr
              /\ reported (QRDecoding.decode_qr_from_image qr image_data) r)
  end.
Proof.
  unfold Main.detect_face_and_id.
  destruct (save_scan image_data) as [u|e];
    [|split; [reflexivity|exists e; reflexivity]].
  assert (Hface :
    forall f l s,
      match Main.face_service app with
      | Some fs =>
          if detect_face image_data
          then let '(is_live, live_score) :=
                 FaceRecognitionService.check_liveness fs image_data in
               (true, is_live, live_score)
          else (false, false, 0.0%Q)
      | None => (false, false, 0.0%Q)
      end = (f, l, s) ->
      if f
      then exists fs,
             Main.face_service app = Some fs
             /\ detect_face image_data = true
             /\ Some l = Some (fst (FaceRecognitionService.check_liveness fs
                                      image_data))
             /\ Some s = Some (snd (FaceRecognitionService.check_liveness fs
                                      image_data))
      else True).
  { intros f l s. destruct (Main.face_service app) as [fs|].
    - destruct (detect_face image_data) eqn:Hdf.
      + destruct (FaceRecognitionService.check_liveness fs image_data)
          as [is_live live_score] eqn:Hcl.
        intros H. inversion H; subst. exists fs. rewrite Hcl.
        repeat split; auto.
      + intros H. inversion H; subst. exact I.
    - intros H. inversion H; subst. exact I. }
  destruct (match Main.face_service app with
            | Some fs => _
            | None => _
            end) as [[f l] s] eqn:Ef.
  specialize (Hface f l s eq_refl).
  assert (Hid :
    forall d r,
      match qr_service with
      | Some qr =>
          Main.read_register_number
            (QRDecoding.decode_qr_from_image qr image_data)
      | None => (false, None)
      end = (d, r) ->
      (d = true <-> r <> None)
      /\ forall x, r = Some x ->
           exists qr,
             qr_service = Some qr
             /\ reported (QRDecoding.decode_qr_from_image qr image_data) x).
  { intros d r. destruct qr_service as [qr|].
    - pose proof (read_register_number_reported
                    (QRDecoding.decode_qr_from_image qr image_data)) as Hr.
      destruct (Main.read_register_number _) as [[|] [x|]];
        try contradiction; intros H; inversion H; subst.
      + split; [split; [discriminate|reflexivity]|].
        intros y Hy. inversion Hy; subst. exists qr. auto.
      + split; [split; [discriminate|intros Hn; contradiction]|].
        discriminate.
    - intros H. inversion H; subst.
      split; [split; [discriminate|intros Hn; contradiction]|discriminate]. }
  destruct (match qr_service with
            | Some qr => _
            | None => _
            end) as [d r] eqn:Ed.
  destruct (Hid d r eq_refl) as [Hiff Hrep]. simpl.
  split; [exact Hiff|]. split; [|exact Hrep].
  destruct f; [exact Hface|auto].
Qed.

(** ** A number of ten digits or more *)

Lemma not_at_sign (l : list ascii) :
  forallb PyStr.is_decimal l = true -> existsb (Ascii.eqb "@") l = false.
Proof.
  induction l as [|c l IH]; [reflexivity|]. cbn [forallb existsb].
  intros H. apply andb_true_iff in H. destruct H as [Hc Hl].
  rewrite (IH Hl), orb_false_r.
  destruct (Ascii.eqb_spec "@"%char c) as [<-|]; [discriminate|reflexivity].
Qed.

Lemma search_seven_inside (l : list ascii) :
  forallb PyStr.is_decimal l = true -> PyStr.search_seven_from true l = None.
Proof.
  induction l as [|c l IH]; [reflexivity|].
  intros H. cbn [PyStr.search_seven_from negb andb].
  simpl in H. apply andb_true_iff in H. destruct H as [Hc Hl].
  rewrite (decimal_is_word _ Hc). apply IH. exact Hl.
Qed.

Lemma all_of_prefix {A : Type} (holds : A -> bool) (l : list A) (n : nat) :
  forallb holds l = true -> forallb holds (firstn n l) = true.
Proof.
  rewrite !forallb_forall. intros H x Hx. apply H.
  eapply In_firstn. eassumption.
Qed.

Lemma digits_at_head (n : nat) (l : list ascii) :
  forallb PyStr.is_decimal l = true -> n <= length l ->
  PyStr.digits_at n l = true.
Proof.
  intros Hd Hn. unfold PyStr.digits_at.
  rewrite (all_of_prefix _ _ n Hd), andb_true_r.
  apply Nat.eqb_eq. rewrite length_firstn. lia.
Qed.

Lemma search_seven_long (s : string) :
  forallb PyStr.is_decimal (PyStr.chars s) = true ->
  8 <= String.length s ->
  PyStr.search_seven s = None.
Proof.
  intros Hd Hlen. unfold PyStr.search_seven. rewrite <- length_chars in Hlen.
  destruct (PyStr.chars s) as [|c l] eqn:E; [reflexivity|].
  cbn [PyStr.search_seven_from negb andb].
  destruct (nth_error (c :: l) 7) as [d|] eqn:Hn.
  - assert (Hw : PyStr.is_word d = true).
    { apply decimal_is_word. rewrite forallb_forall in Hd. apply Hd.
      exact (nth_error_In _ _ Hn). }
    rewrite Hw, andb_false_r.
    simpl in Hd. apply andb_true_iff in Hd. destruct Hd as [Hc Hl].
    rewrite (decimal_is_word _ Hc). apply search_seven_inside. exact Hl.
  - apply nth_error_None in Hn. lia.
Qed.

(** X16. A code that holds a number of ten digits or more is classified
    as plain text by the cascade, and [detect_face_and_id] then reports its
    first seven digits as the register number. *)
Theorem long_number_is_cut (b : QRDecoding.barcode) (text : string) :
  forallb PyStr.is_decimal (PyStr.chars (PyStr.strip text)) = true ->
  10 <= String.length (PyStr.strip text) ->
  QRDecoding.b_data b = text ->
  let cut := PyStr.text (firstn 7 (PyStr.chars (PyStr.strip text))) in
  QRDecoding.classify_text text
  = QRDecoding.result (PyStr.strip text) "plain_text" []
  /\ QRDecoding.classify_barcode b
     = QRDecoding.result (PyStr.strip text) "plain_text"
         [("barcode_type"%string, QRDecoding.VStr (QRDecoding.b_type b))]
  /\ Main.read_register_number (QRDecoding.classify_text text)
     = (true, Some cut)
  /\ Main.read_register_number (QRDecoding.classify_barcode b)
     = (true, Some cut)
  /\ String.length cut = 7.
Proof.
  intros Hd Hlen Hb cut.
  set (data := PyStr.strip text) in *.
  assert (H7 : (String.length data =? 7) = false)
    by (apply Nat.eqb_neq; lia).
  assert (H59 : QRDecoding.len_5_9 data = false).
  { unfold QRDecoding.len_5_9.
    destruct (Nat.leb_spec (String.length data) 9); [lia|].
    apply andb_false_r. }
  assert (Hpat : Main.search_patterns data = Some cut).
  { unfold Main.search_patterns, PyStr.search_digits7.
    rewrite <- length_chars in Hlen.
    destruct (PyStr.chars data) as [|c l] eqn:E; [simpl in Hlen; lia|].
    cbn [PyStr.search_digits7_from].
    rewrite (@digits_at_head 7 (c :: l) Hd) by lia.
    reflexivity. }
  assert (Hread :
    forall more,
      QRDecoding.get more "register_number" = None ->
      Main.read_register_number (QRDecoding.result data "plain_text" more)
      = (true, Some cut)).
  { intros more Hm. unfold Main.read_register_number. simpl.
    unfold QRDecoding.get in *. simpl.
    destruct (find _ more); [discriminate|]. simpl.
    rewrite H7, H59, !andb_false_r, Hpat. reflexivity. }
  assert (Hc1 : QRDecoding.classify_text text
                = QRDecoding.result data "plain_text" []).
  { unfold QRDecoding.classify_text. fold data.
    rewrite H7, H59, !andb_false_r. reflexivity. }
  assert (Hc2 : QRDecoding.classify_barcode b
                = QRDecoding.result data "plain_text"
                    [("barcode_type"%string,
                      QRDecoding.VStr (QRDecoding.b_type b))]).
  { unfold QRDecoding.classify_barcode. rewrite Hb. fold data.
    unfold PyStr.contains. rewrite (not_at_sign _ Hd).
    rewrite H7, H59, !andb_false_r.
    rewrite (@search_seven_long data Hd) by lia. reflexivity. }
  split; [exact Hc1|]. split; [exact Hc2|].
  rewrite Hc1, Hc2. split; [apply Hread; reflexivity|].
  split; [apply Hread; reflexivity|].
  unfold cut. rewrite length_text, length_firstn, length_chars. lia.
Qed.

Lemma long_number_is_cut_witness :
  Main.read_register_number
    (QRDecoding.classify_barcode
       (QRDecoding.mk_barcode "9876543210" "CODE128"))
  = (true, Some "9876543"%string).
Proof.
  assert (Hd : forallb PyStr.is_decimal
                 (PyStr.chars (PyStr.strip "9876543210")) = true)
    by (vm_compute; reflexivity).
  assert (Hlen : 10 <= String.length (PyStr.strip "9876543210"))
    by (vm_compute; lia).
  destruct (@long_number_is_cut
              (QRDecoding.mk_barcode "9876543210" "CODE128") "9876543210"
              Hd Hlen eq_refl) as (_ & _ & _ & H & _).
  exact H.
Defined.

(** ** Statistics of a day *)

Lemma counts_add_up (db : Session) (date : string) :
  AttendanceService.count_status db date "Present"
  + AttendanceService.count_status db date "Late"
  + AttendanceService.count_status db date "Pending"
  = length (counted_rows db date).
Proof.
  unfold AttendanceService.count_status, counted_rows, counted.
  induction (attendance_records db) as [|a l IH]; [reflexivity|].
  cbn [filter].
  destruct (String.eqb (ar_date a) date); cbn [andb]; [|exact IH].
  destruct (String.eqb_spec (ar_status a) "Present") as [E|_].
  { rewrite E. cbn. rewrite <- IH. lia. }
  destruct (String.eqb_spec (ar_status a) "Late") as [E|_].
  { rewrite E. cbn. rewrite <- IH. lia. }
  destruct (String.eqb_spec (ar_status a) "Pending") as [E|_].
  { cbn. rewrite <- IH. lia. }
  cbn. exact IH.
Qed.

Lemma filter_partition {A : Type} (p : A -> bool) (l : list A) :
  length (filter p l) + length (filter (fun x => negb (p x)) l) = length l.
Proof.
  induction l as [|x l IH]; [reflexivity|]. simpl.
  destruct (p x); simpl; lia.
Qed.

Lemma filter_and {A : Type} (p q : A -> bool) (l : list A) :
  filter (fun x => p x && q x) l = filter q (filter p l).
Proof.
  induction l as [|x l IH]; [reflexivity|]. simpl.
  destruct (p x); simpl; [|exact IH]. destruct (q x); congruence.
Qed.

Lemma filter_keeps_distinct {Row Key : Type} (key : Row -> Key)
  (keep : Row -> bool) (rows : list Row) :
  NoDup (map key rows) -> NoDup (map key (filter keep rows)).
Proof.
  induction rows as [|row rows IH]; simpl; [auto|].
  intros H. inversion H as [|? ? Hnotin Hnd]; subst.
  destruct (keep row); simpl; [|auto]. constructor; [|auto].
  intros Hin. apply Hnotin. apply in_map_iff in Hin.
  destruct Hin as (other & Hkey & Hin). apply filter_In in Hin.
  rewrite <- Hkey. apply in_map. tauto.
Qed.

Lemma NoDup_map_fst {A B C : Type} (f : A -> B) (g : A -> C) (l : list A) :
  NoDup (map (fun x => (f x, g x)) l) ->
  (forall x y, In x l -> In y l -> g x = g y) ->
  NoDup (map f l).
Proof.
  induction l as [|x l IH]; simpl; [constructor|].
  intros H Hg. inversion H as [|? ? Hnotin Hnd]; subst.
  constructor.
  - intros Hin. apply Hnotin. apply in_map_iff in Hin.
    destruct Hin as (y & Hy & Hin). apply in_map_iff. exists y.
    split; [|exact Hin]. rewrite Hy. f_equal. apply Hg; auto.
  - apply IH; [exact Hnd|]. intros; apply Hg; auto.
Qed.

Lemma same_members_same_length {A : Type} (l l' : list A) :
  NoDup l -> NoDup l' -> incl l l' -> incl l' l -> length l = length l'.
Proof.
  intros H1 H2 H3 H4. apply Nat.le_antisymm; apply NoDup_incl_length; auto.
Qed.

Lemma marked_on_spec (db : Session) (date : string) (s : Student) :
  marked_on db date s = true
  <-> exists a, In a (counted_rows db date)
                /\ ar_student_register_number a = st_register_number s.
Proof.
  unfold marked_on, counted_rows. rewrite existsb_exists. split.
  - intros (a & Hin & H). apply andb_true_iff in H. destruct H as [H Hc].
    apply andb_true_iff in H. destruct H as [Hr Hd].
    apply String.eqb_eq in Hr. exists a. split; [|exact Hr].
    apply filter_In. split; [exact Hin|]. rewrite Hd, Hc. reflexivity.
  - intros (a & Hin & Hr). apply filter_In in Hin. destruct Hin as [Hin H].
    apply andb_true_iff in H. destruct H as [Hd Hc].
    exists a. split; [exact Hin|].
    rewrite Hr, String.eqb_refl, Hd, Hc. reflexivity.
Qed.

(** The rows counted for a date and the active students marked on it are
    as many. *)
Lemma counted_rows_marked (db : Session) (date : string) :
  one_per_day db ->
  NoDup (map st_register_number (filter st_is_active (students db))) ->
  (forall a, In a (counted_rows db date) ->
     exists s, In s (students db) /\ st_is_active s = true
               /\ st_register_number s = ar_student_register_number a) ->
  length (counted_rows db date)
  = length (filter (marked_on db date) (filter st_is_active (students db))).
Proof.
  intros Hone Hreg Hrows.
  rewrite <- (length_map ar_student_register_number).
  rewrite <- (length_map st_register_number (filter (marked_on db date) _)).
  apply same_members_same_length.
  - apply NoDup_map_fst with (g := ar_date).
    + unfold counted_rows. apply filter_keeps_distinct. exact Hone.
    + intros x y Hx Hy. unfold counted_rows in *.
      apply filter_In in Hx. apply filter_In in Hy.
      destruct Hx as [_ Hx], Hy as [_ Hy].
      apply andb_true_iff in Hx. apply andb_true_iff in Hy.
      destruct Hx as [Hx _], Hy as [Hy _].
      apply String.eqb_eq in Hx. apply String.eqb_eq in Hy. congruence.
  - apply filter_keeps_distinct. exact Hreg.
  - intros r Hr. apply in_map_iff in Hr. destruct Hr as (a & <- & Ha).
    destruct (Hrows a Ha) as (s & Hs & Hact & Hreq).
    apply in_map_iff. exists s. split; [exact Hreq|].
    apply filter_In. split.
    + apply filter_In. auto.
    + apply marked_on_spec. exists a. auto.
  - intros r Hr. apply in_map_iff in Hr. destruct Hr as (s & <- & Hs).
    apply filter_In in Hs. destruct Hs as [_ Hm].
    apply marked_on_spec in Hm. destruct Hm as (a & Ha & Hreq).
    apply in_map_iff. exists a. auto.
Qed.

(** X17. [get_attendance_stats] subtracts: absent is the number of active
    students minus the rows counted as present, late or pending. When the
    table has one row per student and day, the active students have
    distinct register numbers and every counted row of the date belongs
    to an active student, the counted rows are as many as the active
    students marked that day, and absent is exactly the number of active
    students without such a row; it is not negative. *)
Theorem absent_counts_unmarked (percentage : nat -> nat -> Q)
  (date : option string) (today : string) (db : Session) :
  let stats := AttendanceService.get_attendance_stats percentage date today
                 db in
  let day := AttendanceService.s_date stats in
  one_per_day db ->
  NoDup (map st_register_number (filter st_is_active (students db))) ->
  (forall a, In a (counted_rows db day) ->
     exists s, In s (students db) /\ st_is_active s = true
               /\ st_register_number s = ar_student_register_number a) ->
  AttendanceService.s_absent stats
  = Z.of_nat (length (filter (fun s => st_is_active s
                                       && negb (marked_on db day s))
                             (students db)))
  /\ AttendanceService.s_present stats + AttendanceService.s_late stats
     + AttendanceService.s_pending stats
     = length (filter (fun s => st_is_active s && marked_on db day s)
                      (students db))
  /\ (0 <= AttendanceService.s_absent stats)%Z.
Proof.
  intros stats day Hone Hreg Hrows.
  assert (Hsum : AttendanceService.s_present stats
                 + AttendanceService.s_late stats
                 + AttendanceService.s_pending stats
                 = length (counted_rows db day))
    by apply counts_add_up.
  assert (Habs : AttendanceService.s_absent stats
                 = (Z.of_nat (length (filter st_is_active (students db)))
                    - Z.of_nat (length (counted_rows db day)))%Z).
  { rewrite <- Hsum. reflexivity. }
  pose proof (counted_rows_marked day Hone Hreg Hrows) as Hlen.
  pose proof (filter_partition (marked_on db day)
                (filter st_is_active (students db))) as Hpart.
  rewrite !filter_and.
  assert (Hfinal : AttendanceService.s_absent stats
                   = Z.of_nat (length (filter (fun s => negb (marked_on db day s))
                                         (filter st_is_active (students db)))))
    by lia.
  split; [exact Hfinal|]. split; [lia|lia].
Qed.

Lemma absent_counts_unmarked_witness :
  AttendanceService.s_absent
    (AttendanceService.get_attendance_stats (fun _ _ => 50.0%Q)
       (Some "2025-01-15"%string) "2025-01-16"
       (mk_Session [Scenario.asha; Scenario.ravi] [Scenario.marked] []))
  = 1%Z.
Proof.
  destruct (@absent_counts_unmarked (fun _ _ => 50.0%Q)
              (Some "2025-01-15"%string) "2025-01-16"
              (mk_Session [Scenario.asha; Scenario.ravi] [Scenario.marked] []))
    as (H & _).
  - unfold one_per_day. simpl. constructor; [intros []|constructor].
  - simpl. constructor; [intros [H|[]]; discriminate|].
    constructor; [intros []|constructor].
  - simpl. intros a [<-|[]]. exists Scenario.asha. simpl. auto.
  - etransitivity; [exact H|reflexivity].
Defined.

(** Without these conditions the subtraction goes below zero: a capture
    of an unknown face adds a Pending row that belongs to no student. *)
Example unknown_capture_makes_absent_negative :
  AttendanceService.s_absent
    (AttendanceService.get_attendance_stats (fun _ _ => 100.0%Q) None
       "2025-01-15"
       (snd (Main.create_pending_verification (Scenario.app None 0.1%Q)
               Scenario.image_data Scenario.afternoon
               (Scenario.marked_db Scenario.asha))))
  = (-1)%Z.
Proof. vm_compute. reflexivity. Qed.

(** ** The route [/verify_pending] *)

(** X18. The route [/verify_pending] resolves a pending row once. It
    never changes students or pending verifications; an unauthorised user
    gets 403 and every error leaves the database as it was; and after a
    call that succeeded, every further call on the same row, by any
    authorised user with any action, answers 400 "Pending attendance record
    not found" and changes nothing. *)
Theorem verify_pending_once (service : AttendanceService.t)
  (current_user : Main.User) (attendance_id : nat) (action : string)
  (notes : option string) (utcnow : datetime) (db : Session) :
  let out := Main.verify_pending (Some service) current_user attendance_id
               action notes utcnow db in
  students (snd out) = students db
  /\ pending_verifications (snd out) = pending_verifications db
  /\ (Main.authorized current_user = false ->
      out = (HTTPException 403 "Not authorized to verify attendance", db))
  /\ (forall code detail,
        fst out = HTTPException code detail -> snd out = db)
  /\ (forall reply,
        fst out = Return reply ->
        Main.authorized current_user = true
        /\ r_status reply = "success"%string
        /\ forall user' action' notes' utcnow',
             Main.authorized user' = true ->
             Main.verify_pending (Some service) user' attendance_id action'
               notes' utcnow' (snd out)
             = (HTTPException 400 "Pending attendance record not found",
                snd out)).
Proof.
  unfold Main.verify_pending at 1.
  destruct (Main.authorized current_user) eqn:Hauth; simpl;
    [|repeat split; auto; intros; discriminate].
  pose proof (@service_resolution_is_terminal service attendance_id action
                (Main.username current_user) notes utcnow db) as Hterm.
  simpl in Hterm.
  assert (Hframe :
    let r := AttendanceService.verify_pending_attendance service
               attendance_id action (Main.username current_user) notes utcnow
               db in
    students (snd r) = students db
    /\ pending_verifications (snd r) = pending_verifications db
    /\ (r_status (fst r) = "error"%string -> snd r = db)
    /\ (r_status (fst r) = "error"%string
        \/ r_status (fst r) = "success"%string)).
  { unfold AttendanceService.verify_pending_attendance.
    repeat (break_match; simpl); repeat split; auto; discriminate. }
  destruct (AttendanceService.verify_pending_attendance service attendance_id
              action (Main.username current_user) notes utcnow db)
    as [result db1].
  simpl in Hterm, Hframe. destruct Hframe as (Hst & Hpv & Herr & Hcases).
  destruct (String.eqb_spec (r_status result) "error") as [E|E]; simpl.
  - split; [exact Hst|]. split; [exact Hpv|]. split; [discriminate|].
    split; [intros _ _ _; exact (Herr E)|discriminate].
  - destruct Hcases as [Hc|Hc]; [contradiction|].
    split; [exact Hst|]. split; [exact Hpv|]. split; [discriminate|].
    split; [discriminate|].
    intros reply Hr. inversion Hr; subst reply.
    split; [reflexivity|]. split; [exact Hc|].
    intros user' action' notes' utcnow' Hauth'.
    unfold Main.verify_pending. rewrite Hauth'. simpl.
    rewrite (Hterm Hc). reflexivity.
Qed.

(** ** The route [/mark_attendance] *)

Lemma flagged_row_data (a a' : AttendanceRecord) :
  flagged a a' -> row_data a' = row_data a.
Proof. intros [->| ->]; reflexivity. Qed.

Lemma forgot_id_pending (self : AttendanceService.t) (image_data : bytes)
  (register_number : string) (now : datetime) (db : Session) :
  pending_outcome now db
    (AttendanceService._handle_forgot_id_attendance self image_data
       register_number now (strftime_Ymd (date_of now)) db).
Proof.
  unfold AttendanceService._handle_forgot_id_attendance.
  repeat (break_match; simpl; try discriminate);
    try (left; eexists; reflexivity).
  right.
  match goal with
  | |- context [AttendanceService.notify self ?a _] =>
      destruct (@service_notify_added self db a eq_refl)
        as (a' & Hfl & Hrec & Hst & Hpv); unfold added in Hrec, Hst, Hpv;
      eexists; eexists; eexists; exists a, a'
  end.
  split; [reflexivity|]. repeat split; auto.
Qed.

Lemma face_only_pending (self : AttendanceService.t) (image_data : bytes)
  (now : datetime) (db : Session) :
  pending_outcome now db
    (AttendanceService._handle_face_only_attendance self image_data now
       (strftime_Ymd (date_of now)) db).
Proof.
  unfold AttendanceService._handle_face_only_attendance.
  repeat (break_match; simpl; try discriminate);
    try (left; eexists; reflexivity).
  right.
  match goal with
  | |- context [AttendanceService.notify self ?a _] =>
      destruct (@service_notify_added self db a eq_refl)
        as (a' & Hfl & Hrec & Hst & Hpv); unfold added in Hrec, Hst, Hpv;
      eexists; eexists; eexists; exists a, a'
  end.
  split; [reflexivity|]. repeat split; auto.
Qed.

Lemma without_token_pending (service : AttendanceService.t)
  (image_data : bytes) (manual_register_number : option string)
  (now : datetime) (db : Session) :
  pending_outcome now db
    (AttendanceService.mark_attendance service image_data None
       manual_register_number now db).
Proof.
  unfold AttendanceService.mark_attendance. simpl.
  destruct (nonempty manual_register_number);
    [apply forgot_id_pending|apply face_only_pending].
Qed.

Lemma flag_keeps_row_data (l : list AttendanceRecord) (x : AttendanceRecord) :
  NoDup (map ar_id l) -> In x l ->
  map row_data
    (map (fun y => if ar_id y =? ar_id x
                   then set_notification_sent x true else y) l)
  = map row_data l.
Proof.
  intros Hnd Hin. rewrite map_map. apply map_ext_in. intros y Hy. simpl.
  destruct (ar_id y =? ar_id x) eqn:E; [|reflexivity].
  rewrite (@update_only_row l x y (ar_id x) Hnd Hin eq_refl Hy E).
  reflexivity.
Qed.

Lemma notification_keeps_rows (app : Main.App) (x : AttendanceRecord)
  (db : Session) :
  NoDup (map ar_id (attendance_records db)) -> In x (attendance_records db) ->
  (map row_data
     (attendance_records (Main.send_missing_id_notification app x db))
   = map row_data (attendance_records db)
   /\ students (Main.send_missing_id_notification app x db) = students db
   /\ pending_verifications (Main.send_missing_id_notification app x db)
      = pending_verifications db)
  /\ (map row_data (attendance_records (Main.send_late_notification app x db))
      = map row_data (attendance_records db)
      /\ students (Main.send_late_notification app x db) = students db
      /\ pending_verifications (Main.send_late_notification app x db)
         = pending_verifications db).
Proof.
  intros Hnd Hin.
  unfold Main.send_missing_id_notification, Main.send_late_notification.
  destruct (Main.send_attendance_notification app (ar_id x)) as [status|e];
    [|auto].
  destruct (String.eqb status "success"); [|auto].
  unfold update_attendance. simpl.
  rewrite (@flag_keeps_row_data _ _ Hnd Hin). auto.
Qed.

Lemma fresh_keeps_ids_distinct (db : Session) (a a' : AttendanceRecord) :
  NoDup (map ar_id (attendance_records db)) ->
  fresh db a -> flagged a a' ->
  NoDup (map ar_id (attendance_records db ++ [a'])).
Proof.
  intros Hnd Hfresh Hfl. rewrite map_app. simpl. apply NoDup_snoc; [exact Hnd|].
  intros Hin. apply next_id_fresh in Hin.
  assert (ar_id a' = ar_id a) by (destruct Hfl as [->| ->]; reflexivity).
  unfold fresh in Hfresh. lia.
Qed.

(** X19. The route [/mark_attendance] hands the decoded token, not its
    image, to the service, which decodes it as an image again. Unless the
    decoded value is a string, a token that was read therefore always ends
    in an error with nothing written, and whatever the route writes is at
    most one row, which is Pending: it never records Present or Late.
    Students and pending verifications are never changed. *)
Theorem token_route_never_marks_arrival (app : Main.App)
  (service : AttendanceService.t) (qr_service : option QRDecoding.t)
  (face_image_data : bytes) (qr_image : option bytes)
  (register_number : option string) (now later : datetime) (db : Session) :
  NoDup (map ar_id (attendance_records db)) ->
  (forall s, Main.read_token qr_service qr_image
             <> QRDecoding.JValue (QRDecoding.VStr s)) ->
  let out := Main.mark_attendance_with_liveness app (Some service) qr_service
               face_image_data qr_image register_number now later db in
  students (snd out) = students db
  /\ pending_verifications (snd out) = pending_verifications db
  /\ (QRDecoding.truth (Main.read_token qr_service qr_image) = true ->
      exists message, out = (Return (error_reply message), db))
  /\ (map row_data (attendance_records (snd out))
      = map row_data (attendance_records db)
      \/ exists a,
           map row_data (attendance_records (snd out))
           = map row_data (attendance_records db) ++ [row_data a]
           /\ ar_status a = "Pending"%string
           /\ ar_verification_status a = "pending"%string
           /\ ar_time a = now).
Proof.
  intros Hnd Htext. unfold Main.mark_attendance_with_liveness.
  set (qr_decoded := Main.read_token qr_service qr_image) in *.
  cbv zeta. unfold Main.mark_attendance_on.
  destruct (QRDecoding.truth qr_decoded) eqn:Htruth.
  - rewrite Htruth.
    assert (Herr :
      exists message,
        match qr_decoded with
        | QRDecoding.JValue (QRDecoding.VStr s) =>
            AttendanceService.mark_attendance service face_image_data
              (Some s) register_number now db
        | _ =>
            match AttendanceService.qr_service service with
            | Some _ => (error_reply "Invalid or unreadable QR code", db)
            | None =>
                (error_reply
                   ("Failed to process face+QR attendance: " ++
                    "'NoneType' object has no attribute 'decode_qr_from_image'"),
                 db)
            end
        end = (error_reply message, db)).
    { destruct qr_decoded as [items|[s| | | |]];
        try (destruct (AttendanceService.qr_service service);
             eexists; reflexivity).
      contradiction (Htext s eq_refl). }
    destruct Herr as (message & ->). simpl.
    repeat split; auto. exists message. reflexivity.
  - assert (Hnone : QRDecoding.truth QRDecoding.none = false) by reflexivity.
    rewrite Hnone.
    pose proof (without_token_pending service face_image_data register_number
                  now db) as Hout.
    destruct (AttendanceService.mark_attendance service face_image_data None
                register_number now db) as [result db1].
    destruct Hout as [(message & Hout)|Hout].
    + inversion Hout; subst. simpl. repeat split; auto. discriminate.
    + destruct Hout
        as (student & c & message & a & a' & Hreply & Hfresh & Hfl & Hrec
            & Hst & Hpv & Hs & Hv & Ht).
      simpl in Hreply, Hrec, Hst, Hpv. subst result. simpl.
      assert (Hnd1 : NoDup (map ar_id (attendance_records db1)))
        by (rewrite Hrec; exact (@fresh_keeps_ids_distinct _ _ _ Hnd Hfresh Hfl)).
      assert (Hrows : map row_data (attendance_records db1)
                      = map row_data (attendance_records db) ++ [row_data a])
        by (rewrite Hrec, map_app; simpl;
            rewrite (@flagged_row_data _ _ Hfl); reflexivity).
      destruct (query_attendance db1 (st_register_number student)
                  (strftime_Ymd (date_of later))) as [x|] eqn:Hq;
        [|simpl; repeat split; auto; [discriminate|right; exists a; auto]].
      destruct (query_student db1 (st_register_number student));
        [|simpl; repeat split; auto; [discriminate|right; exists a; auto]].
      simpl.
      assert (Hin : In x (attendance_records db1))
        by (unfold query_attendance in Hq; apply find_some in Hq; tauto).
      destruct (@notification_keeps_rows app _ _ Hnd1 Hin)
        as ((Hr & Hs' & Hp') & _).
      split; [congruence|]. split; [congruence|]. split; [discriminate|].
      right. exists a. rewrite Hr. auto.
Qed.

Lemma token_route_never_marks_arrival_witness :
  QRDecoding.decode_qr_from_image card_reader []
  = QRDecoding.result "2022026" "register_number"
      [("barcode_type"%string, QRDecoding.VStr "CODE128")]
  /\ exists message,
       Main.mark_attendance_with_liveness (Scenario.app None 0.8%Q)
         (Some (Scenario.service None 0.8%Q)) (Some card_reader)
         Scenario.image_data (Some []) None Scenario.at_cutoff
         Scenario.at_cutoff (Scenario.empty_db Scenario.asha)
       = (Return (error_reply message), Scenario.empty_db Scenario.asha).
Proof.
  split; [vm_compute; reflexivity|].
  destruct (@token_route_never_marks_arrival (Scenario.app None 0.8%Q)
              (Scenario.service None 0.8%Q) (Some card_reader)
              Scenario.image_data (Some []) None Scenario.at_cutoff
              Scenario.at_cutoff (Scenario.empty_db Scenario.asha))
    as (_ & _ & H & _).
  - simpl. constructor.
  - intros s E. vm_compute in E. discriminate E.
  - apply H. vm_compute. reflexivity.
Defined.

(** ** Deactivated students *)

Lemma deactivated_query (db : Session) (r : string) :
  deactivated db r -> query_active_student db r = None.
Proof.
  intros Hd. destruct (query_active_student db r) as [s|] eqn:E;
    [|reflexivity].
  apply query_active_student_sound in E. destruct E as (Hin & Hact & Hr).
  rewrite (Hd s Hin Hr) in Hact. discriminate.
Qed.

Lemma deactivate_by_id (l : list Student) (student : Student) :
  NoDup (map st_id l) -> NoDup (map st_register_number l) -> In student l ->
  forall s,
    In s (map (fun x => if st_id x =? st_id student
                        then Main.set_is_active student false else x) l) ->
    st_register_number s = st_register_number student ->
    st_is_active s = false.
Proof.
  intros Hid Hreg Hin s Hs Hr. apply in_map_iff in Hs.
  destruct Hs as (x & Hx & Hxin).
  destruct (st_id x =? st_id student) eqn:E.
  - subst s. reflexivity.
  - subst s.
    assert (x = student)
      by exact (@NoDup_map_eq _ _ st_register_number l x student Hreg Hxin
                  Hin Hr).
    subst x. rewrite Nat.eqb_refl in E. discriminate.
Qed.

(** X20. After [delete_student] has deactivated a student (distinct ids
    and register numbers), attendance rows, pending verifications and the
    register numbers of the roster are as before, and the student can no
    longer be marked: no call of [AttendanceService.mark_attendance] adds a
    row for the register number, [mark_attendance_verified] for it answers
    Case B and writes nothing, and [find_matching_student] never returns
    the student. *)
Theorem deactivated_student_is_not_marked (current_user : Main.User)
  (student_id : nat) (db db' : Session) (users users' : list Main.Account)
  (reply : Main.Deactivation) :
  NoDup (map st_id (students db)) ->
  NoDup (map st_register_number (students db)) ->
  Main.delete_student current_user student_id db users
  = (Return reply, db', users') ->
  let r := Main.dr_student_register_number reply in
  (exists s, In s (students db) /\ st_id s = student_id
             /\ st_register_number s = r)
  /\ attendance_records db' = attendance_records db
  /\ pending_verifications db' = pending_verifications db
  /\ map st_register_number (students db')
     = map st_register_number (students db)
  /\ deactivated db' r
  /\ (forall service image_data qr_data manual_register_number now a,
        In a (attendance_records
                (snd (AttendanceService.mark_attendance service image_data
                        qr_data manual_register_number now db'))) ->
        ar_student_register_number a = r ->
        In a (attendance_records db))
  /\ (forall app image_data now,
        Main.mark_attendance_verified app image_data r now db'
        = (Main.case_B, db'))
  /\ (forall fs image_data s c,
        FaceRecognitionService.find_matching_student fs image_data db'
        = Some (s, c) ->
        st_register_number s <> r).
Proof.
  intros Hid Hreg. unfold Main.delete_student.
  destruct (negb (Main.authorized current_user)); [discriminate|].
  destruct (find _ (students db)) as [student|] eqn:Hfind; [|discriminate].
  intros H. inversion H; subst reply db' users'. clear H. simpl.
  pose proof (find_some _ _ Hfind) as [Hin Hsid].
  apply Nat.eqb_eq in Hsid.
  assert (Hd : deactivated (update_student db (Main.set_is_active student false))
                 (st_register_number student)).
  { intros s Hs Hr. simpl in Hs.
    exact (@deactivate_by_id _ student Hid Hreg Hin s Hs Hr). }
  split; [exists student; auto|].
  split; [reflexivity|]. split; [reflexivity|].
  split.
  { rewrite map_map. apply map_ext_in. intros x Hx.
    destruct (Nat.eqb_spec (st_id x) (st_id student)) as [E|_];
      [|reflexivity].
    simpl. symmetry. f_equal.
    exact (@NoDup_map_eq _ _ st_id _ x student Hid Hx Hin E). }
  split; [exact Hd|].
  split.
  { intros service image_data qr_data manual now a Ha Hr.
    destruct (@service_marks service image_data qr_data manual now
                (update_student db (Main.set_is_active student false)))
      as (Hm & Hst & _).
    destruct Hm as [[_ Hrec]|(_ & a' & s & Hrec & _ & Hs & Hact & Hreq & _)].
    - rewrite Hrec in Ha. exact Ha.
    - rewrite Hrec in Ha. apply in_app_or in Ha.
      destruct Ha as [Ha|[<-|[]]]; [exact Ha|].
      rewrite Hst in Hs. rewrite Hreq in Hr.
      rewrite (Hd s Hs Hr) in Hact. discriminate. }
  split.
  { intros app image_data now. unfold Main.mark_attendance_verified.
    rewrite (deactivated_query Hd). reflexivity. }
  intros fs image_data s c Hf Hr.
  apply find_matching_student_active in Hf. destruct Hf as [Hs Hact].
  rewrite (Hd s Hs Hr) in Hact. discriminate.
Qed.

Lemma deactivated_student_is_not_marked_witness :
  Main.mark_attendance_verified (Scenario.app None 0.8%Q) Scenario.image_data
    "2022026" Scenario.at_cutoff
    (update_student (mk_Session [Scenario.asha; Scenario.ravi] [] [])
       (Main.set_is_active Scenario.asha false))
  = (Main.case_B,
     update_student (mk_Session [Scenario.asha; Scenario.ravi] [] [])
       (Main.set_is_active Scenario.asha false)).
Proof.
  assert (E : Main.delete_student Scenario.admin 1
                (mk_Session [Scenario.asha; Scenario.ravi] [] [])
                [Main.mk_Account "2022026" "student" true]
              = (Return (Main.mk_Deactivation
                           "Student and associated credentials deactivated successfully"
                           "2022026" true),
                 update_student
                   (mk_Session [Scenario.asha; Scenario.ravi] [] [])
                   (Main.set_is_active Scenario.asha false),
                 [Main.mk_Account "2022026" "student" false]))
    by (vm_compute; reflexivity).
  assert (Hid : NoDup (map st_id [Scenario.asha; Scenario.ravi]))
    by (simpl; constructor;
        [intros [H|[]]; discriminate|constructor; [intros []|constructor]]).
  assert (Hreg : NoDup (map st_register_number [Scenario.asha; Scenario.ravi]))
    by (simpl; constructor;
        [intros [H|[]]; discriminate|constructor; [intros []|constructor]]).
  destruct (@deactivated_student_is_not_marked Scenario.admin 1
              (mk_Session [Scenario.asha; Scenario.ravi] [] []) _ _ _ _
              Hid Hreg E)
    as (_ & _ & _ & _ & _ & _ & H & _).
  apply H.
Defined.

(** ** Approval of a Case C review *)

Ltac route_failed :=
  simpl; repeat split; intros; subst;
  try discriminate; try contradiction; try (eexists; reflexivity);
  try match goal with
      | H : HTTPException _ _ = HTTPException _ _ |- _ =>
          inversion H; subst; reflexivity
      end;
  auto.

(** X21. [verify_pending_attendance] of the route
    [/verify_pending_attendance/{verification_id}] reads
    [pending_verification.timestamp]. Where pending verifications have no
    such attribute, as the table is declared, an approval can never
    succeed: it answers 500 and writes nothing. The route then never
    touches attendance rows or students, every failure (also 403, 404 and
    400) is answered as 500 with the database as it was, and the only answer
    that is not a failure is that of a rejection, which changes the status
    of the pending verification alone. *)
Theorem approval_fails_without_timestamp (app : Main.App)
  (current_user : Main.User) (verification_id : nat) (action : string)
  (register_number : option string) (notes : string) (db : Session) :
  (forall p, Main.timestamp app p = None) ->
  let out := Main.verify_pending_attendance app current_user verification_id
               action register_number notes db in
  attendance_records (snd out) = attendance_records db
  /\ students (snd out) = students db
  /\ (action = "approve"%string ->
      exists detail, out = (HTTPException 500 detail, db))
  /\ (forall code detail,
        fst out = HTTPException code detail -> code = 500 /\ snd out = db)
  /\ (forall reply,
        fst out = Return reply ->
        action = "reject"%string
        /\ Main.authorized current_user = true
        /\ r_status reply = "rejected"%string
        /\ exists p,
             find (fun p => Nat.eqb (pv_id p) verification_id)
                  (pending_verifications db) = Some p
             /\ pending_verifications (snd out)
                = pending_verifications
                    (update_pending db
                       (set_pending_review p "rejected" (pv_reviewed_by p)
                          (pv_review_notes p) (pv_reviewed_at p)))).
Proof.
  intros Hts. unfold Main.verify_pending_attendance.
  destruct (Main.authorized current_user) eqn:Hauth; simpl;
    [|route_failed].
  destruct (find _ (pending_verifications db)) as [p|] eqn:Hp;
    [|route_failed].
  destruct (String.eqb_spec action "approve") as [Ea|Ea].
  - destruct (nonempty register_number) as [r|]; [|route_failed].
    destruct (query_student db r); [|route_failed].
    rewrite Hts. route_failed.
  - destruct (String.eqb_spec action "reject") as [Er|Er]; simpl;
      [|route_failed].
    repeat split; intros; try discriminate; try contradiction; auto.
    + match goal with
      | H : Return _ = Return _ |- _ => inversion H; reflexivity
      end.
    + exists p. auto.
Qed.

Lemma approval_fails_without_timestamp_witness :
  exists detail,
    Main.verify_pending_attendance (Scenario.app None 0.8%Q) Scenario.hod 1
      "approve" (Some "2022026"%string) "seen in class" Scenario.pending_db
    = (HTTPException 500 detail, Scenario.pending_db).
Proof.
  destruct (@approval_fails_without_timestamp (Scenario.app None 0.8%Q)
              Scenario.hod 1 "approve" (Some "2022026"%string)
              "seen in class" Scenario.pending_db (fun _ => eq_refl))
    as (_ & _ & H & _).
  exact (H eq_refl).
Defined.
